(** * valkey-glide-php: set, scan and geo command marshalling

    A shallow embedding of [valkey_glide_s_common.c],
    [valkey_glide_geo_common.c] and of the geo entry points
    ([execute_geoadd_command] and friends), followed by the properties of the
    argument encoders, the response decoders, the batch short-circuit and the
    cursor protocol.

    Conventions of the embedding.
    - A [char*] together with its length is a [string] (binary safe, it may
      hold NUL) and a [Z]; a pointer that may be NULL is an [option].
      What [strlen], [strcmp], [estrdup] and [ZVAL_STRING] see of a buffer is
      [cstr]: the bytes before the first NUL.
    - The argument vector [(uintptr_t* args, unsigned long* args_len)] is a
      [list arg]; the encoders fill it front to back, so the list is written
      in the order of the indices.
    - [emalloc] does not return NULL (the engine bails out instead).
    - Calls that leave the binding (the execution engine, the batch buffer,
      the cluster cursor registry, warnings) are recorded as [event]s, in
      program order; what they answer comes from a [Runtime]. *)

From Stdlib Require Import ZArith List String Ascii Bool Lia DecimalString.
From Stdlib Require Import Floats.PrimFloat Floats.FloatOps Floats.SpecFloat Uint63.
Import ListNotations.
Open Scope string_scope.
Open Scope list_scope.
Open Scope Z_scope.

Set Implicit Arguments.
Set Warnings "-register-all,-inexact-float".

(* ===================================================================== *)
(** ** C strings and C integers *)
(* ===================================================================== *)

(** The bytes of a buffer up to its first NUL. *)
Fixpoint cstr (s : string) : string :=
  match s with
  | EmptyString => EmptyString
  | String c r => if Ascii.eqb c Ascii.zero then EmptyString else String c (cstr r)
  end.

Definition strlen (s : string) : Z := Z.of_nat (String.length (cstr s)).

(** [strcmp(a, b) == 0] *)
Definition strcmp_eq (a b : string) : bool := String.eqb (cstr a) (cstr b).

Definition estrdup (s : string) : string := cstr s.

(** Byte length of a PHP string ([Z_STRLEN]) or of a literal. *)
Definition blen (s : string) : Z := Z.of_nat (String.length s).

(** Conversion of an [unsigned long] count to the [int] the encoders
    return: reduction modulo 2^32 into the signed range. *)
Definition to_int (z : Z) : Z := (z + 2147483648) mod 4294967296 - 2147483648.

Definition INT_MAX : Z := 2147483647.

(** [snprintf(temp, sizeof(temp), "%ld", value)] *)
Definition snprintf_ld (value : Z) : string := NilZero.string_of_int (Z.to_int value).

Definition ascii_lower (c : ascii) : ascii :=
  let n := nat_of_ascii c in
  if andb (Nat.leb 65 n) (Nat.leb n 90) then ascii_of_nat (n + 32) else c.

Fixpoint string_lower (s : string) : string :=
  match s with
  | EmptyString => EmptyString
  | String c r => String (ascii_lower c) (string_lower r)
  end.

(** [strcasecmp(a, b) == 0] *)
Definition strcasecmp_eq (a b : string) : bool :=
  String.eqb (string_lower (cstr a)) (string_lower (cstr b)).

(* ===================================================================== *)
(** ** Host values (zval) *)
(* ===================================================================== *)

Inductive zkey : Type :=
| KIdx (i : Z)
| KStr (s : string).

Definition zkey_eqb (a b : zkey) : bool :=
  match a, b with
  | KIdx i, KIdx j => Z.eqb i j
  | KStr s, KStr t => String.eqb s t
  | _, _ => false
  end.

Inductive zval : Type :=
| IS_NULL
| IS_FALSE
| IS_TRUE
| IS_LONG (lval : Z)
| IS_DOUBLE (dval : float)
| IS_STRING (str : string)
| IS_ARRAY (arr : list (zkey * zval))
| IS_OBJECT (handle : Z).

(** An ordered hash table, as the host language has it. *)
Definition HashTable : Type := list (zkey * zval).

Definition array_init : zval := IS_ARRAY [].

Definition nNextFreeElement (ht : HashTable) : Z :=
  fold_left (fun n kv => match fst kv with KIdx i => Z.max n (i + 1) | KStr _ => n end) ht 0.

Definition zend_hash_next_index_insert (ht : HashTable) (v : zval) : HashTable :=
  ht ++ [(KIdx (nNextFreeElement ht), v)].

Fixpoint zend_hash_update (ht : HashTable) (k : zkey) (v : zval) : HashTable :=
  match ht with
  | [] => [(k, v)]
  | (k', v') :: r =>
      if zkey_eqb k k' then (k, v) :: r else (k', v') :: zend_hash_update r k v
  end.

Fixpoint zend_hash_find (ht : HashTable) (k : zkey) : option zval :=
  match ht with
  | [] => None
  | (k', v) :: r => if zkey_eqb k k' then Some v else zend_hash_find r k
  end.

Definition zend_hash_index_find (ht : HashTable) (i : Z) : option zval :=
  zend_hash_find ht (KIdx i).

Definition zend_hash_str_find (ht : HashTable) (s : string) : option zval :=
  zend_hash_find ht (KStr s).

Definition zend_hash_num_elements (ht : HashTable) : Z := Z.of_nat (List.length ht).

Definition add_next_index_double (ht : HashTable) (d : float) : HashTable :=
  zend_hash_next_index_insert ht (IS_DOUBLE d).

Definition add_next_index_long (ht : HashTable) (l : Z) : HashTable :=
  zend_hash_next_index_insert ht (IS_LONG l).

Definition add_next_index_stringl (ht : HashTable) (s : string) : HashTable :=
  zend_hash_next_index_insert ht (IS_STRING s).

Definition add_next_index_null (ht : HashTable) : HashTable :=
  zend_hash_next_index_insert ht IS_NULL.

Definition add_next_index_zval (ht : HashTable) (v : zval) : HashTable :=
  zend_hash_next_index_insert ht v.

(** [ZVAL_STRING(z, s)]: the copy stops at the first NUL of [s]. *)
Definition ZVAL_STRING (s : string) : zval := IS_STRING (cstr s).

(* ===================================================================== *)
(** ** Typed responses of the execution engine *)
(* ===================================================================== *)

Module Response.

(** [struct CommandResponse], by its [response_type] tag.  The core leaves
    the fields of the variants the tag does not select at zero, which is
    what the untagged accessors below return. *)
Inductive CommandResponse : Type :=
| Null
| Int (int_value : Z)
| Float (float_value : float)
| Bool (bool_value : bool)
| String (string_value : string)
| Array (array_value : list CommandResponse)
| Map (pairs : list (CommandResponse * CommandResponse))
| Sets (sets_value : list CommandResponse)
| Ok
| Error (message : string).

Definition array_value (r : CommandResponse) : list CommandResponse :=
  match r with Array l => l | _ => [] end.

Definition array_value_len (r : CommandResponse) : Z :=
  Z.of_nat (List.length (array_value r)).

End Response.

Abbreviation CommandResponse := Response.CommandResponse.

Record CommandResult : Type := {
  command_error : option string;
  response : option CommandResponse
}.

Inductive assoc_mode : Type :=
| COMMAND_RESPONSE_NOT_ASSOSIATIVE
| COMMAND_RESPONSE_SCAN_ASSOSIATIVE_ARRAY.

Inductive RequestType : Type :=
| SAdd | SCard | SRandMember | SIsMember | SMembers | SRem | SMove | SPop
| SMIsMember | SInter | SInterCard | SInterStore | SUnion | SUnionStore
| SDiff | SDiffStore | Scan | SScan | HScan | ZScan
| GeoAdd | GeoDist | GeoHash | GeoPos | GeoSearch | GeoSearchStore
| OtherRequest (code : Z).

(** One slot of the argument vector: [args[i]] and [args_len[i]]. *)
Record arg : Type := { arg_ptr : option string; arg_len : Z }.

(** A slot that points at [s] and carries its byte length. *)
Definition arg_of (s : string) : arg := {| arg_ptr := Some s; arg_len := blen s |}.

(* ===================================================================== *)
(** ** Client object, decode contexts, batch entries, events *)
(* ===================================================================== *)

Record valkey_glide_object : Type := {
  glide_client : option Z;
  is_in_batch_mode : bool
}.

(** [scan_data_t]: the decode context of the scan family.  [scan_iter]
    is a pointer to the caller's iterator variable, which the decoder only
    writes: the model keeps whether the pointer is set, and reports the
    value stored through it. *)
Record scan_data_t : Type := {
  sd_cmd_type : RequestType;
  sd_cursor : option string;
  sd_scan_iter : bool
}.

(** The anonymous struct of [process_geo_search_result_async]. *)
Record search_data_t : Type := {
  withcoord : bool;
  withdist : bool;
  withhash : bool
}.

(** What a [void* output] / [void* result_ptr] points at. *)
Inductive result_ptr_t : Type :=
| PtrNull
| PtrScan (d : scan_data_t)
| PtrSearch (d : search_data_t).

(** The decoders, as function pointers. *)
Inductive z_result_processor_t : Type :=
| process_s_int_result_async_fn
| process_s_bool_result_async_fn
| process_s_set_result_async_fn
| process_s_mixed_result_async_fn
| process_s_scan_result_async_fn
| process_geo_int_result_async_fn
| process_geo_double_result_async_fn
| process_geo_hash_result_async_fn
| process_geo_pos_result_async_fn
| process_geo_search_result_async_fn.

(** The arguments of one [buffer_command_for_batch] call. *)
Record batch_entry : Type := {
  be_cmd_type : RequestType;
  be_args : list arg;
  be_arg_count : Z;
  be_result_ptr : result_ptr_t;
  be_process_result : z_result_processor_t
}.

Inductive event : Type :=
| EvExecuteCommand (cmd : RequestType) (arg_count : Z) (args : list arg)
| EvRequestClusterScan (cursor : string) (arg_count : Z) (args : option (list arg))
| EvBufferCommandForBatch (e : batch_entry)
| EvRemoveClusterScanCursor (cursor : string)
| EvWarning (msg : string)
| EvPrintf (msg : string).

Definition is_engine_call (e : event) : bool :=
  match e with
  | EvExecuteCommand _ _ _ | EvRequestClusterScan _ _ _ => true
  | _ => false
  end.

(** What the binding calls and does not define in these files: the generic
    response converter and the string conversions of [command_response.c]
    and [valkey_glide_commands_common.c], the host runtime, libc's [atof],
    the execution engine and the batch buffer. *)
Class Runtime : Type := {
  command_response_to_zval : CommandResponse -> assoc_mode -> bool -> zval -> Z * zval;
  zval_to_string_safe : zval -> option string * Z * bool;
  convert_to_string : zval -> string;
  double_to_string : float -> option string * Z;
  long_to_string : Z -> option string * Z;
  atof : string -> float;
  zval_get_double : zval -> float;
  zval_get_long : zval -> Z;
  zval_is_true : zval -> bool;
  zend_symtable_key : string -> zkey;
  execute_command : RequestType -> Z -> list arg -> option CommandResult;
  request_cluster_scan : string -> Z -> option (list arg) -> option CommandResult;
  buffer_command_for_batch : valkey_glide_object -> batch_entry -> Z
}.

(** [add_assoc_zval_ex]: the runtime derives the array key from the name. *)
Definition add_assoc_zval_ex `{Runtime} (ht : HashTable) (key : string) (v : zval) : HashTable :=
  zend_hash_update ht (zend_symtable_key key) v.

(* ===================================================================== *)
(** ** Set and scan commands: argument structures *)
(* ===================================================================== *)

Inductive s_command_category_t : Type :=
| S_CMD_KEY_MEMBERS | S_CMD_KEY_ONLY | S_CMD_KEY_MEMBER | S_CMD_KEY_COUNT
| S_CMD_MULTI_KEY | S_CMD_MULTI_KEY_LIMIT | S_CMD_DST_MULTI_KEY
| S_CMD_TWO_KEY_MEMBER | S_CMD_SCAN
| S_CMD_OTHER (code : Z).

Inductive s_response_type_t : Type :=
| S_RESPONSE_INT | S_RESPONSE_BOOL | S_RESPONSE_SET | S_RESPONSE_MIXED
| S_RESPONSE_SCAN
| S_RESPONSE_OTHER (code : Z).

(** [s_command_args_t].  [sa_cursor] is the cursor string behind the
    [char**] (every caller stores the address of a live string there);
    [sa_scan_iter] tells whether the pointer to the caller's iterator
    variable is set. *)
Record s_command_args_t : Type := {
  sa_glide_client : option Z;
  sa_key : option string;        sa_key_len : Z;
  sa_member : option string;     sa_member_len : Z;
  sa_members : option (list zval); sa_members_count : Z;
  sa_count : Z;                  sa_has_count : bool;
  sa_keys : option (list zval);  sa_keys_count : Z;
  sa_limit : Z;                  sa_has_limit : bool;
  sa_dst_key : option string;    sa_dst_key_len : Z;
  sa_src_key : option string;    sa_src_key_len : Z;
  sa_cursor : option string;
  sa_pattern : option string;    sa_pattern_len : Z;
  sa_type : option string;       sa_type_len : Z;
  sa_has_type : bool;
  sa_scan_iter : bool
}.

Definition INIT_S_COMMAND_ARGS : s_command_args_t := {|
  sa_glide_client := None;
  sa_key := None;        sa_key_len := 0;
  sa_member := None;     sa_member_len := 0;
  sa_members := None;    sa_members_count := 0;
  sa_count := 0;         sa_has_count := false;
  sa_keys := None;       sa_keys_count := 0;
  sa_limit := 0;         sa_has_limit := false;
  sa_dst_key := None;    sa_dst_key_len := 0;
  sa_src_key := None;    sa_src_key_len := 0;
  sa_cursor := None;
  sa_pattern := None;    sa_pattern_len := 0;
  sa_type := None;       sa_type_len := 0;
  sa_has_type := false;
  sa_scan_iter := false
|}.

(** What an encoder leaves behind: its [int] result, the vector behind
    [*args_out] (NULL when nothing was allocated) and the strings it
    allocated for the caller to free. *)
Record prepared : Type := {
  p_arg_count : Z;
  p_args : option (list arg);
  p_allocated : list string
}.

Definition not_prepared : prepared :=
  {| p_arg_count := 0; p_args := None; p_allocated := [] |}.

Definition is_some {A : Type} (o : option A) : bool :=
  match o with Some _ => true | None => false end.

(** Outcome of a decoder: its [int] result, [*return_value] afterwards
    and, for the scan decoder, [args->cursor] afterwards ([None] once the
    context has been released), the value it stored through [scan_iter]
    and what it printed.  [pr_cursor_literal] tells that [args->cursor]
    was left pointing at a string literal of the program rather than at
    allocated memory: such a pointer must not be handed to [efree]. *)
Record processed : Type := {
  pr_status : Z;
  pr_return_value : zval;
  pr_cursor : option string;
  pr_cursor_literal : bool;
  pr_iter : option zval;
  pr_events : list event
}.

Definition decoded (st : Z) (v : zval) : processed :=
  {| pr_status := st; pr_return_value := v; pr_cursor := None;
     pr_cursor_literal := false; pr_iter := None; pr_events := [] |}.

(** Outcome of the set/scan framework: [s_iter] is the value stored into
    the caller's iterator variable, if any (scan family only). *)
Record s_outcome : Type := {
  s_status : Z;
  s_return_value : zval;
  s_iter : option zval;
  s_events : list event
}.

(** Outcome of an entry point: its [int] result, [*return_value]
    afterwards and the calls it made. *)
Record outcome : Type := {
  ret : Z;
  return_value : zval;
  events : list event
}.

(** The object behind a cluster-mode iterator: what its [getCursor] method
    answers ([None] when the call fails) and its [next_cursor_id] field. *)
Record cluster_scan_cursor_object : Type := {
  getCursor : option zval;
  next_cursor_id : option string
}.

(** The first parameter of SCAN: any value in standalone mode ("z"), a
    cursor object in cluster mode ("O"). *)
Inductive scan_iterator : Type :=
| IterZval (z : zval)
| IterClusterCursor (c : cluster_scan_cursor_object).

(** What a scan entry point stored into its iterator parameter: nothing,
    a value into the caller's variable, or the [next_cursor_id] of the
    cluster cursor object. *)
Inductive iterator_store : Type :=
| IterUntouched
| IterSet (z : zval)
| NextCursorIdSet (id : string).

(** The key list of SINTER: one array argument or variadic keys. *)
Inductive keys_param : Type :=
| KeysArray (ht : HashTable)
| KeysVariadic (keys : list zval).

(** The parameters of SINTERSTORE: one array argument (destination first),
    one argument that is no array, or destination and variadic keys. *)
Inductive store_param : Type :=
| StoreArray (ht : HashTable)
| StoreSingle (v : zval)
| StoreVariadic (dst : string) (keys : list zval).

Section SCommands.

Context {RT : Runtime}.

(* ------------------------------------------------------------------- *)
(** *** Utility functions *)

(** [convert_zval_to_string_args]: the slots written at
    [offset .. offset + count - 1] and the copies it tracked. *)
Fixpoint convert_zval_loop (input : list zval) : list arg * list string :=
  match input with
  | [] => ([], [])
  | element :: rest =>
      let '(out, allocated) := convert_zval_loop rest in
      match element with
      | IS_STRING s => ({| arg_ptr := Some s; arg_len := blen s |} :: out, allocated)
      | _ =>
          let str_copy := convert_to_string element in
          ({| arg_ptr := Some str_copy; arg_len := blen str_copy |} :: out,
           str_copy :: allocated)
      end
  end.

Definition convert_zval_to_string_args (input : list zval) (count : Z)
  : list arg * list string :=
  convert_zval_loop (firstn (Z.to_nat count) input).

Definition alloc_long_string (value : Z) : option string :=
  Some (snprintf_ld value).

(* ------------------------------------------------------------------- *)
(** *** Argument preparation *)

Definition prepare_s_key_members_args (args : s_command_args_t) : prepared :=
  match sa_glide_client args, sa_key args, sa_members args with
  | Some _, Some key, Some members =>
      if (sa_key_len args =? 0) || (sa_members_count args <=? 0) then not_prepared
      else
        let arg_count := 1 + sa_members_count args in
        let '(out, allocated) :=
          convert_zval_to_string_args members (sa_members_count args) in
        {| p_arg_count := to_int arg_count;
           p_args := Some ({| arg_ptr := Some key; arg_len := sa_key_len args |} :: out);
           p_allocated := allocated |}
  | _, _, _ => not_prepared
  end.

Definition prepare_s_key_only_args (args : s_command_args_t) : prepared :=
  match sa_glide_client args, sa_key args with
  | Some _, Some key =>
      if sa_key_len args =? 0 then not_prepared
      else
        {| p_arg_count := 1;
           p_args := Some [{| arg_ptr := Some key; arg_len := sa_key_len args |}];
           p_allocated := [] |}
  | _, _ => not_prepared
  end.

Definition prepare_s_key_member_args (args : s_command_args_t) : prepared :=
  match sa_glide_client args, sa_key args, sa_member args with
  | Some _, Some key, Some member =>
      if (sa_key_len args =? 0) || (sa_member_len args =? 0) then not_prepared
      else
        {| p_arg_count := 2;
           p_args := Some [{| arg_ptr := Some key; arg_len := sa_key_len args |};
                           {| arg_ptr := Some member; arg_len := sa_member_len args |}];
           p_allocated := [] |}
  | _, _, _ => not_prepared
  end.

Definition prepare_s_key_count_args (args : s_command_args_t) : prepared :=
  match sa_glide_client args, sa_key args with
  | Some _, Some key =>
      if sa_key_len args =? 0 then not_prepared
      else
        let arg_count := if sa_has_count args then 2 else 1 in
        let key_slot := {| arg_ptr := Some key; arg_len := sa_key_len args |} in
        if sa_has_count args then
          match alloc_long_string (sa_count args) with
          | Some count_str =>
              {| p_arg_count := arg_count;
                 p_args := Some [key_slot;
                                 {| arg_ptr := Some count_str; arg_len := strlen count_str |}];
                 p_allocated := [count_str] |}
          | None =>
              {| p_arg_count := arg_count;
                 p_args := Some [key_slot; {| arg_ptr := None; arg_len := 0 |}];
                 p_allocated := [] |}
          end
        else
          {| p_arg_count := arg_count; p_args := Some [key_slot]; p_allocated := [] |}
  | _, _ => not_prepared
  end.

Definition prepare_s_multi_key_args (args : s_command_args_t) : prepared :=
  match sa_glide_client args, sa_keys args with
  | Some _, Some keys =>
      if sa_keys_count args <=? 0 then not_prepared
      else
        let '(out, allocated) := convert_zval_to_string_args keys (sa_keys_count args) in
        {| p_arg_count := sa_keys_count args;
           p_args := Some out;
           p_allocated := allocated |}
  | _, _ => not_prepared
  end.

Definition prepare_s_multi_key_limit_args (args : s_command_args_t) : prepared :=
  match sa_glide_client args, sa_keys args with
  | Some _, Some keys =>
      if sa_keys_count args <=? 0 then not_prepared
      else
        let arg_count := 1 + sa_keys_count args + (if sa_has_limit args then 2 else 0) in
        match alloc_long_string (sa_keys_count args) with
        | None => {| p_arg_count := 0; p_args := Some []; p_allocated := [] |}
        | Some numkeys_str =>
            let numkeys_slot :=
              {| arg_ptr := Some numkeys_str; arg_len := strlen numkeys_str |} in
            let '(out, allocated) :=
              convert_zval_to_string_args keys (sa_keys_count args) in
            if sa_has_limit args then
              match alloc_long_string (sa_limit args) with
              | None =>
                  {| p_arg_count := 0;
                     p_args := Some (numkeys_slot :: out ++ [arg_of "LIMIT"]);
                     p_allocated := numkeys_str :: allocated |}
              | Some limit_str =>
                  {| p_arg_count := to_int arg_count;
                     p_args := Some (numkeys_slot :: out ++
                                     [arg_of "LIMIT";
                                      {| arg_ptr := Some limit_str;
                                         arg_len := strlen limit_str |}]);
                     p_allocated := numkeys_str :: allocated ++ [limit_str] |}
              end
            else
              {| p_arg_count := to_int arg_count;
                 p_args := Some (numkeys_slot :: out);
                 p_allocated := numkeys_str :: allocated |}
        end
  | _, _ => not_prepared
  end.

Definition prepare_s_dst_multi_key_args (args : s_command_args_t) : prepared :=
  match sa_glide_client args, sa_dst_key args, sa_keys args with
  | Some _, Some dst_key, Some keys =>
      if (sa_dst_key_len args =? 0) || (sa_keys_count args <=? 0) then not_prepared
      else
        let arg_count := 1 + sa_keys_count args in
        let '(out, allocated) := convert_zval_to_string_args keys (sa_keys_count args) in
        {| p_arg_count := to_int arg_count;
           p_args := Some ({| arg_ptr := Some dst_key; arg_len := sa_dst_key_len args |}
                           :: out);
           p_allocated := allocated |}
  | _, _, _ => not_prepared
  end.

Definition prepare_s_two_key_member_args (args : s_command_args_t) : prepared :=
  match sa_glide_client args, sa_src_key args, sa_dst_key args, sa_member args with
  | Some _, Some src_key, Some dst_key, Some member =>
      if (sa_src_key_len args =? 0) || (sa_dst_key_len args =? 0)
         || (sa_member_len args =? 0) then not_prepared
      else
        {| p_arg_count := 3;
           p_args := Some [{| arg_ptr := Some src_key; arg_len := sa_src_key_len args |};
                           {| arg_ptr := Some dst_key; arg_len := sa_dst_key_len args |};
                           {| arg_ptr := Some member; arg_len := sa_member_len args |}];
           p_allocated := [] |}
  | _, _, _, _ => not_prepared
  end.

Definition prepare_s_scan_args (args : s_command_args_t) : prepared :=
  match sa_glide_client args, sa_cursor args with
  | Some _, Some cursor_str =>
      let has_pattern := is_some (sa_pattern args) && (0 <? sa_pattern_len args) in
      let has_count := sa_has_count args in
      let has_key := is_some (sa_key args) && (0 <? sa_key_len args) in
      let has_type :=
        sa_has_type args && (is_some (sa_type args) && (0 <? sa_type_len args)) in
      let arg_count :=
        (if has_key then 1 else 0) + 1 + (if has_pattern then 2 else 0)
        + (if has_count then 2 else 0) + (if has_type then 2 else 0) in
      let key_part :=
        if has_key
        then [{| arg_ptr := sa_key args; arg_len := sa_key_len args |}] else [] in
      let cursor_part :=
        [{| arg_ptr := Some cursor_str; arg_len := strlen cursor_str |}] in
      let pattern_part :=
        if has_pattern
        then [arg_of "MATCH";
              {| arg_ptr := sa_pattern args; arg_len := sa_pattern_len args |}]
        else [] in
      let count_str := alloc_long_string (sa_count args) in
      let count_part :=
        if has_count
        then [arg_of "COUNT";
              {| arg_ptr := count_str;
                 arg_len := match count_str with Some s => strlen s | None => 0 end |}]
        else [] in
      let type_part :=
        if has_type
        then [arg_of "TYPE"; {| arg_ptr := sa_type args; arg_len := sa_type_len args |}]
        else [] in
      {| p_arg_count := arg_count;
         p_args := Some (key_part ++ cursor_part ++ pattern_part ++ count_part ++ type_part);
         p_allocated :=
           if has_count
           then match count_str with Some s => [s] | None => [] end else [] |}
  | _, _ => not_prepared
  end.

End SCommands.

(* ===================================================================== *)
(** ** Geo commands: argument structures and encoders *)
(* ===================================================================== *)

Record geo_with_options_t : Type := {
  wo_withcoord : bool;
  wo_withdist : bool;
  wo_withhash : bool
}.

Record geo_radius_options_t : Type := {
  ro_with_opts : geo_with_options_t;
  ro_count : Z;
  ro_any : bool;
  ro_sort : option string;
  ro_sort_len : Z;
  ro_store_dist : bool
}.

Definition no_radius_options : geo_radius_options_t := {|
  ro_with_opts := {| wo_withcoord := false; wo_withdist := false; wo_withhash := false |};
  ro_count := 0;
  ro_any := false;
  ro_sort := None;
  ro_sort_len := 0;
  ro_store_dist := false
|}.

(** [geo_command_args_t]; [ga_by_radius] is the double behind the pointer. *)
Record geo_command_args_t : Type := {
  ga_key : option string;         ga_key_len : Z;
  ga_members : option (list zval); ga_member_count : Z;
  ga_src_member : option string;  ga_src_member_len : Z;
  ga_dst_member : option string;  ga_dst_member_len : Z;
  ga_unit : option string;        ga_unit_len : Z;
  ga_geo_args : option (list zval); ga_geo_args_count : Z;
  ga_from : option zval;
  ga_by_radius : option float;
  ga_radius_opts : geo_radius_options_t;
  ga_dest : option string;        ga_dest_len : Z;
  ga_src : option string;         ga_src_len : Z
}.

(** [geo_command_args_t args = {0}] *)
Definition geo_args_zero : geo_command_args_t := {|
  ga_key := None;         ga_key_len := 0;
  ga_members := None;     ga_member_count := 0;
  ga_src_member := None;  ga_src_member_len := 0;
  ga_dst_member := None;  ga_dst_member_len := 0;
  ga_unit := None;        ga_unit_len := 0;
  ga_geo_args := None;    ga_geo_args_count := 0;
  ga_from := None;
  ga_by_radius := None;
  ga_radius_opts := no_radius_options;
  ga_dest := None;        ga_dest_len := 0;
  ga_src := None;         ga_src_len := 0
|}.

(** [geo_search_params_t], filled by [parse_geosearch_parameters]. *)
Record geo_search_params_t : Type := {
  gp_key : option string;      gp_key_len : Z;
  gp_src_key : option string;  gp_src_key_len : Z;
  gp_unit : option string;     gp_unit_len : Z;
  gp_is_from_member : bool;
  gp_member : option string;   gp_member_len : Z;
  gp_longitude : float;        gp_latitude : float;
  gp_is_by_radius : bool;
  gp_radius : float;
  gp_width : float;            gp_height : float;
  gp_options : geo_radius_options_t
}.

(** The parameters of GEOSEARCH / GEOSEARCHSTORE once
    [zend_parse_method_parameters] has accepted them ([gs_src] is read by
    the store variant only). *)
Record geosearch_call : Type := {
  gs_key : string;
  gs_src : string;
  gs_position : zval;
  gs_shape : zval;
  gs_unit : string;
  gs_options : option HashTable
}.

Section GeoEncoders.

Context {RT : Runtime}.

(** The loop shared by [prepare_geo_members_args] and
    [prepare_geo_add_args]: one slot per value, and the strings that
    [zval_to_string_safe] asks the caller to free. *)
Fixpoint geo_values_loop (values : list zval) : list arg * list string :=
  match values with
  | [] => ([], [])
  | value :: rest =>
      let '(out, allocated) := geo_values_loop rest in
      let '(str_val, str_len, need_free) := zval_to_string_safe value in
      ({| arg_ptr := str_val; arg_len := str_len |} :: out,
       if need_free
       then match str_val with Some s => s :: allocated | None => allocated end
       else allocated)
  end.

Definition prepare_geo_members_args (args : geo_command_args_t) : prepared :=
  match ga_key args, ga_members args with
  | Some key, Some members =>
      if ga_member_count args <=? 0 then not_prepared
      else
        let arg_count := 1 + ga_member_count args in
        let '(out, allocated) :=
          geo_values_loop (firstn (Z.to_nat (ga_member_count args)) members) in
        {| p_arg_count := to_int arg_count;
           p_args := Some ({| arg_ptr := Some key; arg_len := ga_key_len args |} :: out);
           p_allocated := allocated |}
  | _, _ => not_prepared
  end.

Definition prepare_geo_dist_args (args : geo_command_args_t) : prepared :=
  match ga_key args, ga_src_member args, ga_dst_member args with
  | Some key, Some src_member, Some dst_member =>
      let arg_count := if is_some (ga_unit args) then 4 else 3 in
      {| p_arg_count := arg_count;
         p_args :=
           Some ([{| arg_ptr := Some key; arg_len := ga_key_len args |};
                  {| arg_ptr := Some src_member; arg_len := ga_src_member_len args |};
                  {| arg_ptr := Some dst_member; arg_len := ga_dst_member_len args |}]
                 ++ match ga_unit args with
                    | Some unit => [{| arg_ptr := Some unit; arg_len := ga_unit_len args |}]
                    | None => []
                    end);
         p_allocated := [] |}
  | _, _, _ => not_prepared
  end.

Definition prepare_geo_add_args (args : geo_command_args_t) : prepared :=
  match ga_key args, ga_geo_args args with
  | Some key, Some geo_args =>
      if (ga_geo_args_count args <? 3)
         || negb (Z.rem (ga_geo_args_count args) 3 =? 0) then not_prepared
      else
        let arg_count := 1 + ga_geo_args_count args in
        let '(out, allocated) :=
          geo_values_loop (firstn (Z.to_nat (ga_geo_args_count args)) geo_args) in
        {| p_arg_count := to_int arg_count;
           p_args := Some ({| arg_ptr := Some key; arg_len := ga_key_len args |} :: out);
           p_allocated := allocated |}
  | _, _ => not_prepared
  end.

Definition alloc_of (o : option string) : list string :=
  match o with Some s => [s] | None => [] end.

(** The FROM part of [prepare_geo_search_args] and of
    [prepare_geo_search_store_args]; [None] is their [return 0].  The first
    checks the latitude string only, the second both. *)
Definition geo_from_part (check_lon : bool) (from : zval)
  : option (list arg * list string) :=
  match from with
  | IS_STRING s => Some ([arg_of "FROMMEMBER"; {| arg_ptr := Some s; arg_len := blen s |}], [])
  | IS_ARRAY ht =>
      match zend_hash_index_find ht 0, zend_hash_index_find ht 1 with
      | Some lon, Some lat =>
          let '(lon_str, lon_str_len) := double_to_string (zval_get_double lon) in
          if check_lon && negb (is_some lon_str) then None
          else
            let '(lat_str, lat_str_len) := double_to_string (zval_get_double lat) in
            match lat_str with
            | None => None
            | Some _ =>
                Some ([arg_of "FROMLONLAT";
                       {| arg_ptr := lon_str; arg_len := lon_str_len |};
                       {| arg_ptr := lat_str; arg_len := lat_str_len |}],
                      alloc_of lon_str ++ alloc_of lat_str)
            end
      | _, _ => Some ([], [])
      end
  | _ => Some ([], [])
  end.

(** COUNT [ANY]; [None] is the [return 0] after a failed [long_to_string]. *)
Definition geo_count_part (opts : geo_radius_options_t)
  : option (list arg * list string) :=
  if 0 <? ro_count opts then
    let '(count_str, count_str_len) := long_to_string (ro_count opts) in
    match count_str with
    | None => None
    | Some s =>
        Some ([arg_of "COUNT"; {| arg_ptr := count_str; arg_len := count_str_len |}]
              ++ (if ro_any opts then [arg_of "ANY"] else []),
              [s])
    end
  else Some ([], []).

Definition geo_sort_part (opts : geo_radius_options_t) : list arg :=
  if is_some (ro_sort opts) && (0 <? ro_sort_len opts)
  then [{| arg_ptr := ro_sort opts; arg_len := ro_sort_len opts |}] else [].

Definition geo_with_part (w : geo_with_options_t) : list arg :=
  (if wo_withcoord w then [arg_of "WITHCOORD"] else [])
  ++ (if wo_withdist w then [arg_of "WITHDIST"] else [])
  ++ (if wo_withhash w then [arg_of "WITHHASH"] else []).

(** What an encoder returns once it has released its vector. *)
Definition released : prepared :=
  {| p_arg_count := 0; p_args := Some []; p_allocated := [] |}.

Definition prepare_geo_search_args (args : geo_command_args_t) : prepared :=
  match ga_key args, ga_from args, ga_by_radius args, ga_unit args with
  | Some key, Some from, Some by_radius, Some unit =>
      match geo_from_part false from with
      | None => released
      | Some (from_args, from_alloc) =>
          let '(radius_str, radius_str_len) := double_to_string by_radius in
          let by_args :=
            [arg_of "BYRADIUS";
             {| arg_ptr := radius_str; arg_len := radius_str_len |};
             {| arg_ptr := Some unit; arg_len := ga_unit_len args |}] in
          match geo_count_part (ga_radius_opts args) with
          | None => released
          | Some (count_args, count_alloc) =>
              let vector :=
                [{| arg_ptr := Some key; arg_len := ga_key_len args |}]
                ++ from_args ++ by_args
                ++ geo_with_part (ro_with_opts (ga_radius_opts args))
                ++ count_args ++ geo_sort_part (ga_radius_opts args) in
              {| p_arg_count := to_int (Z.of_nat (List.length vector));
                 p_args := Some vector;
                 p_allocated := from_alloc ++ alloc_of radius_str ++ count_alloc |}
          end
      end
  | _, _, _, _ => not_prepared
  end.

Definition prepare_geo_search_store_args (args : geo_command_args_t) : prepared :=
  match ga_dest args, ga_src args, ga_from args with
  | Some dest, Some src, Some from =>
      match ga_by_radius args, ga_unit args with
      | Some by_radius, Some unit =>
          match geo_from_part true from with
          | None => released
          | Some (from_args, from_alloc) =>
              let '(radius_str, radius_str_len) := double_to_string by_radius in
              match radius_str with
              | None => released
              | Some _ =>
                  let by_args :=
                    [arg_of "BYRADIUS";
                     {| arg_ptr := radius_str; arg_len := radius_str_len |};
                     {| arg_ptr := Some unit; arg_len := ga_unit_len args |}] in
                  match geo_count_part (ga_radius_opts args) with
                  | None => released
                  | Some (count_args, count_alloc) =>
                      let vector :=
                        [{| arg_ptr := Some dest; arg_len := ga_dest_len args |};
                         {| arg_ptr := Some src; arg_len := ga_src_len args |}]
                        ++ from_args ++ by_args ++ count_args
                        ++ geo_sort_part (ga_radius_opts args)
                        ++ (if ro_store_dist (ga_radius_opts args)
                            then [arg_of "STOREDIST"] else []) in
                      {| p_arg_count := to_int (Z.of_nat (List.length vector));
                         p_args := Some vector;
                         p_allocated := from_alloc ++ alloc_of radius_str ++ count_alloc |}
                  end
              end
          end
      | _, _ => not_prepared
      end
  | _, _, _ => not_prepared
  end.

(** Two doubles formatted together, as the unified encoder does for
    FROMLONLAT and BYBOX: both or nothing. *)
Definition two_doubles (a b : float) : option (list arg * list string) :=
  let '(a_str, a_len) := double_to_string a in
  let '(b_str, b_len) := double_to_string b in
  match a_str, b_str with
  | Some sa, Some sb =>
      Some ([{| arg_ptr := a_str; arg_len := a_len |};
             {| arg_ptr := b_str; arg_len := b_len |}], [sa; sb])
  | _, _ => None
  end.

Definition prepare_geo_search_unified_args (params : geo_search_params_t)
    (is_store_variant : bool) : prepared :=
  let opts := gp_options params in
  let key_args :=
    if is_store_variant
    then [{| arg_ptr := gp_key params; arg_len := gp_key_len params |};
          {| arg_ptr := gp_src_key params; arg_len := gp_src_key_len params |}]
    else [{| arg_ptr := gp_key params; arg_len := gp_key_len params |}] in
  let from_part :=
    if gp_is_from_member params
    then Some ([arg_of "FROMMEMBER";
                {| arg_ptr := gp_member params; arg_len := gp_member_len params |}], [])
    else match two_doubles (gp_longitude params) (gp_latitude params) with
         | Some (l, a) => Some (arg_of "FROMLONLAT" :: l, a)
         | None => None
         end in
  match from_part with
  | None => released
  | Some (from_args, from_alloc) =>
      let by_part :=
        if gp_is_by_radius params
        then
          let '(radius_str, radius_str_len) := double_to_string (gp_radius params) in
          match radius_str with
          | None => None
          | Some s =>
              Some ([arg_of "BYRADIUS";
                     {| arg_ptr := radius_str; arg_len := radius_str_len |}], [s])
          end
        else match two_doubles (gp_width params) (gp_height params) with
             | Some (l, a) => Some (arg_of "BYBOX" :: l, a)
             | None => None
             end in
      match by_part with
      | None => released
      | Some (by_args, by_alloc) =>
          match geo_count_part opts with
          | None => released
          | Some (count_args, count_alloc) =>
              let vector :=
                key_args ++ from_args ++ by_args
                ++ [{| arg_ptr := gp_unit params; arg_len := gp_unit_len params |}]
                ++ geo_sort_part opts ++ count_args
                ++ (if is_store_variant then [] else geo_with_part (ro_with_opts opts))
                ++ (if is_store_variant && ro_store_dist opts
                    then [arg_of "STOREDIST"] else []) in
              {| p_arg_count := to_int (Z.of_nat (List.length vector));
                 p_args := Some vector;
                 p_allocated := from_alloc ++ by_alloc ++ count_alloc |}
          end
      end
  end.

End GeoEncoders.

(* ===================================================================== *)
(** ** Response decoders *)
(* ===================================================================== *)

Definition ZVAL_BOOL (b : bool) : zval := if b then IS_TRUE else IS_FALSE.

Definition is_scan_assoc (cmd : RequestType) : bool :=
  match cmd with HScan | ZScan => true | _ => false end.

Section Decoders.

Context {RT : Runtime}.

(* ------------------------------------------------------------------- *)
(** *** Set commands *)

Definition process_s_int_result_async (response : option CommandResponse)
    (return_value : zval) : Z * zval :=
  match response with
  | None => (0, IS_LONG 0)
  | Some (Response.Int int_value) => (1, IS_LONG int_value)
  | Some Response.Null => (1, IS_NULL)
  | Some _ => (0, return_value)
  end.

Definition process_s_bool_result_async (response : option CommandResponse)
    (return_value : zval) : Z * zval :=
  match response with
  | None => (0, IS_FALSE)
  | Some (Response.Bool bool_value) => (1, ZVAL_BOOL bool_value)
  | Some Response.Ok => (1, IS_TRUE)
  | Some _ => (0, return_value)
  end.

Definition process_s_set_result_async (response : option CommandResponse)
    (return_value : zval) : Z * zval :=
  match response with
  | None => (0, array_init)
  | Some Response.Null => (1, IS_NULL)
  | Some (Response.Sets _ as r) | Some (Response.Array _ as r) =>
      command_response_to_zval r COMMAND_RESPONSE_NOT_ASSOSIATIVE false return_value
  | Some _ => (0, array_init)
  end.

Definition process_s_mixed_result_async (response : option CommandResponse)
    (return_value : zval) : Z * zval :=
  match response with
  | None => (0, IS_FALSE)
  | Some r =>
      command_response_to_zval r COMMAND_RESPONSE_NOT_ASSOSIATIVE false return_value
  end.

(** The four failure exits of the scan decoder, and its exit on a final
    page without elements: the iterator (or, without one, [args->cursor])
    is reset to "0" and an empty array is returned.  With an iterator the
    context is released; without one [args->cursor = "0"] stores the
    address of a string literal. *)
Definition scan_reset (args : scan_data_t) (status : Z) (printed : list event)
  : processed :=
  if sd_scan_iter args then
    {| pr_status := status; pr_return_value := array_init;
       pr_cursor := None; pr_cursor_literal := false;
       pr_iter := Some (ZVAL_STRING "0");
       pr_events := printed |}
  else
    {| pr_status := status; pr_return_value := array_init;
       pr_cursor := Some "0"; pr_cursor_literal := true;
       pr_iter := None;
       pr_events := printed |}.

(** The two exits that convert the batch: [args->cursor] holds a fresh
    copy of [new_cursor]; with an iterator it is copied there and the
    context is released. *)
Definition scan_elements (args : scan_data_t) (new_cursor : string)
    (elements_resp : CommandResponse) (return_value : zval) : processed :=
  let '(status, v) :=
    command_response_to_zval elements_resp
      (if is_scan_assoc (sd_cmd_type args)
       then COMMAND_RESPONSE_SCAN_ASSOSIATIVE_ARRAY
       else COMMAND_RESPONSE_NOT_ASSOSIATIVE)
      false return_value in
  if sd_scan_iter args then
    {| pr_status := status; pr_return_value := v;
       pr_cursor := None; pr_cursor_literal := false;
       pr_iter := Some (ZVAL_STRING new_cursor);
       pr_events := [] |}
  else
    {| pr_status := status; pr_return_value := v;
       pr_cursor := Some new_cursor; pr_cursor_literal := false;
       pr_iter := None;
       pr_events := [] |}.

Definition process_s_scan_result_async (response : option CommandResponse)
    (args : scan_data_t) (return_value : zval) : processed :=
  match response with
  | None =>
      scan_reset args 0
        (if sd_scan_iter args then []
         else [EvPrintf "No response received in process_s_scan_result_async"])
  | Some (Response.Array (cursor_resp :: elements_resp :: _)) =>
      match cursor_resp with
      | Response.String new_cursor_str =>
          match elements_resp with
          | Response.Array elements =>
              if String.eqb new_cursor_str "0" then
                (* scan complete *)
                match elements with
                | _ :: _ => scan_elements args "0" elements_resp return_value
                | [] => scan_reset args 1 []
                end
              else
                scan_elements args new_cursor_str elements_resp return_value
          | _ => scan_reset args 0 []
          end
      | _ => scan_reset args 0 []
      end
  | Some _ => scan_reset args 0 []
  end.

(* ------------------------------------------------------------------- *)
(** *** Geo commands *)

Definition process_geo_int_result_async (response : option CommandResponse)
    (return_value : zval) : Z * zval :=
  match response with
  | None => (0, IS_LONG 0)
  | Some (Response.Int int_value) => (1, IS_LONG int_value)
  | Some Response.Null => (1, IS_NULL)
  | Some _ => (0, IS_LONG 0)
  end.

Definition process_geo_double_result_async (response : option CommandResponse)
    (return_value : zval) : Z * zval :=
  match response with
  | None => (0, IS_NULL)
  | Some Response.Null => (1, IS_NULL)
  | Some (Response.String string_value) => (1, IS_DOUBLE (atof string_value))
  | Some (Response.Float float_value) => (1, IS_DOUBLE float_value)
  | Some _ => (0, return_value)
  end.

Definition process_geo_hash_result_async (response : option CommandResponse)
    (return_value : zval) : Z * zval :=
  match response with
  | Some (Response.Array elements) =>
      (1, IS_ARRAY
            (fold_left
               (fun ht element =>
                  match element with
                  | Response.String s => add_next_index_stringl ht s
                  | Response.Null => add_next_index_null ht
                  | _ => ht
                  end)
               elements []))
  | _ => (0, array_init)
  end.

(** A longitude or latitude: string-encoded or a native double; anything
    else adds nothing. *)
Definition add_coordinate (ht : HashTable) (r : CommandResponse) : HashTable :=
  match r with
  | Response.String s => add_next_index_double ht (atof s)
  | Response.Float f => add_next_index_double ht f
  | _ => ht
  end.

Definition process_geo_pos_result_async (response : option CommandResponse)
    (return_value : zval) : Z * zval :=
  match response with
  | Some (Response.Array elements) =>
      (1, IS_ARRAY
            (fold_left
               (fun ht element =>
                  match element with
                  | Response.Array [lon; lat] =>
                      add_next_index_zval ht
                        (IS_ARRAY (add_coordinate (add_coordinate [] lon) lat))
                  | Response.Null => add_next_index_null ht
                  | _ => ht
                  end)
               elements []))
  | _ => (0, array_init)
  end.

(** The body of the member loop of [process_geo_search_result_async],
    once the name has been read: the fields of [inner_element], taken by
    position in the order distance, hash, coordinates. *)
Definition geo_search_member_data (search_data : search_data_t)
    (inner_element : CommandResponse) : HashTable :=
  let fields := Response.array_value inner_element in
  let len := Response.array_value_len inner_element in
  let member_data : HashTable := [] in
  let idx := 0 in
  (* Distance if requested *)
  let '(member_data, idx) :=
    if withdist search_data && (idx <? len) then
      (match nth_error fields (Z.to_nat idx) with
       | Some (Response.String s) => add_next_index_double member_data (atof s)
       | Some (Response.Float f) => add_next_index_double member_data f
       | _ => member_data
       end, idx + 1)
    else (member_data, idx) in
  (* Hash if requested *)
  let '(member_data, idx) :=
    if withhash search_data && (idx <? len) then
      (match nth_error fields (Z.to_nat idx) with
       | Some (Response.Int i) => add_next_index_long member_data i
       | _ => member_data
       end, idx + 1)
    else (member_data, idx) in
  (* Coordinates if requested *)
  if withcoord search_data && (idx <? len) then
    match nth_error fields (Z.to_nat idx) with
    | Some (Response.Array [lon; lat]) =>
        add_next_index_zval member_data
          (IS_ARRAY (add_coordinate (add_coordinate [] lon) lat))
    | _ => member_data
    end
  else member_data.

(** One round of the member loop.  [None]: the element is an array of one
    string, and the decoder reads [array_value[1]] past its end. *)
Definition geo_search_element (search_data : search_data_t)
    (acc : option HashTable) (element : CommandResponse) : option HashTable :=
  match acc with
  | None => None
  | Some ht =>
      match element with
      | Response.Array (Response.String member_name :: rest) =>
          match rest with
          | inner_element :: _ =>
              Some (add_assoc_zval_ex ht member_name
                      (IS_ARRAY (geo_search_member_data search_data inner_element)))
          | [] => None
          end
      | _ => Some ht
      end
  end.

(** [None] stands for undefined behaviour (see [geo_search_element]). *)
Definition process_geo_search_result_async (response : option CommandResponse)
    (output : option search_data_t) (return_value : zval) : option (Z * zval) :=
  match response, output with
  | Some r, Some search_data =>
      if negb (withcoord search_data) && negb (withdist search_data)
         && negb (withhash search_data)
      then
        Some (command_response_to_zval r COMMAND_RESPONSE_NOT_ASSOSIATIVE false
                return_value)
      else
        match r with
        | Response.Array elements =>
            match fold_left (geo_search_element search_data) elements (Some []) with
            | Some ht => Some (1, IS_ARRAY ht)
            | None => None
            end
        | _ => Some (0, array_init)
        end
  | _, _ => Some (0, array_init)
  end.

End Decoders.

(* ===================================================================== *)
(** ** The set/scan execution framework and its entry points *)
(* ===================================================================== *)

Definition nonzero (z : Z) : bool := negb (z =? 0).

Definition values_of (ht : HashTable) : list zval := map snd ht.

Section SFramework.

Context {RT : Runtime}.

(** The [switch (category)] of [execute_s_generic_command]; [None] is its
    [default: return 0]. *)
Definition prepare_s_args (category : s_command_category_t) (args : s_command_args_t)
  : option prepared :=
  match category with
  | S_CMD_KEY_MEMBERS => Some (prepare_s_key_members_args args)
  | S_CMD_KEY_ONLY => Some (prepare_s_key_only_args args)
  | S_CMD_KEY_MEMBER => Some (prepare_s_key_member_args args)
  | S_CMD_KEY_COUNT => Some (prepare_s_key_count_args args)
  | S_CMD_MULTI_KEY => Some (prepare_s_multi_key_args args)
  | S_CMD_MULTI_KEY_LIMIT => Some (prepare_s_multi_key_limit_args args)
  | S_CMD_DST_MULTI_KEY => Some (prepare_s_dst_multi_key_args args)
  | S_CMD_TWO_KEY_MEMBER => Some (prepare_s_two_key_member_args args)
  | S_CMD_SCAN => Some (prepare_s_scan_args args)
  | S_CMD_OTHER _ => None
  end.

(** The [switch (response_type)]: the decoder and its context. *)
Definition s_process_result (response_type : s_response_type_t) : z_result_processor_t :=
  match response_type with
  | S_RESPONSE_INT => process_s_int_result_async_fn
  | S_RESPONSE_BOOL => process_s_bool_result_async_fn
  | S_RESPONSE_SET => process_s_set_result_async_fn
  | S_RESPONSE_MIXED => process_s_mixed_result_async_fn
  | S_RESPONSE_SCAN => process_s_scan_result_async_fn
  | S_RESPONSE_OTHER _ => process_s_mixed_result_async_fn
  end.

Definition s_scan_data (cmd : RequestType) (response_type : s_response_type_t)
    (args : s_command_args_t) : result_ptr_t :=
  match response_type with
  | S_RESPONSE_SCAN =>
      PtrScan {| sd_cmd_type := cmd; sd_cursor := sa_cursor args;
                 sd_scan_iter := sa_scan_iter args |}
  | _ => PtrNull
  end.

(** [process_result(result->response, scan_data, return_value)] for the
    decoders this framework selects. *)
Definition s_call_process_result (cmd : RequestType) (response_type : s_response_type_t)
    (args : s_command_args_t) (response : option CommandResponse) (return_value : zval)
  : processed :=
  match response_type with
  | S_RESPONSE_INT =>
      let '(st, v) := process_s_int_result_async response return_value in decoded st v
  | S_RESPONSE_BOOL =>
      let '(st, v) := process_s_bool_result_async response return_value in decoded st v
  | S_RESPONSE_SET =>
      let '(st, v) := process_s_set_result_async response return_value in decoded st v
  | S_RESPONSE_MIXED | S_RESPONSE_OTHER _ =>
      let '(st, v) := process_s_mixed_result_async response return_value in decoded st v
  | S_RESPONSE_SCAN =>
      process_s_scan_result_async response
        {| sd_cmd_type := cmd; sd_cursor := sa_cursor args; sd_scan_iter := sa_scan_iter args |}
        return_value
  end.

Definition execute_s_generic_command (valkey_glide : valkey_glide_object)
    (cmd : RequestType) (category : s_command_category_t)
    (response_type : s_response_type_t) (args : s_command_args_t)
    (return_value : zval) : s_outcome :=
  let leave status evs :=
    {| s_status := status; s_return_value := return_value;
       s_iter := None; s_events := evs |} in
  match glide_client valkey_glide with
  | None => leave 0 []
  | Some _ =>
      match prepare_s_args category args with
      | None => leave 0 []
      | Some p =>
          match p_args p with
          | None => leave 0 []
          | Some cmd_args =>
              if p_arg_count p <=? 0 then leave 0 []
              else if is_in_batch_mode valkey_glide then
                let entry :=
                  {| be_cmd_type := cmd; be_args := cmd_args;
                     be_arg_count := p_arg_count p;
                     be_result_ptr := s_scan_data cmd response_type args;
                     be_process_result := s_process_result response_type |} in
                leave (buffer_command_for_batch valkey_glide entry)
                      [EvBufferCommandForBatch entry]
              else
                let call := EvExecuteCommand cmd (p_arg_count p) cmd_args in
                match execute_command cmd (p_arg_count p) cmd_args with
                | None => leave 0 [call]
                | Some result =>
                    let pr :=
                      s_call_process_result cmd response_type args
                        (response result) return_value in
                    {| s_status := pr_status pr;
                       s_return_value := pr_return_value pr;
                       s_iter := pr_iter pr;
                       s_events := call :: pr_events pr |}
                end
          end
      end
  end.

(** The tail shared by SADD, SCARD, ... and the scans:
    [if (execute_s_generic_command(...)) { if (batch) ZVAL_COPY; return 1; }
     return 0;] *)
Definition return_one_if_nonzero (valkey_glide : valkey_glide_object) (object : zval)
    (o : s_outcome) : outcome :=
  if nonzero (s_status o) then
    {| ret := 1;
       return_value := if is_in_batch_mode valkey_glide then object else s_return_value o;
       events := s_events o |}
  else {| ret := 0; return_value := s_return_value o; events := s_events o |}.

(** The tail shared by SINTER, SUNION, ...:
    [if (batch) ZVAL_COPY; return result;] *)
Definition return_result (valkey_glide : valkey_glide_object) (object : zval)
    (o : s_outcome) : outcome :=
  {| ret := s_status o;
     return_value := if is_in_batch_mode valkey_glide then object else s_return_value o;
     events := s_events o |}.

Definition failed (return_value : zval) (evs : list event) : outcome :=
  {| ret := 0; return_value := return_value; events := evs |}.

(** [key] with one or more members: SADD, SREM, SMISMEMBER ("Os+"). *)
Definition execute_key_members (cmd : RequestType) (response_type : s_response_type_t)
    (valkey_glide : valkey_glide_object) (object : zval) (key : string)
    (z_args : list zval) (return_value : zval) : outcome :=
  match z_args with
  | [] => failed return_value []
  | _ :: _ =>
      match glide_client valkey_glide with
      | None => failed return_value []
      | Some client =>
          let args :=
            {| sa_glide_client := Some client;
               sa_key := Some key;            sa_key_len := blen key;
               sa_member := None;             sa_member_len := 0;
               sa_members := Some z_args;
               sa_members_count := Z.of_nat (List.length z_args);
               sa_count := 0;                 sa_has_count := false;
               sa_keys := None;               sa_keys_count := 0;
               sa_limit := 0;                 sa_has_limit := false;
               sa_dst_key := None;            sa_dst_key_len := 0;
               sa_src_key := None;            sa_src_key_len := 0;
               sa_cursor := None;
               sa_pattern := None;            sa_pattern_len := 0;
               sa_type := None;               sa_type_len := 0;
               sa_has_type := false;
               sa_scan_iter := false |} in
          return_one_if_nonzero valkey_glide object
            (execute_s_generic_command valkey_glide cmd S_CMD_KEY_MEMBERS
               response_type args return_value)
      end
  end.

Definition execute_sadd_command := execute_key_members SAdd S_RESPONSE_INT.
Definition execute_srem_command := execute_key_members SRem S_RESPONSE_INT.
Definition execute_smismember_command := execute_key_members SMIsMember S_RESPONSE_MIXED.

(** [key] alone: SCARD, SMEMBERS ("Os"). *)
Definition execute_key_only (cmd : RequestType) (response_type : s_response_type_t)
    (valkey_glide : valkey_glide_object) (object : zval) (key : string)
    (return_value : zval) : outcome :=
  match glide_client valkey_glide with
  | None => failed return_value []
  | Some client =>
      let args :=
            {| sa_glide_client := Some client;
               sa_key := Some key; sa_key_len := blen key;
               sa_member := None; sa_member_len := 0;
               sa_members := None; sa_members_count := 0;
               sa_count := 0; sa_has_count := false;
               sa_keys := None; sa_keys_count := 0;
               sa_limit := 0; sa_has_limit := false;
               sa_dst_key := None; sa_dst_key_len := 0;
               sa_src_key := None; sa_src_key_len := 0;
               sa_cursor := None;
               sa_pattern := None; sa_pattern_len := 0;
               sa_type := None; sa_type_len := 0;
               sa_has_type := false;
               sa_scan_iter := false |} in
      return_one_if_nonzero valkey_glide object
        (execute_s_generic_command valkey_glide cmd S_CMD_KEY_ONLY
           response_type args return_value)
  end.

Definition execute_scard_command := execute_key_only SCard S_RESPONSE_INT.
Definition execute_smembers_command := execute_key_only SMembers S_RESPONSE_SET.

(** [key] and an optional count: SRANDMEMBER, SPOP ("Os|l").  [count] is
    [None] when the caller passed the key only. *)
Definition execute_key_count (cmd : RequestType)
    (valkey_glide : valkey_glide_object) (object : zval) (key : string)
    (count : option Z) (return_value : zval) : outcome :=
  let has_count := is_some count in
  match glide_client valkey_glide with
  | None => failed return_value []
  | Some client =>
      let args :=
            {| sa_glide_client := Some client;
               sa_key := Some key; sa_key_len := blen key;
               sa_member := None; sa_member_len := 0;
               sa_members := None; sa_members_count := 0;
               sa_count := match count with Some c => c | None => 1 end; sa_has_count := has_count;
               sa_keys := None; sa_keys_count := 0;
               sa_limit := 0; sa_has_limit := false;
               sa_dst_key := None; sa_dst_key_len := 0;
               sa_src_key := None; sa_src_key_len := 0;
               sa_cursor := None;
               sa_pattern := None; sa_pattern_len := 0;
               sa_type := None; sa_type_len := 0;
               sa_has_type := false;
               sa_scan_iter := false |} in
      return_one_if_nonzero valkey_glide object
        (execute_s_generic_command valkey_glide cmd S_CMD_KEY_COUNT
           S_RESPONSE_MIXED args return_value)
  end.

Definition execute_srandmember_command := execute_key_count SRandMember.
Definition execute_spop_command := execute_key_count SPop.

Definition execute_sismember_command (valkey_glide : valkey_glide_object)
    (object : zval) (key member : string) (return_value : zval) : outcome :=
  match glide_client valkey_glide with
  | None => failed return_value []
  | Some client =>
      let args :=
            {| sa_glide_client := Some client;
               sa_key := Some key; sa_key_len := blen key;
               sa_member := Some member; sa_member_len := blen member;
               sa_members := None; sa_members_count := 0;
               sa_count := 0; sa_has_count := false;
               sa_keys := None; sa_keys_count := 0;
               sa_limit := 0; sa_has_limit := false;
               sa_dst_key := None; sa_dst_key_len := 0;
               sa_src_key := None; sa_src_key_len := 0;
               sa_cursor := None;
               sa_pattern := None; sa_pattern_len := 0;
               sa_type := None; sa_type_len := 0;
               sa_has_type := false;
               sa_scan_iter := false |} in
      return_one_if_nonzero valkey_glide object
        (execute_s_generic_command valkey_glide SIsMember S_CMD_KEY_MEMBER
           S_RESPONSE_BOOL args return_value)
  end.

Definition execute_smove_command (valkey_glide : valkey_glide_object)
    (object : zval) (src dst member : string) (return_value : zval) : outcome :=
  match glide_client valkey_glide with
  | None => failed return_value []
  | Some client =>
      let args :=
            {| sa_glide_client := Some client;
               sa_key := None; sa_key_len := 0;
               sa_member := Some member; sa_member_len := blen member;
               sa_members := None; sa_members_count := 0;
               sa_count := 0; sa_has_count := false;
               sa_keys := None; sa_keys_count := 0;
               sa_limit := 0; sa_has_limit := false;
               sa_dst_key := Some dst; sa_dst_key_len := blen dst;
               sa_src_key := Some src; sa_src_key_len := blen src;
               sa_cursor := None;
               sa_pattern := None; sa_pattern_len := 0;
               sa_type := None; sa_type_len := 0;
               sa_has_type := false;
               sa_scan_iter := false |} in
      return_one_if_nonzero valkey_glide object
        (execute_s_generic_command valkey_glide SMove S_CMD_TWO_KEY_MEMBER
           S_RESPONSE_BOOL args return_value)
  end.

(** The common end of SINTER, SUNION and SDIFF once the keys are known. *)
Definition execute_multi_key (cmd : RequestType)
    (valkey_glide : valkey_glide_object) (object : zval) (z_args : list zval)
    (keys_count : Z) (return_value : zval) : outcome :=
  match glide_client valkey_glide with
  | None => failed return_value []
  | Some client =>
      let args :=
            {| sa_glide_client := Some client;
               sa_key := None; sa_key_len := 0;
               sa_member := None; sa_member_len := 0;
               sa_members := None; sa_members_count := 0;
               sa_count := 0; sa_has_count := false;
               sa_keys := Some z_args; sa_keys_count := keys_count;
               sa_limit := 0; sa_has_limit := false;
               sa_dst_key := None; sa_dst_key_len := 0;
               sa_src_key := None; sa_src_key_len := 0;
               sa_cursor := None;
               sa_pattern := None; sa_pattern_len := 0;
               sa_type := None; sa_type_len := 0;
               sa_has_type := false;
               sa_scan_iter := false |} in
      return_result valkey_glide object
        (execute_s_generic_command valkey_glide cmd S_CMD_MULTI_KEY
           S_RESPONSE_SET args return_value)
  end.

Definition execute_sinter_command (valkey_glide : valkey_glide_object)
    (object : zval) (keys : keys_param) (return_value : zval) : outcome :=
  match keys with
  | KeysArray ht_keys =>
      let keys_count := zend_hash_num_elements ht_keys in
      if keys_count =? 0 then failed return_value []
      else execute_multi_key SInter valkey_glide object (values_of ht_keys)
             keys_count return_value
  | KeysVariadic [] => failed return_value []
  | KeysVariadic z_args =>
      execute_multi_key SInter valkey_glide object z_args
        (Z.of_nat (List.length z_args)) return_value
  end.

(** SUNION, SDIFF: variadic keys only ("O+"). *)
Definition execute_variadic_keys (cmd : RequestType)
    (valkey_glide : valkey_glide_object) (object : zval) (z_args : list zval)
    (return_value : zval) : outcome :=
  match z_args with
  | [] => failed return_value []
  | _ :: _ =>
      execute_multi_key cmd valkey_glide object z_args
        (Z.of_nat (List.length z_args)) return_value
  end.

Definition execute_sunion_command := execute_variadic_keys SUnion.
Definition execute_sdiff_command := execute_variadic_keys SDiff.

(** SINTERCARD ("Oa|l"); [limit] is [None] when it was not passed. *)
Definition execute_sintercard_command (valkey_glide : valkey_glide_object)
    (object : zval) (ht_keys : HashTable) (limit : option Z) (return_value : zval)
  : outcome :=
  let has_limit := is_some limit in
  if has_limit && (match limit with Some l => l <? 0 | None => false end)
  then failed return_value []
  else
    let keys_count := zend_hash_num_elements ht_keys in
    if keys_count =? 0 then failed return_value []
    else
      let z_args := values_of ht_keys in
      match glide_client valkey_glide with
      | None => failed return_value []
      | Some client =>
          let args :=
            {| sa_glide_client := Some client;
               sa_key := None; sa_key_len := 0;
               sa_member := None; sa_member_len := 0;
               sa_members := None; sa_members_count := 0;
               sa_count := 0; sa_has_count := false;
               sa_keys := Some z_args; sa_keys_count := keys_count;
               sa_limit := match limit with Some l => l | None => 0 end; sa_has_limit := has_limit;
               sa_dst_key := None; sa_dst_key_len := 0;
               sa_src_key := None; sa_src_key_len := 0;
               sa_cursor := None;
               sa_pattern := None; sa_pattern_len := 0;
               sa_type := None; sa_type_len := 0;
               sa_has_type := false;
               sa_scan_iter := false |} in
          return_result valkey_glide object
            (execute_s_generic_command valkey_glide SInterCard S_CMD_MULTI_KEY_LIMIT
               S_RESPONSE_INT args return_value)
      end.

(** The common end of SINTERSTORE, SUNIONSTORE and SDIFFSTORE. *)
Definition execute_dst_multi_key (cmd : RequestType)
    (valkey_glide : valkey_glide_object) (object : zval) (dst : option string)
    (z_args : option (list zval)) (keys_count : Z) (return_value : zval) : outcome :=
  match glide_client valkey_glide with
  | None => failed return_value []
  | Some client =>
      let args :=
            {| sa_glide_client := Some client;
               sa_key := None; sa_key_len := 0;
               sa_member := None; sa_member_len := 0;
               sa_members := None; sa_members_count := 0;
               sa_count := 0; sa_has_count := false;
               sa_keys := z_args; sa_keys_count := keys_count;
               sa_limit := 0; sa_has_limit := false;
               sa_dst_key := dst; sa_dst_key_len := match dst with Some d => blen d | None => 0 end;
               sa_src_key := None; sa_src_key_len := 0;
               sa_cursor := None;
               sa_pattern := None; sa_pattern_len := 0;
               sa_type := None; sa_type_len := 0;
               sa_has_type := false;
               sa_scan_iter := false |} in
      return_result valkey_glide object
        (execute_s_generic_command valkey_glide cmd S_CMD_DST_MULTI_KEY
           S_RESPONSE_INT args return_value)
  end.

Definition execute_sinterstore_command (valkey_glide : valkey_glide_object)
    (object : zval) (params : store_param) (return_value : zval) : outcome :=
  match params with
  | StoreArray ht_keys =>
      let keys_count := zend_hash_num_elements ht_keys in
      match values_of ht_keys with
      | [] => failed return_value []
      | IS_STRING dst :: rest =>
          if keys_count =? 1 then failed return_value []
          else execute_dst_multi_key SInterStore valkey_glide object (Some dst)
                 (Some rest) (keys_count - 1) return_value
      | _ :: _ => failed return_value []
      end
  | StoreSingle _ =>
      execute_dst_multi_key SInterStore valkey_glide object None None 0 return_value
  | StoreVariadic dst [] => failed return_value []
  | StoreVariadic dst z_args =>
      execute_dst_multi_key SInterStore valkey_glide object (Some dst) (Some z_args)
        (Z.of_nat (List.length z_args)) return_value
  end.

(** SUNIONSTORE, SDIFFSTORE: destination and variadic keys ("Os+"). *)
Definition execute_dst_variadic_keys (cmd : RequestType)
    (valkey_glide : valkey_glide_object) (object : zval) (dst : string)
    (z_args : list zval) (return_value : zval) : outcome :=
  match z_args with
  | [] => failed return_value []
  | _ :: _ =>
      execute_dst_multi_key cmd valkey_glide object (Some dst) (Some z_args)
        (Z.of_nat (List.length z_args)) return_value
  end.

Definition execute_sunionstore_command := execute_dst_variadic_keys SUnionStore.
Definition execute_sdiffstore_command := execute_dst_variadic_keys SDiffStore.

End SFramework.

(* ===================================================================== *)
(** ** The scan family *)
(* ===================================================================== *)

(** Outcome of [execute_cluster_scan_command]: [cs_cursor] is [*cursor]
    afterwards, and [cs_cursor_literal] tells that it points at a string
    literal rather than at allocated memory. *)
Record cluster_scan_outcome : Type := {
  cs_success : Z;
  cs_return_value : zval;
  cs_cursor : string;
  cs_cursor_literal : bool;
  cs_events : list event
}.

Section ScanFamily.

Context {RT : Runtime}.

(** The argument vector of a cluster scan: MATCH, COUNT and TYPE, each
    with its value; no vector at all when none is given. *)
Definition cluster_scan_arguments (pattern : option string) (pattern_len : Z)
    (count : Z) (has_count : bool) (type : option string) (type_len : Z)
    (has_type : bool) : Z * option (list arg) :=
  let with_pattern := is_some pattern && (0 <? pattern_len) in
  let with_type := has_type && is_some type && (0 <? type_len) in
  let arg_count :=
    (if with_pattern then 2 else 0) + (if has_count then 2 else 0)
    + (if with_type then 2 else 0) in
  let count_str := if has_count then alloc_long_string count else None in
  let vector :=
    (if with_pattern
     then [arg_of "MATCH"; {| arg_ptr := pattern; arg_len := pattern_len |}] else [])
    ++ (if has_count
        then [arg_of "COUNT";
              {| arg_ptr := count_str;
                 arg_len := match count_str with Some s => strlen s | None => 0 end |}]
        else [])
    ++ (if with_type
        then [arg_of "TYPE"; {| arg_ptr := type; arg_len := type_len |}] else []) in
  (arg_count, if 0 <? arg_count then Some vector else None).

(** [execute_cluster_scan_command].  [cursor] is the allocated string
    behind [*cursor], the identifier the scan runs with.  The decoder gets
    it as [args->cursor] and either frees it and allocates the next one,
    or overwrites the pointer with the address of the literal "0"; the
    "finished" branch frees what the decoder left (an allocated string:
    the only literal it leaves is "0") and allocates "0". *)
Definition execute_cluster_scan_command (glide_client : option Z) (cursor : string)
    (pattern : option string) (pattern_len : Z) (count : Z) (has_count : bool)
    (type : option string) (type_len : Z) (has_type : bool) (return_value : zval)
  : cluster_scan_outcome :=
  match glide_client with
  | None =>
      {| cs_success := 0; cs_return_value := return_value; cs_cursor := cursor;
         cs_cursor_literal := false;
         cs_events := [] |}
  | Some _ =>
      let '(arg_count, args) :=
        cluster_scan_arguments pattern pattern_len count has_count type type_len
          has_type in
      let call := EvRequestClusterScan cursor arg_count args in
      match request_cluster_scan cursor arg_count args with
      | None =>
          {| cs_success := 0; cs_return_value := return_value; cs_cursor := cursor;
             cs_cursor_literal := false;
             cs_events := [call] |}
      | Some result =>
          let scan_args :=
            {| sd_cmd_type := Scan; sd_cursor := Some cursor; sd_scan_iter := false |} in
          let pr := process_s_scan_result_async (response result) scan_args return_value in
          (* *cursor = scan_args.cursor *)
          match pr_cursor pr with
          | Some c =>
              if strcmp_eq c "finished" then
                {| cs_success := pr_status pr;
                   cs_return_value := pr_return_value pr;
                   cs_cursor := estrdup "0";
                   cs_cursor_literal := false;
                   cs_events := [call] ++ pr_events pr ++ [EvRemoveClusterScanCursor c] |}
              else
                {| cs_success := pr_status pr;
                   cs_return_value := pr_return_value pr;
                   cs_cursor := c;
                   cs_cursor_literal := pr_cursor_literal pr;
                   cs_events := [call] ++ pr_events pr |}
          | None =>
              (* not reached: without an iterator the decoder leaves a cursor *)
              {| cs_success := pr_status pr;
                 cs_return_value := pr_return_value pr;
                 cs_cursor := cursor;
                 cs_cursor_literal := false;
                 cs_events := [call] ++ pr_events pr |}
          end
      end
  end.

(** The iterator check shared by the standalone scans: the cursor string to
    start from, or [None] when the iterator is neither NULL nor a string. *)
Definition scan_cursor_value (z_iter : zval) : option string :=
  match z_iter with
  | IS_NULL => Some "0"
  | IS_STRING s => Some s
  | _ => None
  end.

(** [execute_scan_command].  [pattern], [count] and [type] are the C
    variables after parameter parsing (a parameter that was not passed
    keeps NULL, 10 and NULL); the second component is what the call
    stored into the iterator.  The cluster branch ends, on success as on
    failure, with [efree(cursor_ptr)]: the call is undefined ([None]) when
    [execute_cluster_scan_command] left the address of a string literal
    there. *)
Definition execute_scan_command (valkey_glide : valkey_glide_object) (object : zval)
    (is_cluster : bool) (argc : Z) (z_iter : scan_iterator) (pattern : option string)
    (count : Z) (type : option string) (return_value : zval)
  : option (outcome * iterator_store) :=
  match glide_client valkey_glide with
  | None => Some (failed return_value [], IterUntouched)
  | Some client =>
      let pattern_len := match pattern with Some s => blen s | None => 0 end in
      let type_len := match type with Some s => blen s | None => 0 end in
      let has_pattern := (2 <=? argc) && is_some pattern && (0 <? pattern_len) in
      let has_count := 3 <=? argc in
      let has_type := (4 <=? argc) && is_some type && (0 <? type_len) in
      let scan_pattern := if has_pattern then pattern else Some "" in
      let scan_pattern_len := if has_pattern then pattern_len else 0 in
      let scan_count := if has_count then count else 10 in
      if is_cluster then
        match z_iter with
        | IterZval _ => Some (failed return_value [], IterUntouched)
        | IterClusterCursor cursor_obj =>
            match getCursor cursor_obj with
            | Some (IS_STRING cursor_result) =>
                let cursor_ptr := estrdup cursor_result in
                let o :=
                  execute_cluster_scan_command (Some client) cursor_ptr scan_pattern
                    scan_pattern_len scan_count (0 <? scan_count)
                    (if has_type then type else None) (if has_type then type_len else 0)
                    has_type return_value in
                if cs_cursor_literal o then None
                else if nonzero (cs_success o) then
                  Some ({| ret := 1; return_value := cs_return_value o;
                           events := cs_events o |},
                        NextCursorIdSet (estrdup (cs_cursor o)))
                else
                  Some ({| ret := 0; return_value := cs_return_value o;
                           events := cs_events o |},
                        IterUntouched)
            | _ => Some (failed return_value [], IterUntouched)
            end
        end
      else
        let iter_value :=
          match z_iter with
          | IterZval z => z
          | IterClusterCursor _ => IS_OBJECT 0
          end in
        match scan_cursor_value iter_value with
        | None =>
            Some (failed return_value [EvWarning "Cursor must be string"], IterUntouched)
        | Some cursor_value =>
            let cursor_ptr := estrdup cursor_value in
            let args :=
              {| sa_glide_client := Some client;
                 sa_key := None; sa_key_len := 0;
                 sa_member := None; sa_member_len := 0;
                 sa_members := None; sa_members_count := 0;
                 sa_count := scan_count; sa_has_count := 0 <? scan_count;
                 sa_keys := None; sa_keys_count := 0;
                 sa_limit := 0; sa_has_limit := false;
                 sa_dst_key := None; sa_dst_key_len := 0;
                 sa_src_key := None; sa_src_key_len := 0;
                 sa_cursor := Some cursor_ptr;
                 sa_pattern := scan_pattern; sa_pattern_len := scan_pattern_len;
                 sa_type := if has_type then type else None;
                 sa_type_len := if has_type then type_len else 0;
                 sa_has_type := has_type;
                 sa_scan_iter := true |} in
            let o :=
              execute_s_generic_command valkey_glide Scan S_CMD_SCAN S_RESPONSE_SCAN
                args return_value in
            Some (return_one_if_nonzero valkey_glide object o,
                  match s_iter o with
                  | Some z => IterSet z
                  | None => IterUntouched
                  end)
        end
  end.

Definition execute_gen_scan_command_internal (valkey_glide : valkey_glide_object)
    (cmd : RequestType) (key : string) (key_len : Z) (cursor : string)
    (pattern : option string) (pattern_len : Z) (count : Z) (scan_iter : bool)
    (return_value : zval) : s_outcome :=
  let args :=
    {| sa_glide_client := glide_client valkey_glide;
       sa_key := Some key; sa_key_len := key_len;
       sa_member := None; sa_member_len := 0;
       sa_members := None; sa_members_count := 0;
       sa_count := count; sa_has_count := 0 <? count;
       sa_keys := None; sa_keys_count := 0;
       sa_limit := 0; sa_has_limit := false;
       sa_dst_key := None; sa_dst_key_len := 0;
       sa_src_key := None; sa_src_key_len := 0;
       sa_cursor := Some cursor;
       sa_pattern := pattern; sa_pattern_len := pattern_len;
       sa_type := None; sa_type_len := 0;
       sa_has_type := false;
       sa_scan_iter := scan_iter |} in
  execute_s_generic_command valkey_glide cmd S_CMD_SCAN S_RESPONSE_SCAN args return_value.

(** [execute_scan_command_generic] (SSCAN, HSCAN, ZSCAN), parameters
    "Osz|sl"; the second component is the value stored into the caller's
    iterator, if any. *)
Definition execute_scan_command_generic (valkey_glide : valkey_glide_object)
    (object : zval) (argc : Z) (cmd : RequestType) (key : string) (z_iter : zval)
    (pattern : option string) (count : Z) (return_value : zval)
  : outcome * option zval :=
  let pattern_len := match pattern with Some s => blen s | None => 0 end in
  let has_pattern := is_some pattern && (0 <? pattern_len) in
  let has_count := 3 <? argc in
  match glide_client valkey_glide with
  | None => (failed return_value [], None)
  | Some _ =>
      match scan_cursor_value z_iter with
      | None => (failed return_value [EvWarning "Cursor must be string"], None)
      | Some cursor_value =>
          let cursor_ptr := estrdup cursor_value in
          let scan_pattern := if has_pattern then pattern else Some "" in
          let scan_pattern_len := if has_pattern then pattern_len else 0 in
          let scan_count := if has_count then count else 10 in
          let o :=
            execute_gen_scan_command_internal valkey_glide cmd key (blen key) cursor_ptr
              scan_pattern scan_pattern_len scan_count true return_value in
          (return_one_if_nonzero valkey_glide object o, s_iter o)
      end
  end.

Definition execute_sscan_command (valkey_glide : valkey_glide_object) (object : zval)
    (argc : Z) := execute_scan_command_generic valkey_glide object argc SScan.

Definition execute_hscan_command (valkey_glide : valkey_glide_object) (object : zval)
    (argc : Z) := execute_scan_command_generic valkey_glide object argc HScan.

End ScanFamily.

(* ===================================================================== *)
(** ** The geo execution framework and its entry points *)
(* ===================================================================== *)

Definition search_data_of (w : geo_with_options_t) : search_data_t :=
  {| withcoord := wo_withcoord w; withdist := wo_withdist w; withhash := wo_withhash w |}.

Section GeoFramework.

Context {RT : Runtime}.

(** A call through a [geo_result_processor_t].  [None] stands for
    undefined behaviour: the geo-search decoder reading past an element,
    or a decoder handed a context of another decoder. *)
Definition call_geo_result_processor (process_result : z_result_processor_t)
    (response : option CommandResponse) (result_ptr : result_ptr_t) (return_value : zval)
  : option (Z * zval) :=
  match process_result with
  | process_geo_int_result_async_fn =>
      Some (process_geo_int_result_async response return_value)
  | process_geo_double_result_async_fn =>
      Some (process_geo_double_result_async response return_value)
  | process_geo_hash_result_async_fn =>
      Some (process_geo_hash_result_async response return_value)
  | process_geo_pos_result_async_fn =>
      Some (process_geo_pos_result_async response return_value)
  | process_geo_search_result_async_fn =>
      match result_ptr with
      | PtrNull => process_geo_search_result_async response None return_value
      | PtrSearch d => process_geo_search_result_async response (Some d) return_value
      | PtrScan _ => None
      end
  | process_s_int_result_async_fn =>
      Some (process_s_int_result_async response return_value)
  | process_s_bool_result_async_fn =>
      Some (process_s_bool_result_async response return_value)
  | process_s_set_result_async_fn =>
      Some (process_s_set_result_async response return_value)
  | process_s_mixed_result_async_fn =>
      Some (process_s_mixed_result_async response return_value)
  | process_s_scan_result_async_fn =>
      match result_ptr with
      | PtrScan d =>
          let pr := process_s_scan_result_async response d return_value in
          Some (pr_status pr, pr_return_value pr)
      | _ => None
      end
  end.

(** The [switch (cmd_type)] of [execute_geo_generic_command]; [None] is
    its [default: return 0]. *)
Definition prepare_geo_args (cmd : RequestType) (args : geo_command_args_t)
  : option prepared :=
  match cmd with
  | GeoAdd => Some (prepare_geo_add_args args)
  | GeoDist => Some (prepare_geo_dist_args args)
  | GeoHash | GeoPos => Some (prepare_geo_members_args args)
  | GeoSearch => Some (prepare_geo_search_args args)
  | GeoSearchStore => Some (prepare_geo_search_store_args args)
  | _ => None
  end.

Definition args_of (p : prepared) : list arg :=
  match p_args p with Some l => l | None => [] end.

Definition execute_geo_generic_command (valkey_glide : valkey_glide_object)
    (cmd : RequestType) (args : geo_command_args_t) (result_ptr : result_ptr_t)
    (process_result : z_result_processor_t) (return_value : zval) : option outcome :=
  match prepare_geo_args cmd args with
  | None => Some (failed return_value [])
  | Some p =>
      if p_arg_count p <=? 0 then Some (failed return_value [])
      else if is_in_batch_mode valkey_glide then
        let entry :=
          {| be_cmd_type := cmd; be_args := args_of p; be_arg_count := p_arg_count p;
             be_result_ptr := result_ptr; be_process_result := process_result |} in
        Some {| ret := buffer_command_for_batch valkey_glide entry;
                return_value := return_value;
                events := [EvBufferCommandForBatch entry] |}
      else
        let call := EvExecuteCommand cmd (p_arg_count p) (args_of p) in
        match execute_command cmd (p_arg_count p) (args_of p) with
        | None => Some (failed return_value [call])
        | Some result =>
            match command_error result with
            | Some _ => Some (failed return_value [call])
            | None =>
                match call_geo_result_processor process_result (response result)
                        result_ptr return_value with
                | Some (success, v) =>
                    Some {| ret := success; return_value := v; events := [call] |}
                | None => None
                end
            end
        end
  end.

(** The tail shared by GEOADD, GEODIST, GEOHASH and GEOPOS:
    [if (batch) { ZVAL_COPY(return_value, object); return 1; } return result;] *)
Definition return_handle_in_batch (valkey_glide : valkey_glide_object) (object : zval)
    (r : option outcome) : option outcome :=
  match r with
  | None => None
  | Some o =>
      if is_in_batch_mode valkey_glide
      then Some {| ret := 1; return_value := object; events := events o |}
      else Some o
  end.

Definition execute_geoadd_command (valkey_glide : valkey_glide_object) (object : zval)
    (key : string) (z_args : list zval) (return_value : zval) : option outcome :=
  let variadic_argc := Z.of_nat (List.length z_args) in
  if (variadic_argc <? 3) || negb (Z.rem variadic_argc 3 =? 0) then
    Some (failed return_value
            [EvWarning "geoadd requires at least one longitude/latitude/member triplet"])
  else
    match glide_client valkey_glide with
    | None => Some (failed return_value [])
    | Some _ =>
        let args :=
          {| ga_key := Some key;         ga_key_len := blen key;
             ga_members := None;         ga_member_count := 0;
             ga_src_member := None;      ga_src_member_len := 0;
             ga_dst_member := None;      ga_dst_member_len := 0;
             ga_unit := None;            ga_unit_len := 0;
             ga_geo_args := Some z_args; ga_geo_args_count := variadic_argc;
             ga_from := None;
             ga_by_radius := None;
             ga_radius_opts := no_radius_options;
             ga_dest := None;            ga_dest_len := 0;
             ga_src := None;             ga_src_len := 0 |} in
        return_handle_in_batch valkey_glide object
          (execute_geo_generic_command valkey_glide GeoAdd args PtrNull
             process_geo_int_result_async_fn return_value)
    end.

(** GEODIST ("Osss|s"); [unit] is [None] when it was not passed. *)
Definition execute_geodist_command (valkey_glide : valkey_glide_object) (object : zval)
    (key src dst : string) (unit : option string) (return_value : zval) : option outcome :=
  match glide_client valkey_glide with
  | None => Some (failed return_value [])
  | Some _ =>
      let args :=
        {| ga_key := Some key;         ga_key_len := blen key;
           ga_members := None;         ga_member_count := 0;
           ga_src_member := Some src;  ga_src_member_len := blen src;
           ga_dst_member := Some dst;  ga_dst_member_len := blen dst;
           ga_unit := unit;
           ga_unit_len := match unit with Some u => blen u | None => 0 end;
           ga_geo_args := None;        ga_geo_args_count := 0;
           ga_from := None;
           ga_by_radius := None;
           ga_radius_opts := no_radius_options;
           ga_dest := None;            ga_dest_len := 0;
           ga_src := None;             ga_src_len := 0 |} in
      return_handle_in_batch valkey_glide object
        (execute_geo_generic_command valkey_glide GeoDist args PtrNull
           process_geo_double_result_async_fn return_value)
  end.

(** GEOHASH and GEOPOS ("Os*", at least one member). *)
Definition execute_geo_members (cmd : RequestType) (process_result : z_result_processor_t)
    (warning : string) (valkey_glide : valkey_glide_object) (object : zval)
    (key : string) (z_args : list zval) (return_value : zval) : option outcome :=
  let variadic_argc := Z.of_nat (List.length z_args) in
  if variadic_argc <? 1 then Some (failed return_value [EvWarning warning])
  else
    match glide_client valkey_glide with
    | None => Some (failed return_value [])
    | Some _ =>
        let args :=
          {| ga_key := Some key;         ga_key_len := blen key;
             ga_members := Some z_args;  ga_member_count := variadic_argc;
             ga_src_member := None;      ga_src_member_len := 0;
             ga_dst_member := None;      ga_dst_member_len := 0;
             ga_unit := None;            ga_unit_len := 0;
             ga_geo_args := None;        ga_geo_args_count := 0;
             ga_from := None;
             ga_by_radius := None;
             ga_radius_opts := no_radius_options;
             ga_dest := None;            ga_dest_len := 0;
             ga_src := None;             ga_src_len := 0 |} in
        return_handle_in_batch valkey_glide object
          (execute_geo_generic_command valkey_glide cmd args PtrNull
             process_result return_value)
    end.

Definition execute_geohash_command :=
  execute_geo_members GeoHash process_geo_hash_result_async_fn
    "geohash requires at least one member".

Definition execute_geopos_command :=
  execute_geo_members GeoPos process_geo_pos_result_async_fn
    "geopos requires at least one member".

End GeoFramework.

(* ===================================================================== *)
(** ** Unified GEOSEARCH / GEOSEARCHSTORE *)
(* ===================================================================== *)

Definition set_with_opts (o : geo_radius_options_t) (w : geo_with_options_t) :=
  {| ro_with_opts := w; ro_count := ro_count o; ro_any := ro_any o;
     ro_sort := ro_sort o; ro_sort_len := ro_sort_len o;
     ro_store_dist := ro_store_dist o |}.

Definition set_sort (o : geo_radius_options_t) (sort : string) (sort_len : Z) :=
  {| ro_with_opts := ro_with_opts o; ro_count := ro_count o; ro_any := ro_any o;
     ro_sort := Some sort; ro_sort_len := sort_len;
     ro_store_dist := ro_store_dist o |}.

Definition set_count (o : geo_radius_options_t) (count : Z) :=
  {| ro_with_opts := ro_with_opts o; ro_count := count; ro_any := ro_any o;
     ro_sort := ro_sort o; ro_sort_len := ro_sort_len o;
     ro_store_dist := ro_store_dist o |}.

Definition set_any (o : geo_radius_options_t) :=
  {| ro_with_opts := ro_with_opts o; ro_count := ro_count o; ro_any := true;
     ro_sort := ro_sort o; ro_sort_len := ro_sort_len o;
     ro_store_dist := ro_store_dist o |}.

Definition set_store_dist (o : geo_radius_options_t) (b : bool) :=
  {| ro_with_opts := ro_with_opts o; ro_count := ro_count o; ro_any := ro_any o;
     ro_sort := ro_sort o; ro_sort_len := ro_sort_len o;
     ro_store_dist := b |}.

(** One round of the loop over the option values (the flag words). *)
Definition geosearch_flag_option (o : geo_radius_options_t) (opt : zval)
  : geo_radius_options_t :=
  match opt with
  | IS_STRING s =>
      let w := ro_with_opts o in
      if strcasecmp_eq s "withcoord" then
        set_with_opts o {| wo_withcoord := true; wo_withdist := wo_withdist w;
                           wo_withhash := wo_withhash w |}
      else if strcasecmp_eq s "withdist" then
        set_with_opts o {| wo_withcoord := wo_withcoord w; wo_withdist := true;
                           wo_withhash := wo_withhash w |}
      else if strcasecmp_eq s "withhash" then
        set_with_opts o {| wo_withcoord := wo_withcoord w; wo_withdist := wo_withdist w;
                           wo_withhash := true |}
      else if strcasecmp_eq s "asc" then set_sort o "ASC" 3
      else if strcasecmp_eq s "desc" then set_sort o "DESC" 4
      else o
  | _ => o
  end.

Section GeoSearchUnified.

Context {RT : Runtime}.

(** The options array: flag words first, then the keyed options. *)
Definition parse_geosearch_options (ht : HashTable) (is_store_variant : bool)
  : geo_radius_options_t :=
  let o := fold_left geosearch_flag_option (values_of ht) no_radius_options in
  let o :=
    match zend_hash_str_find ht "count" with
    | Some (IS_ARRAY count_ht) =>
        let o :=
          match zend_hash_index_find count_ht 0 with
          | Some count_val => set_count o (zval_get_long count_val)
          | None => o
          end in
        match zend_hash_index_find count_ht 1 with
        | Some (IS_STRING any) => if strcasecmp_eq any "any" then set_any o else o
        | _ => o
        end
    | Some opt_val => set_count o (zval_get_long opt_val)
    | None => o
    end in
  let o :=
    match zend_hash_str_find ht "sort" with
    | Some (IS_STRING s) => set_sort o s (blen s)
    | _ => o
    end in
  if is_store_variant then
    match zend_hash_str_find ht "storedist" with
    | Some opt_val => set_store_dist o (zval_is_true opt_val)
    | None => o
    end
  else o.

(** [parse_geosearch_parameters] after [zend_parse_method_parameters]:
    the filled structure, or [None] for its [return 0], and the warning
    it raised. *)
Definition parse_geosearch_parameters (c : geosearch_call) (is_store_variant : bool)
  : option geo_search_params_t * list event :=
  let position_part : option (bool * option string * Z * float * float) * list event :=
    match gs_position c with
    | IS_STRING member => (Some (true, Some member, blen member, zero, zero), [])
    | IS_ARRAY pos_ht =>
        if negb (zend_hash_num_elements pos_ht =? 2) then
          (None, [EvWarning
                    "Position array must contain exactly 2 elements [longitude, latitude]"])
        else
          match zend_hash_index_find pos_ht 0, zend_hash_index_find pos_ht 1 with
          | Some lon_val, Some lat_val =>
              (Some (false, None, 0, zval_get_double lon_val, zval_get_double lat_val), [])
          | _, _ =>
              (None, [EvWarning
                        "Position array must contain longitude and latitude values"])
          end
    | _ =>
        (None, [EvWarning
                  "Position must be either a string (member) or array [longitude, latitude]"])
    end in
  match position_part with
  | (None, w) => (None, w)
  | (Some (is_from_member, member, member_len, longitude, latitude), _) =>
      let shape_part : option (bool * float * float * float) * list event :=
        match gs_shape c with
        | IS_LONG _ | IS_DOUBLE _ =>
            (Some (true, zval_get_double (gs_shape c), zero, zero), [])
        | IS_ARRAY shape_ht =>
            if negb (zend_hash_num_elements shape_ht =? 2) then
              (None, [EvWarning
                        "Shape array must contain exactly 2 elements [width, height]"])
            else
              match zend_hash_index_find shape_ht 0, zend_hash_index_find shape_ht 1 with
              | Some width_val, Some height_val =>
                  (Some (false, zero, zval_get_double width_val,
                         zval_get_double height_val), [])
              | _, _ =>
                  (None, [EvWarning "Shape array must contain width and height values"])
              end
        | _ =>
            (None, [EvWarning
                      "Shape must be either a number (radius) or array [width, height]"])
        end in
      match shape_part with
      | (None, w) => (None, w)
      | (Some (is_by_radius, radius, width, height), _) =>
          (Some {| gp_key := Some (gs_key c);  gp_key_len := blen (gs_key c);
                   gp_src_key := if is_store_variant then Some (gs_src c) else None;
                   gp_src_key_len := if is_store_variant then blen (gs_src c) else 0;
                   gp_unit := Some (gs_unit c); gp_unit_len := blen (gs_unit c);
                   gp_is_from_member := is_from_member;
                   gp_member := member;        gp_member_len := member_len;
                   gp_longitude := longitude;  gp_latitude := latitude;
                   gp_is_by_radius := is_by_radius;
                   gp_radius := radius;
                   gp_width := width;          gp_height := height;
                   gp_options :=
                     match gs_options c with
                     | Some ht => parse_geosearch_options ht is_store_variant
                     | None => no_radius_options
                     end |}, [])
      end
  end.

Definition execute_geosearch_unified (valkey_glide : valkey_glide_object) (object : zval)
    (c : geosearch_call) (is_store_variant : bool) (return_value : zval)
  : option outcome :=
  match parse_geosearch_parameters c is_store_variant with
  | (None, warnings) => Some (failed return_value warnings)
  | (Some params, _) =>
      match glide_client valkey_glide with
      | None => Some (failed return_value [])
      | Some _ =>
          let p := prepare_geo_search_unified_args params is_store_variant in
          if p_arg_count p <=? 0 then Some (failed return_value [])
          else
            let cmd := if is_store_variant then GeoSearchStore else GeoSearch in
            let search_data := search_data_of (ro_with_opts (gp_options params)) in
            if is_in_batch_mode valkey_glide then
              let entry :=
                {| be_cmd_type := cmd; be_args := args_of p;
                   be_arg_count := p_arg_count p;
                   be_result_ptr :=
                     if is_store_variant then PtrNull else PtrSearch search_data;
                   be_process_result :=
                     if is_store_variant then process_geo_int_result_async_fn
                     else process_geo_search_result_async_fn |} in
              let status := buffer_command_for_batch valkey_glide entry in
              if nonzero status then
                Some {| ret := 1; return_value := object;
                        events := [EvBufferCommandForBatch entry] |}
              else Some (failed return_value [EvBufferCommandForBatch entry])
            else
              let call := EvExecuteCommand cmd (p_arg_count p) (args_of p) in
              match execute_command cmd (p_arg_count p) (args_of p) with
              | None => Some (failed return_value [call])
              | Some result =>
                  match command_error result with
                  | Some _ => Some (failed return_value [call])
                  | None =>
                      if is_store_variant then
                        let '(success, v) :=
                          process_geo_int_result_async (response result) return_value in
                        Some {| ret := success; return_value := v; events := [call] |}
                      else
                        match process_geo_search_result_async (response result)
                                (Some search_data) return_value with
                        | Some (success, v) =>
                            Some {| ret := success; return_value := v; events := [call] |}
                        | None => None
                        end
                  end
              end
      end
  end.

Definition execute_geosearch_command (valkey_glide : valkey_glide_object) (object : zval)
    (c : geosearch_call) := execute_geosearch_unified valkey_glide object c false.

Definition execute_geosearchstore_command (valkey_glide : valkey_glide_object)
    (object : zval) (c : geosearch_call) :=
  execute_geosearch_unified valkey_glide object c true.

End GeoSearchUnified.

(* ===================================================================== *)
(** ** The entry points, as one family *)
(* ===================================================================== *)

(** One constructor per command-invoking entry point of these files, with
    the parameters it receives once parsed.  [CallScanGeneric] stands for
    SSCAN, HSCAN and ZSCAN, which share [execute_scan_command_generic]. *)
Inductive call : Type :=
| CallSAdd (key : string) (members : list zval)
| CallSRem (key : string) (members : list zval)
| CallSMIsMember (key : string) (members : list zval)
| CallSCard (key : string)
| CallSMembers (key : string)
| CallSRandMember (key : string) (count : option Z)
| CallSPop (key : string) (count : option Z)
| CallSIsMember (key member : string)
| CallSMove (src dst member : string)
| CallSInter (keys : keys_param)
| CallSUnion (keys : list zval)
| CallSDiff (keys : list zval)
| CallSInterCard (keys : HashTable) (limit : option Z)
| CallSInterStore (params : store_param)
| CallSUnionStore (dst : string) (keys : list zval)
| CallSDiffStore (dst : string) (keys : list zval)
| CallScan (is_cluster : bool) (argc : Z) (z_iter : scan_iterator)
    (pattern : option string) (count : Z) (type : option string)
| CallScanGeneric (cmd : RequestType) (argc : Z) (key : string) (z_iter : zval)
    (pattern : option string) (count : Z)
| CallGeoAdd (key : string) (z_args : list zval)
| CallGeoDist (key src dst : string) (unit : option string)
| CallGeoHash (key : string) (members : list zval)
| CallGeoPos (key : string) (members : list zval)
| CallGeoSearch (c : geosearch_call)
| CallGeoSearchStore (c : geosearch_call).


Section EntryPoints.

Context {RT : Runtime}.

(** Run the entry point of [c] on the client behind [object]; [None] when
    the run is undefined. *)
Definition invoke (valkey_glide : valkey_glide_object) (object : zval) (c : call)
    (return_value : zval) : option outcome :=
  match c with
  | CallSAdd key members =>
      Some (execute_sadd_command valkey_glide object key members return_value)
  | CallSRem key members =>
      Some (execute_srem_command valkey_glide object key members return_value)
  | CallSMIsMember key members =>
      Some (execute_smismember_command valkey_glide object key members return_value)
  | CallSCard key => Some (execute_scard_command valkey_glide object key return_value)
  | CallSMembers key => Some (execute_smembers_command valkey_glide object key return_value)
  | CallSRandMember key count =>
      Some (execute_srandmember_command valkey_glide object key count return_value)
  | CallSPop key count =>
      Some (execute_spop_command valkey_glide object key count return_value)
  | CallSIsMember key member =>
      Some (execute_sismember_command valkey_glide object key member return_value)
  | CallSMove src dst member =>
      Some (execute_smove_command valkey_glide object src dst member return_value)
  | CallSInter keys => Some (execute_sinter_command valkey_glide object keys return_value)
  | CallSUnion keys => Some (execute_sunion_command valkey_glide object keys return_value)
  | CallSDiff keys => Some (execute_sdiff_command valkey_glide object keys return_value)
  | CallSInterCard keys limit =>
      Some (execute_sintercard_command valkey_glide object keys limit return_value)
  | CallSInterStore params =>
      Some (execute_sinterstore_command valkey_glide object params return_value)
  | CallSUnionStore dst keys =>
      Some (execute_sunionstore_command valkey_glide object dst keys return_value)
  | CallSDiffStore dst keys =>
      Some (execute_sdiffstore_command valkey_glide object dst keys return_value)
  | CallScan is_cluster argc z_iter pattern count type =>
      option_map fst
        (execute_scan_command valkey_glide object is_cluster argc z_iter
           pattern count type return_value)
  | CallScanGeneric cmd argc key z_iter pattern count =>
      Some (fst (execute_scan_command_generic valkey_glide object argc cmd key z_iter
                   pattern count return_value))
  | CallGeoAdd key z_args =>
      execute_geoadd_command valkey_glide object key z_args return_value
  | CallGeoDist key src dst unit =>
      execute_geodist_command valkey_glide object key src dst unit return_value
  | CallGeoHash key members =>
      execute_geohash_command valkey_glide object key members return_value
  | CallGeoPos key members =>
      execute_geopos_command valkey_glide object key members return_value
  | CallGeoSearch c => execute_geosearch_command valkey_glide object c return_value
  | CallGeoSearchStore c => execute_geosearchstore_command valkey_glide object c return_value
  end.

End EntryPoints.

(** The entries a trace enqueued, in order. *)
Definition enqueued (evs : list event) : list batch_entry :=
  flat_map (fun e => match e with EvBufferCommandForBatch b => [b] | _ => [] end) evs.

(** The engine calls of a trace, in order. *)
Definition engine_calls (evs : list event) : list event := filter is_engine_call evs.

(** The cluster cursors a trace released, in order. *)
Definition released_cursors (evs : list event) : list string :=
  flat_map (fun e => match e with EvRemoveClusterScanCursor c => [c] | _ => [] end) evs.


(* ===================================================================== *)
(** ** A reference runtime *)
(* ===================================================================== *)

(** The helpers below stand in for code that these files call and do not
    define.  The theorems hold for every [Runtime]; the reference runtime
    is where the model is run on concrete inputs. *)

Fixpoint zeros (n : nat) : string :=
  match n with O => EmptyString | S k => String "0"%char (zeros k) end.

(** floor (log10 (num / den)), for positive [num] and [den]. *)
Fixpoint log10_up (fuel : nat) (num den k : Z) : Z :=
  match fuel with
  | O => k
  | S f => if den * 10 <=? num then log10_up f num (den * 10) (k + 1) else k
  end.

Fixpoint log10_down (fuel : nat) (num den k : Z) : Z :=
  match fuel with
  | O => k
  | S f => if num <? den then log10_down f (num * 10) den (k - 1) else k
  end.

Definition floor_log10 (num den : Z) : Z :=
  if den <=? num then log10_up 400 num den 0 else log10_down 400 num den 0.

(** Does the decimal [D * 10^p] read back as the double [m * 2^e]?  It does
    when it lies strictly within half a gap of it on either side. *)
Definition reads_back (m : positive) (e : Z) (D p : Z) : bool :=
  let num := if 0 <=? e then Zpos m * 2 ^ e else Zpos m in
  let den := if 0 <=? e then 1 else 2 ^ (- e) in
  let ulp := if 0 <=? e then 4 * 2 ^ e else 4 in
  let half_up := ulp / 2 in
  let half_low := if Zpos m =? 2 ^ 52 then ulp / 4 else ulp / 2 in
  let s := if 0 <=? p then 1 else 10 ^ (- p) in
  let Q := if 0 <=? p then D * 10 ^ p * 4 * den else D * 4 * den in
  let V := 4 * num * s in
  if V <=? Q then Q - V <? half_up * s else V - Q <? half_low * s.

(** [m * 2^e] rounded to [n] significant decimal digits: [(D, p)] with
    value [D * 10^p]. *)
Definition rounded (m : positive) (e : Z) (n : Z) : Z * Z :=
  let num := if 0 <=? e then Zpos m * 2 ^ e else Zpos m in
  let den := if 0 <=? e then 1 else 2 ^ (- e) in
  let p := floor_log10 num den - n + 1 in
  let a := if 0 <=? p then num else num * 10 ^ (- p) in
  let b := if 0 <=? p then den * 10 ^ p else den in
  ((2 * a + b) / (2 * b), p).

Fixpoint shortest (fuel : nat) (m : positive) (e : Z) (n : Z) : Z * Z :=
  let '(D, p) := rounded m e n in
  match fuel with
  | O => (D, p)
  | S f => if reads_back m e D p then (D, p) else shortest f m e (n + 1)
  end.

(** [D * 10^p] in positional notation, without exponent. *)
Definition plain_decimal (D p : Z) : string :=
  let digits := snprintf_ld D in
  let L := blen digits in
  if 0 <=? p then String.append digits (zeros (Z.to_nat p))
  else if - p <? L then
    String.append (substring 0 (Z.to_nat (L + p)) digits)
      (String.append "." (substring (Z.to_nat (L + p)) (Z.to_nat (- p)) digits))
  else String.append "0." (String.append (zeros (Z.to_nat (- p - L))) digits).

(** Modelled from the spec: [double_to_string] of [command_response.c],
    which these files import and do not define.  The spec asks for a
    round-trip-safe decimal formatting routine that is locale independent
    and introduces no exponent notation: the model gives the decimal with
    the fewest significant digits (at most 17) that reads back as the same
    double, in positional notation, and no string for NaN and infinities. *)
Definition spec_double_to_string (d : float) : option string * Z :=
  match Prim2SF d with
  | S754_zero s => let t := if s then "-0" else "0" in (Some t, blen t)
  | S754_finite s m e =>
      let '(D, p) := shortest 16 m e 1 in
      let t := String.append (if s then "-" else "") (plain_decimal D p) in
      (Some t, blen t)
  | _ => (None, 0)
  end.

(** Modelled from the spec: [long_to_string] of [command_response.c]:
    integers via decimal formatting. *)
Definition spec_long_to_string (value : Z) : option string * Z :=
  (Some (snprintf_ld value), blen (snprintf_ld value)).

(** Modelled from the spec: [zval_to_string_safe] of
    [valkey_glide_commands_common.c]: a string is passed as it is and
    nothing is to be freed; every non-string value is converted to its
    canonical string form, integers via decimal formatting and floats via
    the round-trip-safe routine, into a string the caller frees.  The spec
    names no form for the other types: the model gives none. *)
Definition spec_zval_to_string_safe (z : zval) : option string * Z * bool :=
  match z with
  | IS_STRING s => (Some s, blen s, false)
  | IS_LONG l => (fst (spec_long_to_string l), snd (spec_long_to_string l), true)
  | IS_DOUBLE d => (fst (spec_double_to_string d), snd (spec_double_to_string d), true)
  | _ => (None, 0, false)
  end.

Definition is_digit (c : ascii) : bool :=
  let n := nat_of_ascii c in (Nat.leb 48 n && Nat.leb n 57)%bool.

Fixpoint digits_value (s : string) (acc : Z) : option Z :=
  match s with
  | EmptyString => Some acc
  | String c r =>
      if is_digit c then digits_value r (acc * 10 + Z.of_nat (nat_of_ascii c) - 48)
      else None
  end.

Definition LONG_MAX : Z := 9223372036854775807.

(** The host's rule for array keys given as strings: the canonical decimal
    text of an integer that fits a [zend_long] is an integer key. *)
Definition handle_numeric_str (s : string) : zkey :=
  let body := match s with String "-"%char r => r | _ => s end in
  let negative := match s with String "-"%char _ => true | _ => false end in
  let leading_zero :=
    match body with
    | String "0"%char _ => Nat.ltb 1 (String.length s)
    | _ => false
    end in
  match body with
  | EmptyString => KStr s
  | _ =>
      if leading_zero || Nat.ltb 19 (String.length body) then KStr s
      else
        match digits_value body 0 with
        | Some v =>
            if negative then (if v - 1 <=? LONG_MAX then KIdx (- v) else KStr s)
            else (if v <=? LONG_MAX then KIdx v else KStr s)
        | None => KStr s
        end
  end.

(** Reading a number the way [strtod] does.  A digit of the base, if [c]
    is one. *)
Definition decimal_digit (c : ascii) : option Z :=
  if is_digit c then Some (Z.of_nat (nat_of_ascii c) - 48) else None.

Definition hex_digit (c : ascii) : option Z :=
  let n := Z.of_nat (nat_of_ascii c) in
  if is_digit c then Some (n - 48)
  else if (97 <=? n) && (n <=? 102) then Some (n - 87)
  else if (65 <=? n) && (n <=? 70) then Some (n - 55)
  else None.

(** The longest run of digits at the head of [s]: its value on top of
    [acc], the number of digits added to [n], and the text that follows. *)
Fixpoint take_digits (base : Z) (digit : ascii -> option Z) (s : string) (acc n : Z)
  : Z * Z * string :=
  match s with
  | EmptyString => (acc, n, s)
  | String c r =>
      match digit c with
      | Some d => take_digits base digit r (acc * base + d) (n + 1)
      | None => (acc, n, s)
      end
  end.

(** Digits with an optional radix point among them, at least one digit in
    all: the digits read as one integer, the number of digits after the
    point, the number of digits in all, and the text that follows. *)
Definition take_mantissa (base : Z) (digit : ascii -> option Z) (s : string)
  : option (Z * Z * Z * string) :=
  let '(a, na, r1) := take_digits base digit s 0 0 in
  match r1 with
  | String "."%char r2 =>
      let '(b, nb, r3) := take_digits base digit r2 a 0 in
      if na + nb =? 0 then None else Some (b, nb, na + nb, r3)
  | _ => if na =? 0 then None else Some (a, 0, na, r1)
  end.

(** An exponent part: the marker, an optional sign and at least one
    decimal digit; 0 when the text does not start with one. *)
Definition take_exponent (lower upper : ascii) (s : string) : Z :=
  match s with
  | String c r =>
      if Ascii.eqb c lower || Ascii.eqb c upper then
        let negative := match r with String "-"%char _ => true | _ => false end in
        let digits :=
          match r with
          | String "-"%char r' | String "+"%char r' => r'
          | _ => r
          end in
        let '(v, n, _) := take_digits 10 decimal_digit digits 0 0 in
        if n =? 0 then 0 else if negative then - v else v
      else 0
  | EmptyString => 0
  end.

(** The double nearest to [num / den] (ties to even), with the sign
    asked for; [num] is not negative and [den] is positive. *)
Definition nearest_double (negative : bool) (num den : Z) : float :=
  if num =? 0 then (if negative then neg_zero else zero)
  else
    let k := Z.max 0 (64 + Z.log2 den - Z.log2 num) in
    let q := (num * 2 ^ k) / den in
    let r := (num * 2 ^ k) mod den in
    let location := if r =? 0 then loc_Exact else loc_Inexact (Z.compare (2 * r) den) in
    SF2Prim (binary_round_aux prec emax negative q (- k) location).

(** The value of a decimal number text ([digits], optional point,
    optional exponent) at the head of [s], or [None] when [s] starts with
    no digit.  A number beyond the range of a double is infinite, one
    below it is zero. *)
Definition decimal_number (negative : bool) (s : string) : option float :=
  match take_mantissa 10 decimal_digit s with
  | None => None
  | Some (m, fraction_digits, digits, rest) =>
      let e := take_exponent "e" "E" rest - fraction_digits in
      Some
        (if m =? 0 then (if negative then neg_zero else zero)
         else if 310 <? e then (if negative then neg_infinity else infinity)
         else if digits + e <? -330 then (if negative then neg_zero else zero)
         else if 0 <=? e then nearest_double negative (m * 10 ^ e) 1
         else nearest_double negative m (10 ^ (- e)))
  end.

(** The same for a hexadecimal number text after its "0x" prefix, whose
    exponent part, marked by "p", counts powers of two. *)
Definition hexadecimal_number (negative : bool) (s : string) : option float :=
  match take_mantissa 16 hex_digit s with
  | None => None
  | Some (m, fraction_digits, digits, rest) =>
      let e := take_exponent "p" "P" rest - 4 * fraction_digits in
      let e := Z.min 2000 (Z.max e (- 1200 - 4 * digits)) in
      Some (SF2Prim (binary_normalize prec emax (if negative then - m else m) e
                       negative))
  end.

Definition is_space (c : ascii) : bool :=
  let n := Z.of_nat (nat_of_ascii c) in (n =? 32) || ((9 <=? n) && (n <=? 13)).

Fixpoint skip_spaces (s : string) : string :=
  match s with
  | String c r => if is_space c then skip_spaces r else s
  | EmptyString => s
  end.

(** libc's [atof], that is [strtod] in the C locale: white space is
    skipped, then comes an optional sign and the longest text that reads
    as an infinity, a NaN, a hexadecimal number or a decimal number;
    whatever follows is ignored, and a text that starts with none of them
    gives 0.  The result is the nearest double. *)
Definition libc_atof (s : string) : float :=
  let t := skip_spaces (cstr s) in
  let negative := match t with String "-"%char _ => true | _ => false end in
  let body :=
    match t with
    | String "-"%char r | String "+"%char r => r
    | _ => t
    end in
  let word := string_lower (substring 0 3 body) in
  if String.eqb word "inf" then (if negative then neg_infinity else infinity)
  else if String.eqb word "nan" then nan
  else
    let hexadecimal :=
      match body with
      | String "0"%char (String x r) =>
          if Ascii.eqb x "x"%char || Ascii.eqb x "X"%char
          then hexadecimal_number negative r else None
      | _ => None
      end in
    match hexadecimal with
    | Some v => v
    | None =>
        match decimal_number negative body with
        | Some v => v
        | None => zero
        end
    end.

(** The host's conversion of a string to a double ([zend_strtod]): an
    optional sign and a decimal number at the very start of the string,
    0 otherwise. *)
Definition zend_strtod (s : string) : float :=
  let t := cstr s in
  let negative := match t with String "-"%char _ => true | _ => false end in
  let body :=
    match t with
    | String "-"%char r | String "+"%char r => r
    | _ => t
    end in
  match decimal_number negative body with
  | Some v => v
  | None => zero
  end.

Definition php_zval_get_double (z : zval) : float :=
  match z with
  | IS_DOUBLE d => d
  | IS_LONG l => nearest_double (l <? 0) (Z.abs l) 1
  | IS_STRING s => zend_strtod s
  | IS_TRUE => one
  | IS_ARRAY ht => if Nat.eqb (List.length ht) 0 then zero else one
  | _ => zero
  end.

Definition LONG_MIN : Z := - LONG_MAX - 1.

(** The integral part of a double, toward zero; 0 for NaN and the
    infinities. *)
Definition truncated (d : float) : Z :=
  match Prim2SF d with
  | S754_finite s m e =>
      let magnitude := if 0 <=? e then Zpos m * 2 ^ e else Zpos m / 2 ^ (- e) in
      if s then - magnitude else magnitude
  | _ => 0
  end.

(** [zend_dval_to_lval]: the integral part, taken modulo 2^64 when it
    does not fit. *)
Definition zend_dval_to_lval (d : float) : Z :=
  (truncated d + 2 ^ 63) mod 2 ^ 64 - 2 ^ 63.

(** [zend_dval_to_lval_cap]: the integral part, capped at the ends of the
    range. *)
Definition zend_dval_to_lval_cap (d : float) : Z :=
  match Prim2SF d with
  | S754_infinity s => if s then LONG_MIN else LONG_MAX
  | _ => Z.max LONG_MIN (Z.min LONG_MAX (truncated d))
  end.

(** The integer a numeric string stands for: white space, an optional
    sign and digits give that integer when it fits; a fraction, an
    exponent or an integer out of range make the string a double, whose
    integral part is taken; a string that starts with no number gives 0. *)
Definition numeric_string_to_long (s : string) : Z :=
  let t := skip_spaces (cstr s) in
  let negative := match t with String "-"%char _ => true | _ => false end in
  let body :=
    match t with
    | String "-"%char r | String "+"%char r => r
    | _ => t
    end in
  let '(v, n, rest) := take_digits 10 decimal_digit body 0 0 in
  let v := if negative then - v else v in
  let continues :=
    match rest with
    | String c _ =>
        Ascii.eqb c "."%char
        || (Ascii.eqb c "e"%char || Ascii.eqb c "E"%char)
           && negb (take_exponent "e" "E" rest =? 0)
    | EmptyString => false
    end in
  if (0 <? n) && negb continues && (LONG_MIN <=? v) && (v <=? LONG_MAX) then v
  else
    match decimal_number negative body with
    | Some d => zend_dval_to_lval_cap d
    | None => 0
    end.

Definition php_zval_get_long (z : zval) : Z :=
  match z with
  | IS_LONG l => l
  | IS_TRUE => 1
  | IS_DOUBLE d => zend_dval_to_lval d
  | IS_STRING s => numeric_string_to_long s
  | IS_ARRAY ht => if Nat.eqb (List.length ht) 0 then 0 else 1
  | _ => 0
  end.

Definition php_zval_is_true (z : zval) : bool :=
  match z with
  | IS_TRUE => true
  | IS_LONG l => negb (l =? 0)
  | IS_DOUBLE d => negb (PrimFloat.eqb d zero)
  | IS_STRING s => negb (String.eqb s "" || String.eqb s "0")
  | IS_ARRAY ht => negb (Nat.eqb (List.length ht) 0)
  | IS_OBJECT _ => true
  | _ => false
  end.

Definition php_convert_to_string (z : zval) : string :=
  match z with
  | IS_STRING s => s
  | IS_LONG l => snprintf_ld l
  | IS_DOUBLE d => match fst (spec_double_to_string d) with Some t => t | None => "NAN" end
  | IS_TRUE => "1"
  | IS_ARRAY _ => "Array"
  | IS_OBJECT _ => "Object"
  | _ => ""
  end.

Definition indexed (l : list zval) : HashTable :=
  fold_left zend_hash_next_index_insert l [].

Definition zkey_of_zval (z : zval) : zkey :=
  match z with
  | IS_STRING s => handle_numeric_str s
  | IS_LONG l => KIdx l
  | _ => KStr ""
  end.

Fixpoint alternating (l : list zval) (ht : HashTable) : HashTable :=
  match l with
  | k :: v :: r => alternating r (zend_hash_update ht (zkey_of_zval k) v)
  | _ => ht
  end.

Fixpoint response_to_zval (mode : assoc_mode) (r : CommandResponse) {struct r} : zval :=
  match r with
  | Response.Null => IS_NULL
  | Response.Int i => IS_LONG i
  | Response.Float f => IS_DOUBLE f
  | Response.Bool b => ZVAL_BOOL b
  | Response.String s => IS_STRING s
  | Response.Array l =>
      let items := map (response_to_zval COMMAND_RESPONSE_NOT_ASSOSIATIVE) l in
      match mode with
      | COMMAND_RESPONSE_NOT_ASSOSIATIVE => IS_ARRAY (indexed items)
      | COMMAND_RESPONSE_SCAN_ASSOSIATIVE_ARRAY => IS_ARRAY (alternating items [])
      end
  | Response.Sets l =>
      IS_ARRAY (indexed (map (response_to_zval COMMAND_RESPONSE_NOT_ASSOSIATIVE) l))
  | Response.Map pairs =>
      IS_ARRAY
        (fold_left (fun ht kv => zend_hash_update ht (fst kv) (snd kv))
           (map (fun kv : CommandResponse * CommandResponse =>
                   let (k, v) := kv in
                   (zkey_of_zval (response_to_zval COMMAND_RESPONSE_NOT_ASSOSIATIVE k),
                    response_to_zval COMMAND_RESPONSE_NOT_ASSOSIATIVE v))
              pairs)
           [])
  | Response.Ok => IS_TRUE
  | Response.Error _ => IS_FALSE
  end.

(** Modelled from the spec: [command_response_to_zval] of
    [command_response.c], the generic structural converter that maps a
    typed response tree to a host value without assuming a shape: scalars
    to scalars, arrays and sets to ordered collections, and, in the
    associative shaping of the hash and sorted-set scans, an array read
    as alternating field/value pairs. *)
Definition spec_command_response_to_zval (r : CommandResponse) (mode : assoc_mode)
    (use_memory_allocation : bool) (output : zval) : Z * zval :=
  (1, response_to_zval mode r).

Definition reference_runtime
    (engine : RequestType -> Z -> list arg -> option CommandResult)
    (cluster_engine : string -> Z -> option (list arg) -> option CommandResult)
    (buffer : valkey_glide_object -> batch_entry -> Z) : Runtime :=
  {| command_response_to_zval := spec_command_response_to_zval;
     zval_to_string_safe := spec_zval_to_string_safe;
     convert_to_string := php_convert_to_string;
     double_to_string := spec_double_to_string;
     long_to_string := spec_long_to_string;
     atof := libc_atof;
     zval_get_double := php_zval_get_double;
     zval_get_long := php_zval_get_long;
     zval_is_true := php_zval_is_true;
     zend_symtable_key := handle_numeric_str;
     execute_command := engine;
     request_cluster_scan := cluster_engine;
     buffer_command_for_batch := buffer |}.

Definition replies (r : CommandResponse) : option CommandResult :=
  Some {| command_error := None; response := Some r |}.

Definition cursor_of (args : list arg) (position : nat) : string :=
  match nth_error args position with
  | Some {| arg_ptr := Some s |} => s
  | _ => ""
  end.

(** A server that holds three keys and hands them out in two batches:
    cursor "0" is answered with cursor "3", anything else with "0". *)
Definition scan_reply (c : string) : CommandResponse :=
  if String.eqb c "0"
  then Response.Array [Response.String "3";
                       Response.Array [Response.String "key:1"; Response.String "key:2"]]
  else Response.Array [Response.String "0"; Response.Array [Response.String "key:3"]].

Definition example_engine (cmd : RequestType) (arg_count : Z) (args : list arg)
  : option CommandResult :=
  match cmd with
  | Scan => replies (scan_reply (cursor_of args 0))
  | SScan | HScan | ZScan => replies (scan_reply (cursor_of args 1))
  | GeoAdd => replies (Response.Int 2)
  | SAdd | SRem | SCard => replies (Response.Int 1)
  | _ => replies Response.Null
  end.

(** A core that answers any cluster cursor with its last batch. *)
Definition example_cluster_engine (c : string) (arg_count : Z) (args : option (list arg))
  : option CommandResult :=
  replies (Response.Array [Response.String "finished";
                          Response.Array [Response.String "key:1"]]).

Definition example_runtime : Runtime :=
  reference_runtime example_engine example_cluster_engine (fun _ _ => 1).

(** The same, with a batch buffer that refuses every entry. *)
Definition refusing_runtime : Runtime :=
  reference_runtime example_engine example_cluster_engine (fun _ _ => 0).

Definition standalone_client : valkey_glide_object :=
  {| glide_client := Some 1; is_in_batch_mode := false |}.

Definition batching_client : valkey_glide_object :=
  {| glide_client := Some 1; is_in_batch_mode := true |}.

Definition this_object : zval := IS_OBJECT 1.

(* ===================================================================== *)
(** ** Vocabulary of the statements *)
(* ===================================================================== *)

(** The response shaping the scan decoder asks of the converter. *)
Definition scan_shaping (cmd : RequestType) : assoc_mode :=
  if is_scan_assoc cmd
  then COMMAND_RESPONSE_SCAN_ASSOSIATIVE_ARRAY
  else COMMAND_RESPONSE_NOT_ASSOSIATIVE.

(** The cursor a caller sees after the scan decoder has run: the string in
    its iterator variable when the decoder was given one, [args->cursor]
    otherwise. *)
Definition caller_cursor (pr : processed) : option string :=
  match pr_iter pr with
  | Some (IS_STRING s) => Some s
  | Some _ => None
  | None => pr_cursor pr
  end.

(** The reply to one scan step: the next cursor, then the result batch. *)
Definition scan_page (next_cursor : string) (batch : list CommandResponse)
  : CommandResponse :=
  Response.Array [Response.String next_cursor; Response.Array batch].

(** One member of a geo-search reply and the fields the server may attach
    to it; a distance or coordinate travels as a double or as text. *)
Inductive wire_number : Type :=
| AsFloat (f : float)
| AsText (s : string).

Record geo_member : Type := {
  gm_name : string;
  gm_dist : wire_number;
  gm_hash : Z;
  gm_lon : wire_number;
  gm_lat : wire_number
}.

Definition wire (n : wire_number) : CommandResponse :=
  match n with
  | AsFloat f => Response.Float f
  | AsText s => Response.String s
  end.

(** The reply element for [m] when the request carried the flags [w]: the
    name, then the requested fields by position, without field names. *)
Definition wire_member (w : search_data_t) (m : geo_member) : CommandResponse :=
  Response.Array
    [Response.String (gm_name m);
     Response.Array
       ((if withdist w then [wire (gm_dist m)] else [])
        ++ (if withhash w then [Response.Int (gm_hash m)] else [])
        ++ (if withcoord w
            then [Response.Array [wire (gm_lon m); wire (gm_lat m)]] else []))].

Definition any_flag (w : search_data_t) : bool :=
  withcoord w || withdist w || withhash w.

(** The GEOADD call of the example scenario and the argument vector the
    spec expects for it. *)
Definition palermo_catania : list zval :=
  [IS_DOUBLE 13.361389; IS_DOUBLE 38.115556; IS_STRING "Palermo";
   IS_DOUBLE 15.087269; IS_DOUBLE 37.502669; IS_STRING "Catania"].

Definition palermo_catania_args : geo_command_args_t := {|
  ga_key := Some "pts";         ga_key_len := 3;
  ga_members := None;           ga_member_count := 0;
  ga_src_member := None;        ga_src_member_len := 0;
  ga_dst_member := None;        ga_dst_member_len := 0;
  ga_unit := None;              ga_unit_len := 0;
  ga_geo_args := Some palermo_catania; ga_geo_args_count := 6;
  ga_from := None;
  ga_by_radius := None;
  ga_radius_opts := no_radius_options;
  ga_dest := None;              ga_dest_len := 0;
  ga_src := None;               ga_src_len := 0
|}.

Definition palermo_catania_vector : list arg :=
  map arg_of ["pts"; "13.361389"; "38.115556"; "Palermo";
              "15.087269"; "37.502669"; "Catania"].

(** Sample inputs for running the model. *)
Definition coord_and_dist : search_data_t :=
  {| withcoord := true; withdist := true; withhash := false |}.

Definition two_members : list geo_member :=
  [{| gm_name := "Palermo"; gm_dist := AsText "190.4424"; gm_hash := 0;
      gm_lon := AsFloat 13.361389; gm_lat := AsFloat 38.115556 |};
   {| gm_name := "Catania"; gm_dist := AsText "56.4413"; gm_hash := 0;
      gm_lon := AsFloat 15.087269; gm_lat := AsFloat 37.502669 |}].

Definition two_names : list zval := [IS_STRING "Palermo"; IS_LONG 7].

Definition geo_members_sample : geo_command_args_t := {|
  ga_key := Some "pts";         ga_key_len := 3;
  ga_members := Some two_names; ga_member_count := 2;
  ga_src_member := None;        ga_src_member_len := 0;
  ga_dst_member := None;        ga_dst_member_len := 0;
  ga_unit := None;              ga_unit_len := 0;
  ga_geo_args := None;          ga_geo_args_count := 0;
  ga_from := None;
  ga_by_radius := None;
  ga_radius_opts := no_radius_options;
  ga_dest := None;              ga_dest_len := 0;
  ga_src := None;               ga_src_len := 0
|}.

Definition set_members_sample : s_command_args_t := {|
  sa_glide_client := Some 1;
  sa_key := Some "pts";         sa_key_len := 3;
  sa_member := None;            sa_member_len := 0;
  sa_members := Some two_names; sa_members_count := 2;
  sa_count := 0;                sa_has_count := false;
  sa_keys := None;              sa_keys_count := 0;
  sa_limit := 0;                sa_has_limit := false;
  sa_dst_key := None;           sa_dst_key_len := 0;
  sa_src_key := None;           sa_src_key_len := 0;
  sa_cursor := None;
  sa_pattern := None;           sa_pattern_len := 0;
  sa_type := None;              sa_type_len := 0;
  sa_has_type := false;
  sa_scan_iter := false
|}.

(** GEODIST between two members, in kilometres; and the same without a
    source member. *)
Definition geodist_sample (src : option string) : geo_command_args_t := {|
  ga_key := Some "pts";         ga_key_len := 3;
  ga_members := None;           ga_member_count := 0;
  ga_src_member := src;         ga_src_member_len := 7;
  ga_dst_member := Some "Catania"; ga_dst_member_len := 7;
  ga_unit := Some "km";         ga_unit_len := 2;
  ga_geo_args := None;          ga_geo_args_count := 0;
  ga_from := None;
  ga_by_radius := None;
  ga_radius_opts := no_radius_options;
  ga_dest := None;              ga_dest_len := 0;
  ga_src := None;               ga_src_len := 0
|}.

(** A cluster cursor object at the start of a scan. *)
Definition fresh_cluster_cursor : scan_iterator :=
  IterClusterCursor {| getCursor := Some (IS_STRING "0"); next_cursor_id := None |}.

Definition last_cluster_page : CommandResult :=
  {| command_error := None;
     response := Some (scan_page "finished" [Response.String "key:1"]) |}.

Section SpecVocabulary.

Context {RT : Runtime}.

Definition number_value (n : wire_number) : float :=
  match n with
  | AsFloat f => f
  | AsText s => atof s
  end.

(** The slot the geo member-list encoder writes for a member: the string
    form [zval_to_string_safe] gives it, with its length. *)
Definition geo_string_form (m : zval) : arg :=
  let '(str_val, str_len, _) := zval_to_string_safe m in
  {| arg_ptr := str_val; arg_len := str_len |}.

(** The slot the set encoder writes for a member: a string as it is, any
    other value as the host converts it to a string. *)
Definition set_string_form (m : zval) : arg :=
  match m with
  | IS_STRING s => arg_of s
  | _ => arg_of (convert_to_string m)
  end.

(** Follows the spec's words: the fields of a decoded entry, in the fixed
    order distance, then hash, then coordinate pair, each present exactly
    when its flag was requested. *)
Definition requested_fields (w : search_data_t) (m : geo_member) : list zval :=
  (if withdist w then [IS_DOUBLE (number_value (gm_dist m))] else [])
  ++ (if withhash w then [IS_LONG (gm_hash m)] else [])
  ++ (if withcoord w
      then [IS_ARRAY (indexed [IS_DOUBLE (number_value (gm_lon m));
                               IS_DOUBLE (number_value (gm_lat m))])]
      else []).

(** Follows the spec's words: the decoded map, one entry per member, keyed
    by member name. *)
Definition geo_search_map (w : search_data_t) (members : list geo_member) : HashTable :=
  fold_left
    (fun ht m => add_assoc_zval_ex ht (gm_name m) (IS_ARRAY (indexed (requested_fields w m))))
    members [].

(** The entry the frameworks hand to the batch buffer. *)
Definition batch_entry_of (cmd : RequestType) (p : prepared) (result_ptr : result_ptr_t)
    (process_result : z_result_processor_t) : batch_entry :=
  {| be_cmd_type := cmd; be_args := args_of p; be_arg_count := p_arg_count p;
     be_result_ptr := result_ptr; be_process_result := process_result |}.



(** The decode context of a scan: the command, the cursor the call
    starts from and the iterator variable to update. *)
Definition scan_context (cmd : RequestType) (z_iter : zval) : result_ptr_t :=
  PtrScan {| sd_cmd_type := cmd;
             sd_cursor := option_map estrdup (scan_cursor_value z_iter);
             sd_scan_iter := true |}.


End SpecVocabulary.


(* ===================================================================== *)
(** ** Vocabulary of the further properties *)
(* ===================================================================== *)

Definition is_string (z : zval) : bool :=
  match z with IS_STRING _ => true | _ => false end.

(** The member and key counts of [args] lie within the lists they
    describe and fit the [int] the encoders return. *)
Definition counts_fit (args : s_command_args_t) : Prop :=
  (forall l, sa_members args = Some l -> sa_members_count args <= Z.of_nat (List.length l))
  /\ (forall l, sa_keys args = Some l -> sa_keys_count args <= Z.of_nat (List.length l))
  /\ sa_members_count args < INT_MAX
  /\ sa_keys_count args < INT_MAX - 2.

(** The slot that carries a number as decimal text. *)
Definition decimal_slot (value : Z) : arg :=
  {| arg_ptr := Some (snprintf_ld value); arg_len := strlen (snprintf_ld value) |}.

(** The slot of a cursor, which travels as a C string. *)
Definition cursor_slot (cursor : string) : arg :=
  {| arg_ptr := Some (estrdup cursor); arg_len := strlen (estrdup cursor) |}.

(** MATCH and its pattern, when the pattern is present and not empty. *)
Definition match_clause (pattern : option string) : list arg :=
  match pattern with
  | Some p => if String.eqb p "" then [] else [arg_of "MATCH"; arg_of p]
  | None => []
  end.

(** COUNT and the page size in decimal, when the size is positive. *)
Definition count_clause (n : Z) : list arg :=
  if 0 <? n then [arg_of "COUNT"; decimal_slot n] else [].

(** TYPE and the type name, when the name is present and not empty. *)
Definition type_clause (type : option string) : list arg :=
  match type with
  | Some t => if String.eqb t "" then [] else [arg_of "TYPE"; arg_of t]
  | None => []
  end.

(** A set command called with an empty key: an empty member, source or
    destination counts as well where the command has one. *)
Definition has_empty_key (c : call) : bool :=
  match c with
  | CallSAdd key _ | CallSRem key _ | CallSMIsMember key _
  | CallSCard key | CallSMembers key
  | CallSRandMember key _ | CallSPop key _ => String.eqb key ""
  | CallSIsMember key member => String.eqb key "" || String.eqb member ""
  | CallSMove src dst member =>
      String.eqb src "" || String.eqb dst "" || String.eqb member ""
  | CallSUnionStore dst _ | CallSDiffStore dst _ => String.eqb dst ""
  | CallSInterStore (StoreVariadic dst _) => String.eqb dst ""
  | _ => false
  end.

Definition is_geo_call (c : call) : bool :=
  match c with
  | CallGeoAdd _ _ | CallGeoDist _ _ _ _ | CallGeoHash _ _ | CallGeoPos _ _
  | CallGeoSearch _ | CallGeoSearchStore _ => true
  | _ => false
  end.

(** GEOADD, GEODIST, GEOHASH or GEOPOS with an arity its entry point
    accepts: whole triplets for GEOADD, at least one member for GEOHASH
    and GEOPOS. *)
Definition is_geo_handle_call (c : call) : bool :=
  match c with
  | CallGeoAdd _ z_args =>
      (3 <=? Z.of_nat (List.length z_args))
      && (Z.rem (Z.of_nat (List.length z_args)) 3 =? 0)
  | CallGeoDist _ _ _ _ => true
  | CallGeoHash _ members | CallGeoPos _ members =>
      1 <=? Z.of_nat (List.length members)
  | _ => false
  end.

(** A trace that never touches the batch buffer and calls the engine at
    most once. *)
Definition direct_trace (evs : list event) : Prop :=
  enqueued evs = [] /\ (List.length (engine_calls evs) <= 1)%nat.

(** A reply the scan decoder accepts as a page: an array that starts with
    a string cursor followed by an array of elements. *)
Definition is_scan_page (response : option CommandResponse) : bool :=
  match response with
  | Some (Response.Array (Response.String _ :: Response.Array _ :: _)) => true
  | _ => false
  end.

(** A reply after which the scan decoder, given no iterator, leaves the
    address of the literal "0" in its context: a reply that is no page,
    and the page of cursor "0" without elements. *)
Definition leaves_literal (response : option CommandResponse) : bool :=
  match response with
  | Some (Response.Array (Response.String c :: Response.Array elements :: _)) =>
      String.eqb c "0" && match elements with [] => true | _ :: _ => false end
  | _ => true
  end.

(** The table that holds [l] under the keys [k], [k + 1], ... *)
Fixpoint dense (k : Z) (l : list zval) : HashTable :=
  match l with
  | [] => []
  | x :: r => (KIdx k, x) :: dense (k + 1) r
  end.

(** What GEOHASH answers for one member: its hash, or nothing. *)
Definition wire_hash (m : option string) : CommandResponse :=
  match m with Some h => Response.String h | None => Response.Null end.

Definition hash_value (m : option string) : zval :=
  match m with Some h => IS_STRING h | None => IS_NULL end.

(** What GEOPOS answers for one member: its longitude and latitude, or
    nothing. *)
Definition wire_position (m : option (wire_number * wire_number)) : CommandResponse :=
  match m with
  | Some (lon, lat) => Response.Array [wire lon; wire lat]
  | None => Response.Null
  end.

(** An element of a geo-search reply that is a name and nothing else. *)
Definition is_lone_name (element : CommandResponse) : bool :=
  match element with
  | Response.Array [Response.String _] => true
  | _ => false
  end.

(** An array of exactly two elements, found under the indices 0 and 1. *)
Definition is_pair (ht : HashTable) : bool :=
  (zend_hash_num_elements ht =? 2)
  && is_some (zend_hash_index_find ht 0) && is_some (zend_hash_index_find ht 1).

(** A position the geo search takes: a member name or a pair. *)
Definition position_accepted (position : zval) : bool :=
  match position with
  | IS_STRING _ => true
  | IS_ARRAY ht => is_pair ht
  | _ => false
  end.

(** A shape the geo search takes: a number (the radius) or a pair. *)
Definition shape_accepted (shape : zval) : bool :=
  match shape with
  | IS_LONG _ | IS_DOUBLE _ => true
  | IS_ARRAY ht => is_pair ht
  | _ => false
  end.

Definition set_options (params : geo_search_params_t) (o : geo_radius_options_t)
  : geo_search_params_t :=
  {| gp_key := gp_key params;           gp_key_len := gp_key_len params;
     gp_src_key := gp_src_key params;   gp_src_key_len := gp_src_key_len params;
     gp_unit := gp_unit params;         gp_unit_len := gp_unit_len params;
     gp_is_from_member := gp_is_from_member params;
     gp_member := gp_member params;     gp_member_len := gp_member_len params;
     gp_longitude := gp_longitude params; gp_latitude := gp_latitude params;
     gp_is_by_radius := gp_is_by_radius params;
     gp_radius := gp_radius params;
     gp_width := gp_width params;       gp_height := gp_height params;
     gp_options := o |}.

(** Some value of the options array is the word [word], in any case. *)
Definition has_word (ht : HashTable) (word : string) : Prop :=
  exists s, In (IS_STRING s) (values_of ht) /\ strcasecmp_eq s word = true.

Section ReplyVocabulary.

Context {RT : Runtime}.

Definition position_value (m : option (wire_number * wire_number)) : zval :=
  match m with
  | Some (lon, lat) =>
      IS_ARRAY [(KIdx 0, IS_DOUBLE (number_value lon));
                (KIdx 1, IS_DOUBLE (number_value lat))]
  | None => IS_NULL
  end.

Definition formats (d : float) : bool := is_some (fst (double_to_string d)).

(** Every number the unified geo-search encoder has to format for
    [params] can be formatted. *)
Definition numbers_format (params : geo_search_params_t) : bool :=
  (gp_is_from_member params
   || (formats (gp_longitude params) && formats (gp_latitude params)))
  && (if gp_is_by_radius params then formats (gp_radius params)
      else formats (gp_width params) && formats (gp_height params))
  && (negb (0 <? ro_count (gp_options params))
      || is_some (fst (long_to_string (ro_count (gp_options params))))).

End ReplyVocabulary.

(** The runtime [RT] with another execution engine behind it. *)
Definition with_engine (RT : Runtime)
    (engine : RequestType -> Z -> list arg -> option CommandResult) : Runtime :=
  {| command_response_to_zval := @command_response_to_zval RT;
     zval_to_string_safe := @zval_to_string_safe RT;
     convert_to_string := @convert_to_string RT;
     double_to_string := @double_to_string RT;
     long_to_string := @long_to_string RT;
     atof := @atof RT;
     zval_get_double := @zval_get_double RT;
     zval_get_long := @zval_get_long RT;
     zval_is_true := @zval_is_true RT;
     zend_symtable_key := @zend_symtable_key RT;
     execute_command := engine;
     request_cluster_scan := @request_cluster_scan RT;
     buffer_command_for_batch := @buffer_command_for_batch RT |}.

(** The engine [engine], flagging every result it gives as an error. *)
Definition flagging (engine : RequestType -> Z -> list arg -> option CommandResult)
    (cmd : RequestType) (arg_count : Z) (args : list arg) : option CommandResult :=
  match engine cmd arg_count args with
  | Some r => Some {| command_error := Some "ERR"; response := response r |}
  | None => None
  end.

Definition erroring_runtime : Runtime :=
  reference_runtime (flagging example_engine) example_cluster_engine (fun _ _ => 1).

(** An engine and a core that give no result. *)
Definition silent_runtime : Runtime :=
  reference_runtime (fun _ _ _ => None) (fun _ _ _ => None) (fun _ _ => 1).

(** A core that answers every cluster scan with an error and no
    response. *)
Definition failing_core_runtime : Runtime :=
  reference_runtime example_engine
    (fun _ _ _ => Some {| command_error := Some "ERR"; response := None |})
    (fun _ _ => 1).

Definition clientless : valkey_glide_object :=
  {| glide_client := None; is_in_batch_mode := false |}.

(** Sample inputs for running the model. *)
Definition two_keys : HashTable := [(KIdx 0, IS_STRING "a"); (KIdx 1, IS_STRING "b")].

Definition members_near (position : zval) : geosearch_call :=
  {| gs_key := "pts"; gs_src := ""; gs_position := position;
     gs_shape := IS_LONG 200; gs_unit := "km"; gs_options := None |}.

(* ===================================================================== *)
(** ** Properties *)
(* ===================================================================== *)

Lemma to_int_small (z : Z) : 0 <= z <= INT_MAX -> to_int z = z.
Proof.
  unfold to_int, INT_MAX. intros H.
  rewrite Z.mod_small by lia. lia.
Qed.

Lemma cstr_idempotent (s : string) : cstr (cstr s) = cstr s.
Proof.
  induction s as [|c r IH]; simpl; [reflexivity|].
  destruct (Ascii.eqb c Ascii.zero) eqn:E; simpl; [reflexivity|].
  rewrite E, IH. reflexivity.
Qed.

Section Properties.

Context {RT : Runtime}.

(* --------------------------------------------------------------------- *)
(** *** Integer decoders *)

Lemma geo_int_otherwise (r : option CommandResponse) (rv : zval) :
  (forall i, r <> Some (Response.Int i)) -> r <> Some Response.Null ->
  process_geo_int_result_async r rv = (0, IS_LONG 0).
Proof.
  intros Hi Hn. destruct r as [[]|]; simpl; try reflexivity.
  - contradiction.
  - exfalso. eapply Hi. reflexivity.
Qed.

(** C8. Integer family.  Both decoders turn an Int response into that
    integer with success and a Null response into null with success, and
    both fail on every other response; on the failure the geo decoder
    stores the integer 0, and so does the set decoder when there is no
    response at all, but on a response of another type the set decoder
    leaves the output value as it found it: from a String response and a
    null output it returns failure with the output still null, where the
    geo decoder gives 0. *)
Theorem int_decoders_on_mismatch :
  (forall i rv,
      process_geo_int_result_async (Some (Response.Int i)) rv = (1, IS_LONG i)
      /\ process_s_int_result_async (Some (Response.Int i)) rv = (1, IS_LONG i))
  /\ (forall rv,
      process_geo_int_result_async (Some Response.Null) rv = (1, IS_NULL)
      /\ process_s_int_result_async (Some Response.Null) rv = (1, IS_NULL))
  /\ (forall rv,
      process_geo_int_result_async None rv = (0, IS_LONG 0)
      /\ process_s_int_result_async None rv = (0, IS_LONG 0))
  /\ process_geo_int_result_async (Some (Response.String "x")) IS_NULL = (0, IS_LONG 0)
  /\ process_s_int_result_async (Some (Response.String "x")) IS_NULL = (0, IS_NULL).
Proof.
  repeat split.
Qed.

(* --------------------------------------------------------------------- *)
(** *** The scan decoder *)

Lemma scan_decoder_continues (cmd : RequestType) (c : option string) (iter : bool)
    (next : string) (batch rest : list CommandResponse) (rv : zval) :
  next <> "0" ->
  let pr :=
    process_s_scan_result_async
      (Some (Response.Array (Response.String next :: Response.Array batch :: rest)))
      {| sd_cmd_type := cmd; sd_cursor := c; sd_scan_iter := iter |} rv in
  (pr_status pr, pr_return_value pr)
  = command_response_to_zval (Response.Array batch) (scan_shaping cmd) false rv
  /\ pr_cursor pr = (if iter then None else Some next)
  /\ pr_iter pr = (if iter then Some (IS_STRING (cstr next)) else None).
Proof.
  intros Hnext. simpl.
  destruct (String.eqb next "0") eqn:E.
  - apply String.eqb_eq in E. contradiction.
  - unfold scan_elements, scan_shaping. simpl.
    destruct (command_response_to_zval (Response.Array batch) _ false rv) as [st v].
    destruct iter; simpl; repeat split.
Qed.

Lemma scan_decoder_last_batch (cmd : RequestType) (c : option string) (iter : bool)
    (batch rest : list CommandResponse) (rv : zval) :
  batch <> [] ->
  let pr :=
    process_s_scan_result_async
      (Some (Response.Array (Response.String "0" :: Response.Array batch :: rest)))
      {| sd_cmd_type := cmd; sd_cursor := c; sd_scan_iter := iter |} rv in
  (pr_status pr, pr_return_value pr)
  = command_response_to_zval (Response.Array batch) (scan_shaping cmd) false rv
  /\ caller_cursor pr = Some "0".
Proof.
  intros Hb. destruct batch as [|b batch]; [contradiction|].
  simpl. unfold scan_elements, scan_shaping, caller_cursor. simpl.
  destruct (command_response_to_zval (Response.Array (b :: batch)) _ false rv) as [st v].
  destruct iter; simpl; split; reflexivity.
Qed.

Lemma scan_decoder_done_empty (args : scan_data_t) (rest : list CommandResponse)
    (rv : zval) :
  let pr :=
    process_s_scan_result_async
      (Some (Response.Array (Response.String "0" :: Response.Array [] :: rest)))
      args rv in
  pr_return_value pr = IS_ARRAY []
  /\ caller_cursor pr = Some "0"
  /\ pr_status pr = 1.
Proof.
  simpl. unfold scan_reset, caller_cursor.
  destruct (sd_scan_iter args); simpl; repeat split.
Qed.

(** C2. Termination is idempotent: a scan response whose cursor element
    is the terminal marker "0" and whose result batch is an empty array
    decodes to an empty collection, leaves "0" as the cursor the caller
    sees, and reports success. *)
Theorem scan_terminal_empty_batch :
  forall (args : scan_data_t) (rest : list CommandResponse) (rv : zval),
    let pr :=
      process_s_scan_result_async
        (Some (Response.Array (Response.String "0" :: Response.Array [] :: rest)))
        args rv in
    pr_return_value pr = IS_ARRAY []
    /\ caller_cursor pr = Some "0"
    /\ pr_status pr = 1.
Proof.
  intros args rest rv. apply scan_decoder_done_empty.
Qed.

(** A scan request without key starts with the cursor slot and is never
    empty. *)
Lemma prepare_s_scan_args_cursor_first (args : s_command_args_t) (client : Z)
    (c : string) :
  sa_glide_client args = Some client ->
  sa_cursor args = Some c ->
  sa_key args = None ->
  exists rest,
    p_args (prepare_s_scan_args args)
    = Some ({| arg_ptr := Some c; arg_len := strlen c |} :: rest)
    /\ 0 < p_arg_count (prepare_s_scan_args args).
Proof.
  intros Hc Hcur Hkey. unfold prepare_s_scan_args.
  rewrite Hc, Hcur, Hkey. simpl.
  eexists. split; [reflexivity|].
  repeat match goal with |- context [if ?b then _ else _] => destruct b end; lia.
Qed.

(** The synchronous path of the framework for a scan step. *)
Lemma execute_s_generic_command_scan_sync (valkey_glide : valkey_glide_object)
    (client : Z) (cmd : RequestType) (args : s_command_args_t) (rv : zval)
    (cmd_args : list arg) (result : CommandResult) :
  glide_client valkey_glide = Some client ->
  is_in_batch_mode valkey_glide = false ->
  p_args (prepare_s_scan_args args) = Some cmd_args ->
  0 < p_arg_count (prepare_s_scan_args args) ->
  execute_command cmd (p_arg_count (prepare_s_scan_args args)) cmd_args = Some result ->
  let pr :=
    process_s_scan_result_async (response result)
      {| sd_cmd_type := cmd; sd_cursor := sa_cursor args;
         sd_scan_iter := sa_scan_iter args |} rv in
  execute_s_generic_command valkey_glide cmd S_CMD_SCAN S_RESPONSE_SCAN args rv
  = {| s_status := pr_status pr;
       s_return_value := pr_return_value pr;
       s_iter := pr_iter pr;
       s_events :=
         EvExecuteCommand cmd (p_arg_count (prepare_s_scan_args args)) cmd_args
         :: pr_events pr |}.
Proof.
  intros Hc Hb Hargs Hcount Hexec. unfold execute_s_generic_command.
  rewrite Hc. simpl prepare_s_args. cbv iota beta. rewrite Hargs.
  destruct (p_arg_count (prepare_s_scan_args args) <=? 0) eqn:E;
    [apply Z.leb_le in E; lia|].
  rewrite Hb, Hexec. reflexivity.
Qed.

(** One standalone SCAN call that reaches the engine: the reply is decoded
    with the context of the framework and the iterator receives what the
    decoder stored. *)
Lemma execute_scan_command_step (valkey_glide : valkey_glide_object) (object : zval)
    (client : Z) (argc : Z) (cur : string) (pattern : option string) (count : Z)
    (type : option string) (rv : zval) (reply : CommandResponse) :
  glide_client valkey_glide = Some client ->
  is_in_batch_mode valkey_glide = false ->
  (forall n rest,
      execute_command Scan n
        ({| arg_ptr := Some (estrdup cur); arg_len := strlen (estrdup cur) |} :: rest)
      = replies reply) ->
  let pr :=
    process_s_scan_result_async (Some reply)
      {| sd_cmd_type := Scan; sd_cursor := Some (estrdup cur); sd_scan_iter := true |}
      rv in
  exists o,
    execute_scan_command valkey_glide object false argc (IterZval (IS_STRING cur))
      pattern count type rv
    = Some (o, match pr_iter pr with Some z => IterSet z | None => IterUntouched end)
    /\ return_value o = pr_return_value pr
    /\ ret o = (if nonzero (pr_status pr) then 1 else 0).
Proof.
  intros Hc Hb Hengine pr.
  unfold execute_scan_command. rewrite Hc. cbv zeta. cbn [scan_cursor_value].
  match goal with
  | |- context [execute_s_generic_command _ _ _ _ ?a _] => set (args := a)
  end.
  destruct (@prepare_s_scan_args_cursor_first args client (estrdup cur))
    as (rest & Hargs & Hcount); try reflexivity.
  rewrite (@execute_s_generic_command_scan_sync valkey_glide client Scan args rv _
             {| command_error := None; response := Some reply |} Hc Hb Hargs Hcount
             (Hengine _ _)).
  cbn [response sa_cursor sa_scan_iter args].
  fold pr. unfold return_one_if_nonzero. rewrite Hb. cbn [s_status s_return_value s_iter].
  eexists. split; [reflexivity|].
  destruct (nonzero (pr_status pr)); cbn; split; reflexivity.
Qed.

(** C1. Scan protocol, two pages.  Started from the initial marker "0"
    against an engine that answers the cursor "0" with the page
    ["3", batch1] and the cursor "3" with the page ["0", batch2]: the first
    decode leaves the caller with the cursor "3" (in progress), the second
    with the terminal marker "0" (complete), and the second still converts
    its batch into the returned collection when the batch is not empty.
    Stated for the decoder with the context the framework builds, for any
    command of the scan family, and for two successive SCAN calls through
    the standalone entry point. *)
Theorem scan_two_pages :
  forall (valkey_glide : valkey_glide_object) (object : zval) (client : Z)
         (cmd : RequestType) (batch1 batch2 : list CommandResponse) (rv1 rv2 : zval)
         (argc : Z) (pattern : option string) (count : Z) (type : option string),
    glide_client valkey_glide = Some client ->
    is_in_batch_mode valkey_glide = false ->
    (forall n rest,
        execute_command Scan n (arg_of "0" :: rest) = replies (scan_page "3" batch1)) ->
    (forall n rest,
        execute_command Scan n (arg_of "3" :: rest) = replies (scan_page "0" batch2)) ->
    let context c :=
      {| sd_cmd_type := cmd; sd_cursor := Some c; sd_scan_iter := true |} in
    let first :=
      process_s_scan_result_async (Some (scan_page "3" batch1)) (context "0") rv1 in
    let second :=
      process_s_scan_result_async (Some (scan_page "0" batch2)) (context "3") rv2 in
    let call1 :=
      execute_scan_command valkey_glide object false argc (IterZval (IS_STRING "0"))
        pattern count type rv1 in
    let call2 :=
      execute_scan_command valkey_glide object false argc (IterZval (IS_STRING "3"))
        pattern count type rv2 in
    caller_cursor first = Some "3"
    /\ caller_cursor second = Some "0"
    /\ (batch2 <> [] ->
        (pr_status second, pr_return_value second)
        = command_response_to_zval (Response.Array batch2) (scan_shaping cmd) false rv2)
    /\ option_map snd call1 = Some (IterSet (IS_STRING "3"))
    /\ option_map snd call2 = Some (IterSet (IS_STRING "0"))
    /\ (batch2 <> [] ->
        option_map (fun r => return_value (fst r)) call2
        = Some (snd (command_response_to_zval (Response.Array batch2)
                       COMMAND_RESPONSE_NOT_ASSOSIATIVE false rv2))).
Proof.
  intros vg object client cmd batch1 batch2 rv1 rv2 argc pattern count type
         Hc Hb H1 H2 context first second call1 call2.
  assert (Hfirst : caller_cursor first = Some "3").
  { subst first context. unfold scan_page.
    pose proof (@scan_decoder_continues cmd (Some "0") true "3" batch1 [] rv1) as L.
    destruct L as (_ & _ & Hi); [discriminate|].
    unfold caller_cursor. rewrite Hi. reflexivity. }
  assert (Hsecond : caller_cursor second = Some "0").
  { subst second context. unfold scan_page.
    destruct batch2 as [|b batch2].
    - apply scan_decoder_done_empty.
    - apply (@scan_decoder_last_batch cmd (Some "3") true (b :: batch2) [] rv2).
      discriminate. }
  repeat split; try assumption.
  - intros Hne. subst second context. unfold scan_page.
    apply (@scan_decoder_last_batch cmd (Some "3") true batch2 [] rv2 Hne).
  - subst call1.
    destruct (@execute_scan_command_step vg object client argc "0" pattern count type
                rv1 (scan_page "3" batch1) Hc Hb H1) as (o & Hrun & _ & _).
    rewrite Hrun. cbn [option_map snd]. f_equal.
    destruct (@scan_decoder_continues Scan (Some (estrdup "0")) true "3" batch1 [] rv1)
      as (_ & _ & Hi); [discriminate|].
    unfold scan_page. rewrite Hi. reflexivity.
  - subst call2.
    destruct (@execute_scan_command_step vg object client argc "3" pattern count type
                rv2 (scan_page "0" batch2) Hc Hb H2) as (o & Hrun & _ & _).
    rewrite Hrun. cbn [option_map snd]. f_equal. unfold scan_page.
    destruct batch2 as [|b batch2]; [reflexivity|].
    cbn. unfold scan_elements. cbn.
    destruct (command_response_to_zval _ _ _ _); reflexivity.
  - intros Hne. subst call2.
    destruct (@execute_scan_command_step vg object client argc "3" pattern count type
                rv2 (scan_page "0" batch2) Hc Hb H2) as (o & Hrun & Hrv & _).
    rewrite Hrun. cbn [option_map fst]. f_equal.
    rewrite Hrv. unfold scan_page.
    destruct (@scan_decoder_last_batch Scan (Some (estrdup "3")) true batch2 [] rv2 Hne)
      as (Hd & _).
    cbv zeta in Hd.
    change (scan_shaping Scan) with COMMAND_RESPONSE_NOT_ASSOSIATIVE in Hd.
    rewrite <- Hd. reflexivity.
Qed.

(* --------------------------------------------------------------------- *)
(** *** Cluster scan *)

Lemma scan_reset_releases_nothing (args : scan_data_t) (st : Z) (msg : string)
    (quiet : bool) :
  released_cursors
    (pr_events (scan_reset args st (if quiet then [] else [EvPrintf msg]))) = [].
Proof.
  unfold scan_reset. destruct (sd_scan_iter args), quiet; reflexivity.
Qed.

Lemma scan_elements_releases_nothing (args : scan_data_t) (c : string)
    (r : CommandResponse) (rv : zval) :
  released_cursors (pr_events (scan_elements args c r rv)) = [].
Proof.
  unfold scan_elements.
  destruct (command_response_to_zval r _ false rv).
  destruct (sd_scan_iter args); reflexivity.
Qed.

(** The scan decoder releases no cluster cursor by itself. *)
Lemma scan_decoder_releases_nothing (response : option CommandResponse)
    (args : scan_data_t) (rv : zval) :
  released_cursors (pr_events (process_s_scan_result_async response args rv)) = [].
Proof.
  pose proof (fun st => @scan_reset_releases_nothing args st "" true) as R.
  cbn [negb] in R.
  destruct response as [r|]; cbn [process_s_scan_result_async].
  - destruct r as [ | | | | |l| | | | ]; try apply R.
    destruct l as [|c [|e l]]; try apply R.
    destruct c; try apply R.
    destruct e as [ | | | | |elements| | | | ]; try apply R.
    destruct (String.eqb string_value "0").
    + destruct elements; [apply R|apply scan_elements_releases_nothing].
    + apply scan_elements_releases_nothing.
  - apply (@scan_reset_releases_nothing args 0
             "No response received in process_s_scan_result_async"
             (sd_scan_iter args)).
Qed.

Lemma released_cursors_app (a b : list event) :
  released_cursors (a ++ b) = released_cursors a ++ released_cursors b.
Proof. unfold released_cursors. apply flat_map_app. Qed.

(** C3. Cluster scan, as the code has it.  The scan runs with the
    identifier [cursor]; the core answers and the decoder leaves the
    cursor [post].  If [post] is the "finished" sentinel, the binding calls
    the release function exactly once and hands the caller the terminal
    marker "0" of standalone mode; for any other [post] it releases nothing
    and the caller receives [post].  What it hands to the release function
    is [post], the sentinel itself: the identifier the scan ran with, which
    the decoder has freed by then, is released only if it is itself the
    sentinel. *)
Theorem cluster_scan_release :
  forall (client : Z) (cursor : string) (pattern : option string) (pattern_len : Z)
         (count : Z) (has_count : bool) (type : option string) (type_len : Z)
         (has_type : bool) (rv : zval) (result : CommandResult) (post : string),
    let request :=
      cluster_scan_arguments pattern pattern_len count has_count type type_len
        has_type in
    request_cluster_scan cursor (fst request) (snd request) = Some result ->
    pr_cursor
      (process_s_scan_result_async (response result)
         {| sd_cmd_type := Scan; sd_cursor := Some cursor; sd_scan_iter := false |} rv)
    = Some post ->
    let o :=
      execute_cluster_scan_command (Some client) cursor pattern pattern_len count
        has_count type type_len has_type rv in
    (strcmp_eq post "finished" = true ->
     released_cursors (cs_events o) = [post] /\ cs_cursor o = "0")
    /\ (strcmp_eq post "finished" = false ->
        released_cursors (cs_events o) = [] /\ cs_cursor o = post)
    /\ (In cursor (released_cursors (cs_events o)) ->
        cursor = post /\ strcmp_eq cursor "finished" = true).
Proof.
  intros client cursor pattern pattern_len count has_count type type_len has_type
         rv result post request Hreq Hpost o.
  subst o. unfold execute_cluster_scan_command. fold request.
  destruct request as [arg_count args] eqn:Ereq. cbn [fst snd] in Hreq.
  rewrite Hreq, Hpost.
  destruct (strcmp_eq post "finished") eqn:Hcmp; cbn [cs_events cs_cursor];
    rewrite !released_cursors_app, scan_decoder_releases_nothing;
    cbn [released_cursors flat_map app].
  - split; [intros _; split; reflexivity|]. split; [discriminate|].
    intros [Heq|[]]. subst post. split; [reflexivity|exact Hcmp].
  - split; [discriminate|]. split; [intros _; split; reflexivity|].
    intros [].
Qed.

(* --------------------------------------------------------------------- *)
(** *** GEODIST *)

(** C9. GEODIST encoding.  With key, source member and destination
    member present the encoder produces exactly 4 arguments when the unit
    is supplied and exactly 3 otherwise (key, source, destination and then
    the unit, each with its length); when one of the three is missing it
    returns zero arguments, and the execution framework then calls neither
    the engine nor the batch buffer and returns failure, leaving the
    output value untouched. *)
Theorem geodist_arity :
  forall (valkey_glide : valkey_glide_object) (args : geo_command_args_t)
         (result_ptr : result_ptr_t) (process_result : z_result_processor_t)
         (rv : zval),
    (forall key src dst,
        ga_key args = Some key ->
        ga_src_member args = Some src ->
        ga_dst_member args = Some dst ->
        let p := prepare_geo_dist_args args in
        p_arg_count p = (if is_some (ga_unit args) then 4 else 3)
        /\ Z.of_nat (List.length (args_of p)) = p_arg_count p
        /\ firstn 3 (args_of p)
           = [{| arg_ptr := Some key; arg_len := ga_key_len args |};
              {| arg_ptr := Some src; arg_len := ga_src_member_len args |};
              {| arg_ptr := Some dst; arg_len := ga_dst_member_len args |}]
        /\ skipn 3 (args_of p)
           = match ga_unit args with
             | Some unit => [{| arg_ptr := Some unit; arg_len := ga_unit_len args |}]
             | None => []
             end)
    /\ (ga_key args = None \/ ga_src_member args = None \/ ga_dst_member args = None ->
        p_arg_count (prepare_geo_dist_args args) = 0
        /\ execute_geo_generic_command valkey_glide GeoDist args result_ptr
             process_result rv
           = Some {| ret := 0; return_value := rv; events := [] |}).
Proof.
  intros vg args result_ptr process_result rv. split.
  - intros key src dst Hk Hs Hd p. subst p.
    unfold prepare_geo_dist_args, args_of. rewrite Hk, Hs, Hd.
    destruct (ga_unit args); cbn; repeat split.
  - intros Hmissing.
    assert (Hp : prepare_geo_dist_args args = not_prepared).
    { unfold prepare_geo_dist_args.
      destruct Hmissing as [H|[H|H]]; rewrite H;
        repeat match goal with |- context [match ?x with _ => _ end] => destruct x end;
        reflexivity. }
    split.
    + rewrite Hp. reflexivity.
    + unfold execute_geo_generic_command. cbn [prepare_geo_args]. rewrite Hp.
      reflexivity.
Qed.

(* --------------------------------------------------------------------- *)
(** *** Variadic member encoders *)

Lemma geo_values_loop_slots (values : list zval) :
  fst (geo_values_loop values) = map geo_string_form values.
Proof.
  induction values as [|v values IH]; [reflexivity|].
  cbn [geo_values_loop map]. unfold geo_string_form at 1.
  destruct (geo_values_loop values) as [out allocated].
  destruct (zval_to_string_safe v) as [[str_val str_len] need_free].
  cbn [fst] in *. rewrite IH. reflexivity.
Qed.

Lemma convert_zval_loop_slots (input : list zval) :
  fst (convert_zval_loop input) = map set_string_form input.
Proof.
  induction input as [|v input IH]; [reflexivity|].
  cbn [convert_zval_loop map].
  destruct (convert_zval_loop input) as [out allocated].
  cbn [fst] in IH. rewrite <- IH.
  destruct v; reflexivity.
Qed.

Lemma firstn_of_length {A : Type} (l : list A) :
  firstn (Z.to_nat (Z.of_nat (List.length l))) l = l.
Proof. rewrite Nat2Z.id. apply firstn_all. Qed.

(** C6. Variadic member commands.  For the geo member-list encoder and
    for the set key+members encoder, given a key with its byte length (not
    empty for the set encoder, which also wants a client) and a non-empty
    list of N members that fits an [int] count: the encoder returns 1 + N,
    the vector has exactly 1 + N slots, slot 0 is the key with the key's
    byte length, and slots 1..N are the string forms of the members in
    input order. *)
Theorem variadic_members_arity :
  forall (geo : geo_command_args_t) (set : s_command_args_t) (client : Z)
         (key : string) (members : list zval),
    members <> [] ->
    Z.of_nat (List.length members) < INT_MAX ->
    (ga_key geo = Some key ->
     ga_key_len geo = blen key ->
     ga_members geo = Some members ->
     ga_member_count geo = Z.of_nat (List.length members) ->
     let p := prepare_geo_members_args geo in
     p_arg_count p = 1 + Z.of_nat (List.length members)
     /\ List.length (args_of p) = S (List.length members)
     /\ args_of p = arg_of key :: map geo_string_form members)
    /\ (sa_glide_client set = Some client ->
        sa_key set = Some key ->
        sa_key_len set = blen key ->
        key <> "" ->
        sa_members set = Some members ->
        sa_members_count set = Z.of_nat (List.length members) ->
        let p := prepare_s_key_members_args set in
        p_arg_count p = 1 + Z.of_nat (List.length members)
        /\ List.length (args_of p) = S (List.length members)
        /\ args_of p = arg_of key :: map set_string_form members).
Proof.
  intros geo set client key members Hne Hfit.
  assert (Hpos : 0 < Z.of_nat (List.length members)).
  { destruct members; [contradiction|]. cbn [List.length]. lia. }
  split.
  - intros Hk Hl Hm Hc p. subst p. unfold prepare_geo_members_args, args_of.
    rewrite Hk, Hm, Hc, Hl.
    destruct (Z.of_nat (List.length members) <=? 0) eqn:E;
      [apply Z.leb_le in E; lia|].
    rewrite firstn_of_length.
    pose proof (geo_values_loop_slots members) as Hs.
    destruct (geo_values_loop members) as [out allocated]. cbn [fst] in Hs. subst out.
    cbn [p_arg_count p_args].
    rewrite to_int_small by (unfold INT_MAX in *; lia).
    repeat split. cbn [List.length]. rewrite length_map. reflexivity.
  - intros Hcl Hk Hl Hkey Hm Hc p. subst p.
    unfold prepare_s_key_members_args, args_of.
    rewrite Hcl, Hk, Hm, Hc, Hl.
    assert (Hklen : (blen key =? 0) = false).
    { apply Z.eqb_neq. unfold blen. destruct key; [contradiction|].
      cbn [String.length]. lia. }
    rewrite Hklen.
    destruct (Z.of_nat (List.length members) <=? 0) eqn:E;
      [apply Z.leb_le in E; lia|].
    cbn [orb]. unfold convert_zval_to_string_args. rewrite firstn_of_length.
    pose proof (convert_zval_loop_slots members) as Hs.
    destruct (convert_zval_loop members) as [out allocated]. cbn [fst] in Hs. subst out.
    cbn [p_arg_count p_args].
    rewrite to_int_small by (unfold INT_MAX in *; lia).
    repeat split. cbn [List.length]. rewrite length_map. reflexivity.
Qed.

(* --------------------------------------------------------------------- *)
(** *** Geo-search decoding *)

Lemma zkey_eqb_eq (a b : zkey) : zkey_eqb a b = true <-> a = b.
Proof.
  destruct a as [i|s], b as [j|t]; cbn; split; intros H;
    try discriminate; try congruence.
  - apply Z.eqb_eq in H. congruence.
  - injection H as ->. apply Z.eqb_refl.
  - apply String.eqb_eq in H. congruence.
  - injection H as ->. apply String.eqb_refl.
Qed.

Lemma zend_hash_update_fresh (ht : HashTable) (k : zkey) (v : zval) :
  ~ In k (map fst ht) -> zend_hash_update ht k v = ht ++ [(k, v)].
Proof.
  induction ht as [|[k' v'] ht IH]; intros Hfresh; [reflexivity|].
  cbn [zend_hash_update app]. cbn [map fst In] in Hfresh.
  destruct (zkey_eqb k k') eqn:E.
  - apply zkey_eqb_eq in E. subst. exfalso. apply Hfresh. left. reflexivity.
  - rewrite IH; [reflexivity|]. intros Hin. apply Hfresh. right. exact Hin.
Qed.

(** Inserting entries with pairwise distinct, fresh keys appends them in
    order. *)
Lemma fold_update_distinct {A : Type} (key : A -> zkey) (value : A -> zval)
    (l : list A) (acc : HashTable) :
  NoDup (map key l) ->
  (forall x, In x l -> ~ In (key x) (map fst acc)) ->
  fold_left (fun ht x => zend_hash_update ht (key x) (value x)) l acc
  = acc ++ map (fun x => (key x, value x)) l.
Proof.
  revert acc. induction l as [|x l IH]; intros acc Hnd Hfresh.
  - cbn. rewrite app_nil_r. reflexivity.
  - cbn [fold_left map]. inversion Hnd as [|? ? Hx Hnd']; subst.
    rewrite zend_hash_update_fresh by (apply Hfresh; left; reflexivity).
    rewrite IH; [rewrite <- app_assoc; reflexivity|exact Hnd'|].
    intros y Hy. rewrite map_app, in_app_iff. cbn [map fst In].
    intros [Hin|[Heq|[]]].
    + exact (Hfresh y (or_intror Hy) Hin).
    + apply Hx. rewrite Heq. apply in_map. exact Hy.
Qed.

(** The member loop reads the fields of a well-formed element by position
    and finds exactly the requested ones. *)
Lemma geo_search_member_data_requested (w : search_data_t) (m : geo_member) :
  match wire_member w m with
  | Response.Array (_ :: inner_element :: _) =>
      geo_search_member_data w inner_element = indexed (requested_fields w m)
  | _ => False
  end.
Proof.
  destruct w as [c d h], m as [name dist hash lon lat].
  destruct c, d, h, dist, lon, lat; reflexivity.
Qed.

Lemma geo_search_element_member (w : search_data_t) (ht : HashTable) (m : geo_member) :
  geo_search_element w (Some ht) (wire_member w m)
  = Some (add_assoc_zval_ex ht (gm_name m) (IS_ARRAY (indexed (requested_fields w m)))).
Proof.
  pose proof (geo_search_member_data_requested w m) as H.
  unfold wire_member in *. cbv beta iota in H.
  cbn [geo_search_element]. rewrite H. reflexivity.
Qed.

Lemma geo_search_loop (w : search_data_t) (members : list geo_member) (ht : HashTable) :
  fold_left (geo_search_element w) (map (wire_member w) members) (Some ht)
  = Some (fold_left
            (fun ht m =>
               add_assoc_zval_ex ht (gm_name m)
                 (IS_ARRAY (indexed (requested_fields w m))))
            members ht).
Proof.
  revert ht. induction members as [|m members IH]; intros ht; [reflexivity|].
  cbn [map fold_left]. rewrite geo_search_element_member. apply IH.
Qed.

(** C4. Geo-search decoding.  Without any of the WITHCOORD, WITHDIST and
    WITHHASH flags the decoder hands the response to the generic converter
    in its flat, non-associative shaping (the flat collection of names).
    With a flag requested, an array response that carries for each member
    its name and the requested fields by position decodes, with success,
    to the map that has for each member an entry keyed by its name whose
    fields are the distance, then the hash, then the coordinate pair,
    exactly those requested; when the names give distinct keys the map has
    exactly one entry per member, in the order of the response.  In
    particular two members with WITHCOORD and WITHDIST give exactly 2
    entries, each with the distance before the coordinates. *)
Theorem geo_search_decoding :
  forall (w : search_data_t) (response : CommandResponse)
         (members : list geo_member) (rv : zval),
    (any_flag w = false ->
     process_geo_search_result_async (Some response) (Some w) rv
     = Some (command_response_to_zval response COMMAND_RESPONSE_NOT_ASSOSIATIVE
               false rv))
    /\ (any_flag w = true ->
        process_geo_search_result_async
          (Some (Response.Array (map (wire_member w) members))) (Some w) rv
        = Some (1, IS_ARRAY (geo_search_map w members)))
    /\ (NoDup (map (fun m => zend_symtable_key (gm_name m)) members) ->
        geo_search_map w members
        = map (fun m => (zend_symtable_key (gm_name m),
                         IS_ARRAY (indexed (requested_fields w m)))) members
        /\ List.length (geo_search_map w members) = List.length members)
    /\ (forall m,
          withcoord w = true -> withdist w = true -> withhash w = false ->
          indexed (requested_fields w m)
          = [(KIdx 0, IS_DOUBLE (number_value (gm_dist m)));
             (KIdx 1, IS_ARRAY [(KIdx 0, IS_DOUBLE (number_value (gm_lon m)));
                                (KIdx 1, IS_DOUBLE (number_value (gm_lat m)))])]).
Proof.
  intros w response members rv. repeat split.
  - intros Hnone. unfold any_flag in Hnone.
    destruct w as [c d h]. cbn in Hnone.
    destruct c, d, h; try discriminate. reflexivity.
  - intros Hany. unfold process_geo_search_result_async.
    destruct w as [c d h]. unfold any_flag in Hany. cbn in Hany.
    rewrite geo_search_loop. fold (geo_search_map {| withcoord := c; withdist := d;
                                                     withhash := h |} members).
    destruct c, d, h; try discriminate; reflexivity.
  - unfold geo_search_map, add_assoc_zval_ex.
    rewrite (@fold_update_distinct geo_member
               (fun m => zend_symtable_key (gm_name m))
               (fun m => IS_ARRAY (indexed (requested_fields w m)))); auto.
  - unfold geo_search_map, add_assoc_zval_ex.
    rewrite (@fold_update_distinct geo_member
               (fun m => zend_symtable_key (gm_name m))
               (fun m => IS_ARRAY (indexed (requested_fields w m)))); auto.
    cbn [app]. apply length_map.
  - intros m Hc Hd Hh. unfold requested_fields. rewrite Hc, Hd, Hh. reflexivity.
Qed.

(* --------------------------------------------------------------------- *)
(** *** Batch mode *)

(** Apart from its one diagnostic, the scan decoder is silent. *)
Lemma scan_decoder_prints_only (response : option CommandResponse)
    (args : scan_data_t) (rv : zval) :
  engine_calls (pr_events (process_s_scan_result_async response args rv)) = [].
Proof.
  assert (R : forall st evs, engine_calls evs = [] ->
                engine_calls (pr_events (scan_reset args st evs)) = []).
  { intros st evs H. unfold scan_reset. destruct (sd_scan_iter args); exact H. }
  assert (E : forall c r, engine_calls (pr_events (scan_elements args c r rv)) = []).
  { intros c r. unfold scan_elements.
    destruct (command_response_to_zval r _ false rv).
    destruct (sd_scan_iter args); reflexivity. }
  destruct response as [r|]; cbn [process_s_scan_result_async].
  - destruct r as [ | | | | |l| | | | ]; try (apply R; reflexivity).
    destruct l as [|c [|e l]]; try (apply R; reflexivity).
    destruct c; try (apply R; reflexivity).
    destruct e as [ | | | | |elements| | | | ]; try (apply R; reflexivity).
    destruct (String.eqb string_value "0").
    + destruct elements; [apply R; reflexivity|apply E].
    + apply E.
  - apply R. destruct (sd_scan_iter args); reflexivity.
Qed.

Lemma s_decoders_make_no_engine_call (cmd : RequestType)
    (response_type : s_response_type_t) (args : s_command_args_t)
    (response : option CommandResponse) (rv : zval) :
  engine_calls
    (pr_events (s_call_process_result cmd response_type args response rv)) = [].
Proof.
  unfold s_call_process_result.
  destruct response_type;
    try match goal with
        | |- context [let '(_, _) := ?x in _] => destruct x; reflexivity
        end.
  apply scan_decoder_prints_only.
Qed.

(** In batch mode the set/scan framework enqueues what it encoded. *)
Lemma execute_s_generic_command_batch (valkey_glide : valkey_glide_object) (client : Z)
    (cmd : RequestType) (category : s_command_category_t)
    (response_type : s_response_type_t) (args : s_command_args_t) (rv : zval)
    (p : prepared) (cmd_args : list arg) :
  glide_client valkey_glide = Some client ->
  is_in_batch_mode valkey_glide = true ->
  prepare_s_args category args = Some p ->
  p_args p = Some cmd_args ->
  0 < p_arg_count p ->
  let e :=
    batch_entry_of cmd p (s_scan_data cmd response_type args)
      (s_process_result response_type) in
  execute_s_generic_command valkey_glide cmd category response_type args rv
  = {| s_status := buffer_command_for_batch valkey_glide e;
       s_return_value := rv;
       s_iter := None;
       s_events := [EvBufferCommandForBatch e] |}.
Proof.
  intros Hc Hb Hp Ha Hn e. subst e.
  unfold execute_s_generic_command, batch_entry_of, args_of.
  rewrite Hc, Hp, Ha, Hb.
  destruct (p_arg_count p <=? 0) eqn:E; [apply Z.leb_le in E; lia|].
  reflexivity.
Qed.




Lemma nonzero_inv (z : Z) : nonzero z = true -> z <> 0.
Proof.
  unfold nonzero. destruct (z =? 0) eqn:E; [discriminate|].
  intros _. apply Z.eqb_neq. exact E.
Qed.






Ltac only_warnings :=
  let x := fresh "x" in
  let Hx := fresh "Hx" in
  intros x Hx; cbn [In] in Hx;
  repeat (destruct Hx as [Hx|Hx]; [subst x; eexists; reflexivity|]);
  contradiction.








(** What [parse_geosearch_parameters] raises is a warning. *)
Lemma parse_geosearch_warns_only (c : geosearch_call) (is_store_variant : bool) :
  forall x,
    In x (snd (parse_geosearch_parameters c is_store_variant)) ->
    exists msg, x = EvWarning msg.
Proof.
  unfold parse_geosearch_parameters. cbv zeta.
  repeat match goal with
         | |- context [match ?x with _ => _ end] =>
             lazymatch x with
             | context [match _ with _ => _ end] => fail
             | _ => destruct x
             end
         end;
    cbn [snd]; only_warnings.
Qed.





Lemma one_if_nonzero_events (vg : valkey_glide_object) (object : zval) (o : s_outcome) :
  events (return_one_if_nonzero vg object o) = s_events o.
Proof. unfold return_one_if_nonzero. destruct (nonzero _); reflexivity. Qed.







(* --------------------------------------------------------------------- *)
(** *** The GEOADD scenario *)

(** C5. With the string conversion of the spec, the call
    geoadd("pts", 13.361389, 38.115556, "Palermo", 15.087269, 37.502669,
    "Catania") encodes to the vector ["pts", "13.361389", "38.115556",
    "Palermo", "15.087269", "37.502669", "Catania"] of exactly 7 entries,
    an Int response 2 decodes to the integer 2, and the entry point, on an
    engine that answers this vector with Int 2, sends exactly this vector
    and returns the integer 2. *)
Theorem geoadd_palermo_catania :
  forall (vg : valkey_glide_object) (object rv : zval) (client : Z),
    (forall z, zval_to_string_safe z = spec_zval_to_string_safe z) ->
    glide_client vg = Some client ->
    is_in_batch_mode vg = false ->
    execute_command GeoAdd 7 palermo_catania_vector = replies (Response.Int 2) ->
    prepare_geo_add_args palermo_catania_args
    = {| p_arg_count := 7;
         p_args := Some palermo_catania_vector;
         p_allocated := ["13.361389"; "38.115556"; "15.087269"; "37.502669"] |}
    /\ List.length palermo_catania_vector = 7%nat
    /\ process_geo_int_result_async (Some (Response.Int 2)) rv = (1, IS_LONG 2)
    /\ execute_geoadd_command vg object "pts" palermo_catania rv
       = Some {| ret := 1; return_value := IS_LONG 2;
                 events := [EvExecuteCommand GeoAdd 7 palermo_catania_vector] |}.
Proof.
  intros vg object rv client Hspec Hc Hb Hengine.
  assert (Hloop : geo_values_loop palermo_catania
                  = (tl palermo_catania_vector,
                     ["13.361389"; "38.115556"; "15.087269"; "37.502669"])).
  { unfold palermo_catania. cbn [geo_values_loop]. rewrite !Hspec.
    vm_compute. reflexivity. }
  assert (Hprep : prepare_geo_add_args palermo_catania_args
                  = {| p_arg_count := 7;
                       p_args := Some palermo_catania_vector;
                       p_allocated :=
                         ["13.361389"; "38.115556"; "15.087269"; "37.502669"] |}).
  { unfold prepare_geo_add_args, palermo_catania_args.
    cbn [ga_key ga_geo_args ga_geo_args_count ga_key_len].
    change (firstn (Z.to_nat 6) palermo_catania) with palermo_catania.
    rewrite Hloop. reflexivity. }
  repeat split; try assumption; try reflexivity.
  unfold execute_geoadd_command.
  change (Z.of_nat (List.length palermo_catania)) with 6.
  cbn [Z.ltb Z.compare Pos.compare Pos.compare_cont orb negb Z.rem Z.quotrem
       Pos.leb Z.eqb snd Z.of_N N.pos_div_eucl].
  change ((6 <? 3) || negb (Z.rem 6 3 =? 0)) with false. cbv iota.
  rewrite Hc. unfold return_handle_in_batch, execute_geo_generic_command.
  cbn [prepare_geo_args].
  match goal with
  | |- context [prepare_geo_add_args ?a] =>
      change (prepare_geo_add_args a) with (prepare_geo_add_args palermo_catania_args)
  end.
  rewrite Hprep. unfold args_of. cbn [p_arg_count p_args Z.leb Z.compare].
  rewrite Hb, Hengine. reflexivity.
Qed.

(* --------------------------------------------------------------------- *)
(** *** The iterator parameter of the standalone scans *)

Lemma execute_s_generic_command_direct (valkey_glide : valkey_glide_object) (client : Z)
    (cmd : RequestType) (category : s_command_category_t)
    (response_type : s_response_type_t) (args : s_command_args_t) (rv : zval)
    (p : prepared) (cmd_args : list arg) :
  glide_client valkey_glide = Some client ->
  is_in_batch_mode valkey_glide = false ->
  prepare_s_args category args = Some p ->
  p_args p = Some cmd_args ->
  0 < p_arg_count p ->
  execute_s_generic_command valkey_glide cmd category response_type args rv
  = let call := EvExecuteCommand cmd (p_arg_count p) cmd_args in
    match execute_command cmd (p_arg_count p) cmd_args with
    | None => {| s_status := 0; s_return_value := rv; s_iter := None; s_events := [call] |}
    | Some result =>
        let pr := s_call_process_result cmd response_type args (response result) rv in
        {| s_status := pr_status pr; s_return_value := pr_return_value pr;
           s_iter := pr_iter pr; s_events := call :: pr_events pr |}
    end.
Proof.
  intros Hc Hb Hp Hv Hn. unfold execute_s_generic_command.
  rewrite Hc, Hp, Hv, Hb.
  replace (p_arg_count p <=? 0) with false by (symmetry; apply Z.leb_gt; exact Hn).
  reflexivity.
Qed.

Lemma direct_engine_calls (valkey_glide : valkey_glide_object) (client : Z)
    (cmd : RequestType) (category : s_command_category_t)
    (response_type : s_response_type_t) (args : s_command_args_t) (rv : zval)
    (p : prepared) (cmd_args : list arg) :
  glide_client valkey_glide = Some client ->
  is_in_batch_mode valkey_glide = false ->
  prepare_s_args category args = Some p ->
  p_args p = Some cmd_args ->
  0 < p_arg_count p ->
  engine_calls
    (s_events (execute_s_generic_command valkey_glide cmd category response_type args rv))
  = [EvExecuteCommand cmd (p_arg_count p) cmd_args].
Proof.
  intros Hc Hb Hp Hv Hn.
  rewrite (@execute_s_generic_command_direct valkey_glide client cmd category
             response_type args rv p cmd_args Hc Hb Hp Hv Hn).
  cbv zeta. destruct (execute_command cmd (p_arg_count p) cmd_args); [|reflexivity].
  cbn [s_events]. unfold engine_calls. cbn [filter is_engine_call].
  f_equal. apply s_decoders_make_no_engine_call.
Qed.

(** A standalone SCAN whose iterator is NULL or a string goes through the
    framework with the request made of the cursor and the options. *)
Lemma standalone_scan_through_framework (vg : valkey_glide_object) (object : zval)
    (client : Z) (argc : Z) (z_iter : zval) (cursor : string)
    (pattern : option string) (count : Z) (type : option string) (rv : zval) :
  glide_client vg = Some client ->
  scan_cursor_value z_iter = Some cursor ->
  let vector :=
    [cursor_slot cursor]
    ++ (if 2 <=? argc then match_clause pattern else [])
    ++ count_clause (if 3 <=? argc then count else 10)
    ++ (if 4 <=? argc then type_clause type else []) in
  exists args,
    execute_scan_command vg object false argc (IterZval z_iter) pattern count type rv
    = Some (return_one_if_nonzero vg object
              (execute_s_generic_command vg Scan S_CMD_SCAN S_RESPONSE_SCAN args rv),
            match s_iter (execute_s_generic_command vg Scan S_CMD_SCAN S_RESPONSE_SCAN
                            args rv) with
            | Some z => IterSet z
            | None => IterUntouched
            end)
    /\ p_args (prepare_s_scan_args args) = Some vector
    /\ p_arg_count (prepare_s_scan_args args) = Z.of_nat (List.length vector)
    /\ 0 < Z.of_nat (List.length vector)
    /\ s_scan_data Scan S_RESPONSE_SCAN args = scan_context Scan z_iter.
Proof.
  intros Hc Hcur vector.
  unfold execute_scan_command. rewrite Hc, Hcur. cbv zeta.
  match goal with
  | |- context [execute_s_generic_command _ _ _ _ ?a _] => exists a
  end.
  split; [reflexivity|].
  assert (Hpos : 0 < Z.of_nat (List.length vector)).
  { subst vector. rewrite !length_app. simpl List.length. lia. }
  unfold scan_context. rewrite Hcur. cbn [s_scan_data sa_cursor sa_scan_iter option_map].
  repeat split; try exact Hpos;
    unfold prepare_s_scan_args, alloc_long_string; subst vector;
    cbn [sa_glide_client sa_cursor sa_pattern sa_pattern_len sa_has_count sa_key
         sa_key_len sa_has_type sa_type sa_type_len sa_count];
    unfold match_clause, count_clause, type_clause, cursor_slot, decimal_slot;
    destruct pattern as [[|pc pr]|], type as [[|tc tr]|];
    destruct (2 <=? argc), (4 <=? argc);
    destruct (0 <? (if 3 <=? argc then count else 10)) eqn:E;
    cbn; rewrite ?E; reflexivity.
Qed.

(** The same for SSCAN, HSCAN and ZSCAN, whose request starts with the key
    when the key is not empty. *)
Lemma keyed_scan_through_framework (vg : valkey_glide_object) (object : zval)
    (client : Z) (argc : Z) (cmd : RequestType) (key : string) (z_iter : zval)
    (cursor : string) (pattern : option string) (count : Z) (rv : zval) :
  glide_client vg = Some client ->
  scan_cursor_value z_iter = Some cursor ->
  let vector :=
    (if String.eqb key "" then [] else [arg_of key])
    ++ [cursor_slot cursor]
    ++ match_clause pattern
    ++ count_clause (if 3 <? argc then count else 10) in
  exists args,
    execute_scan_command_generic vg object argc cmd key z_iter pattern count rv
    = (return_one_if_nonzero vg object
         (execute_s_generic_command vg cmd S_CMD_SCAN S_RESPONSE_SCAN args rv),
       s_iter (execute_s_generic_command vg cmd S_CMD_SCAN S_RESPONSE_SCAN args rv))
    /\ p_args (prepare_s_scan_args args) = Some vector
    /\ p_arg_count (prepare_s_scan_args args) = Z.of_nat (List.length vector)
    /\ 0 < Z.of_nat (List.length vector)
    /\ s_scan_data cmd S_RESPONSE_SCAN args = scan_context cmd z_iter.
Proof.
  intros Hc Hcur vector.
  unfold execute_scan_command_generic, execute_gen_scan_command_internal.
  rewrite Hc, Hcur.
  match goal with
  | |- context [execute_s_generic_command _ _ _ _ ?a _] => exists a
  end.
  split; [reflexivity|].
  assert (Hpos : 0 < Z.of_nat (List.length vector)).
  { subst vector. rewrite !length_app. simpl List.length. lia. }
  unfold scan_context. rewrite Hcur. cbn [s_scan_data sa_cursor sa_scan_iter option_map].
  repeat split; try exact Hpos;
    unfold prepare_s_scan_args, alloc_long_string; subst vector;
    cbn [sa_glide_client sa_cursor sa_pattern sa_pattern_len sa_has_count sa_key
         sa_key_len sa_has_type sa_type sa_type_len sa_count];
    unfold match_clause, count_clause, cursor_slot, decimal_slot;
    destruct pattern as [[|pc pr]|], key as [|kc kr];
    destruct (0 <? (if 3 <? argc then count else 10)) eqn:E;
    cbn; rewrite ?E; reflexivity.
Qed.

(** A scan that goes through the framework with the request [vector]: in
    batch mode it enqueues that request with the scan decoder and its
    context and does nothing else, outside batch mode it sends it to the
    engine, once. *)
Lemma scan_through_framework (vg : valkey_glide_object) (object : zval) (client : Z)
    (cmd : RequestType) (args : s_command_args_t) (rv : zval) (vector : list arg)
    (context : result_ptr_t) :
  glide_client vg = Some client ->
  p_args (prepare_s_scan_args args) = Some vector ->
  p_arg_count (prepare_s_scan_args args) = Z.of_nat (List.length vector) ->
  0 < Z.of_nat (List.length vector) ->
  s_scan_data cmd S_RESPONSE_SCAN args = context ->
  let o :=
    return_one_if_nonzero vg object
      (execute_s_generic_command vg cmd S_CMD_SCAN S_RESPONSE_SCAN args rv) in
  if is_in_batch_mode vg
  then events o
       = [EvBufferCommandForBatch
            {| be_cmd_type := cmd; be_args := vector;
               be_arg_count := Z.of_nat (List.length vector);
               be_result_ptr := context;
               be_process_result := process_s_scan_result_async_fn |}]
  else engine_calls (events o)
       = [EvExecuteCommand cmd (Z.of_nat (List.length vector)) vector].
Proof.
  intros Hc Hv Hn Hpos Hctx o. subst o. rewrite one_if_nonzero_events.
  rewrite <- Hn in Hpos.
  destruct (is_in_batch_mode vg) eqn:Hb.
  - rewrite (@execute_s_generic_command_batch vg client cmd S_CMD_SCAN S_RESPONSE_SCAN
               args rv _ vector Hc Hb eq_refl Hv Hpos).
    cbn [s_events]. unfold batch_entry_of, args_of. rewrite Hv, Hn, Hctx. reflexivity.
  - rewrite <- Hn.
    apply (@direct_engine_calls vg client cmd S_CMD_SCAN S_RESPONSE_SCAN args rv _ _
             Hc Hb eq_refl Hv Hpos).
Qed.

(** C10. For SCAN in standalone mode and for the keyed scans (SSCAN,
    HSCAN, ZSCAN):
    - a call with a NULL iterator does exactly what the same call with the
      initial cursor marker "0" does (same result, same output value, same
      calls, same value stored into the iterator);
    - on a client, a NULL iterator is accepted and the scan starts from the
      beginning: outside batch mode the engine receives, once, the command
      whose request carries the cursor "0" (after the key, for the keyed
      scans) and the options; in batch mode exactly that request is
      enqueued, with the scan decoder and a context that holds the cursor
      "0", and nothing else happens;
    - a call with an iterator that is neither NULL nor a string fails with
      the output value and the iterator untouched, without an engine call
      and without enqueueing anything. *)
Theorem scan_iterator_null_or_string :
  forall (valkey_glide : valkey_glide_object) (object : zval) (argc : Z)
         (cmd : RequestType) (key : string) (pattern : option string) (count : Z)
         (type : option string) (rv : zval),
    let scan z :=
      execute_scan_command valkey_glide object false argc (IterZval z)
        pattern count type rv in
    let keyed z :=
      execute_scan_command_generic valkey_glide object argc cmd key z
        pattern count rv in
    let vector :=
      [cursor_slot "0"]
      ++ (if 2 <=? argc then match_clause pattern else [])
      ++ count_clause (if 3 <=? argc then count else 10)
      ++ (if 4 <=? argc then type_clause type else []) in
    let keyed_vector :=
      (if String.eqb key "" then [] else [arg_of key])
      ++ [cursor_slot "0"]
      ++ match_clause pattern
      ++ count_clause (if 3 <? argc then count else 10) in
    let entry c v :=
      {| be_cmd_type := c; be_args := v;
         be_arg_count := Z.of_nat (List.length v);
         be_result_ptr :=
           PtrScan {| sd_cmd_type := c; sd_cursor := Some "0"; sd_scan_iter := true |};
         be_process_result := process_s_scan_result_async_fn |} in
    scan IS_NULL = scan (IS_STRING "0")
    /\ keyed IS_NULL = keyed (IS_STRING "0")
    /\ (forall client,
          glide_client valkey_glide = Some client ->
          exists r,
            scan IS_NULL = Some r
            /\ if is_in_batch_mode valkey_glide
               then events (fst r) = [EvBufferCommandForBatch (entry Scan vector)]
                    /\ events (fst (keyed IS_NULL))
                       = [EvBufferCommandForBatch (entry cmd keyed_vector)]
               else engine_calls (events (fst r))
                    = [EvExecuteCommand Scan (Z.of_nat (List.length vector)) vector]
                    /\ engine_calls (events (fst (keyed IS_NULL)))
                       = [EvExecuteCommand cmd (Z.of_nat (List.length keyed_vector))
                            keyed_vector])
    /\ (forall z : zval,
          z <> IS_NULL -> (forall s, z <> IS_STRING s) ->
          exists r,
            scan z = Some r
            /\ (ret (fst r) = 0 /\ return_value (fst r) = rv
                /\ engine_calls (events (fst r)) = [] /\ enqueued (events (fst r)) = []
                /\ snd r = IterUntouched)
            /\ (ret (fst (keyed z)) = 0 /\ return_value (fst (keyed z)) = rv
                /\ engine_calls (events (fst (keyed z))) = []
                /\ enqueued (events (fst (keyed z))) = []
                /\ snd (keyed z) = None)).
Proof.
  intros vg object argc cmd key pattern count type rv scan keyed vector keyed_vector
         entry.
  split; [|split; [|split]].
  - subst scan. unfold execute_scan_command. destruct (glide_client vg); reflexivity.
  - subst keyed. unfold execute_scan_command_generic.
    destruct (glide_client vg); reflexivity.
  - intros client Hc. subst scan keyed. cbv beta.
    destruct (@standalone_scan_through_framework vg object client argc IS_NULL "0"
                pattern count type rv Hc eq_refl)
      as (args & Hrun & Hv & Hn & Hpos & Hctx).
    destruct (@keyed_scan_through_framework vg object client argc cmd key IS_NULL "0"
                pattern count rv Hc eq_refl)
      as (kargs & Hkrun & Hkv & Hkn & Hkpos & Hkctx).
    eexists. split; [exact Hrun|]. rewrite Hkrun. cbn [fst].
    pose proof (@scan_through_framework vg object client Scan args rv _ _ Hc Hv Hn
                  Hpos Hctx) as Hs.
    pose proof (@scan_through_framework vg object client cmd kargs rv _ _ Hc Hkv Hkn
                  Hkpos Hkctx) as Hk.
    cbv zeta in Hs, Hk.
    destruct (is_in_batch_mode vg); split; assumption.
  - intros z Hnull Hstr.
    assert (Hz : scan_cursor_value z = None).
    { destruct z; try reflexivity; [contradiction|].
      exfalso. eapply Hstr. reflexivity. }
    subst scan keyed. cbv beta.
    unfold execute_scan_command, execute_scan_command_generic.
    destruct (glide_client vg); cbn [scan_cursor_value]; rewrite ?Hz;
      (eexists; split; [reflexivity|]); cbn; repeat split.
Qed.

End Properties.

(* ===================================================================== *)
(** ** The model at work *)
(* ===================================================================== *)


Lemma scan_two_pages_witness :
  option_map snd
    (execute_scan_command (RT := example_runtime) standalone_client this_object
       false 1 (IterZval (IS_STRING "0")) None 10 None IS_NULL)
  = Some (IterSet (IS_STRING "3"))
  /\ option_map snd
       (execute_scan_command (RT := example_runtime) standalone_client this_object
          false 1 (IterZval (IS_STRING "3")) None 10 None IS_NULL)
     = Some (IterSet (IS_STRING "0"))
  /\ option_map (fun r => return_value (fst r))
       (execute_scan_command (RT := example_runtime) standalone_client
          this_object false 1 (IterZval (IS_STRING "3")) None 10 None IS_NULL)
     = Some (IS_ARRAY [(KIdx 0, IS_STRING "key:3")]).
Proof.
  destruct (@scan_two_pages example_runtime standalone_client this_object 1 Scan
              [Response.String "key:1"; Response.String "key:2"]
              [Response.String "key:3"] IS_NULL IS_NULL 1 None 10 None
              eq_refl eq_refl (fun _ _ => eq_refl) (fun _ _ => eq_refl))
    as (_ & _ & _ & H1 & H2 & H3).
  split; [exact H1|split; [exact H2|]].
  rewrite H3; [reflexivity|discriminate].
Defined.

(** The last step of a cluster scan that ran with the identifier
    "opaque-cursor-id-42": the one cursor released is "finished", the
    identifier is not among the released ones, and the caller receives
    "0". *)
Lemma cluster_scan_release_witness :
  request_cluster_scan (Runtime := example_runtime) "opaque-cursor-id-42" 2
    (Some [arg_of "COUNT"; arg_of "10"]) = Some last_cluster_page
  /\ released_cursors
       (cs_events (execute_cluster_scan_command (RT := example_runtime) (Some 1)
                     "opaque-cursor-id-42" (Some "") 0 10 true None 0 false IS_NULL))
     = ["finished"]
  /\ existsb (String.eqb "opaque-cursor-id-42")
       (released_cursors
          (cs_events (execute_cluster_scan_command (RT := example_runtime) (Some 1)
                        "opaque-cursor-id-42" (Some "") 0 10 true None 0 false
                        IS_NULL)))
     = false
  /\ cs_cursor (execute_cluster_scan_command (RT := example_runtime) (Some 1)
                  "opaque-cursor-id-42" (Some "") 0 10 true None 0 false IS_NULL)
     = "0".
Proof.
  destruct (@cluster_scan_release example_runtime 1 "opaque-cursor-id-42" (Some "") 0
              10 true None 0 false IS_NULL last_cluster_page "finished" eq_refl eq_refl)
    as (Hfinished & _ & _).
  destruct (Hfinished eq_refl) as (Hreleased & Hcursor).
  split; [reflexivity|]. split; [exact Hreleased|].
  split; [rewrite Hreleased; reflexivity|exact Hcursor].
Defined.

Lemma geo_search_decoding_witness :
  any_flag coord_and_dist = true
  /\ process_geo_search_result_async (RT := example_runtime)
       (Some (Response.Array (map (wire_member coord_and_dist) two_members)))
       (Some coord_and_dist) IS_NULL
     = Some (1, IS_ARRAY (geo_search_map (RT := example_runtime) coord_and_dist
                            two_members))
  /\ List.length (geo_search_map (RT := example_runtime) coord_and_dist two_members)
     = 2%nat.
Proof.
  destruct (@geo_search_decoding example_runtime coord_and_dist Response.Null
              two_members IS_NULL) as (_ & Hmap & Hdistinct & _).
  split; [reflexivity|]. split; [exact (Hmap eq_refl)|].
  apply Hdistinct. simpl.
  constructor; [simpl; intros [H|[]]; discriminate|].
  constructor; [simpl; intros []|constructor].
Defined.

Lemma geoadd_palermo_catania_witness :
  execute_command (Runtime := example_runtime) GeoAdd 7 palermo_catania_vector
  = replies (Response.Int 2)
  /\ execute_geoadd_command (RT := example_runtime) standalone_client this_object
       "pts" palermo_catania IS_NULL
     = Some {| ret := 1; return_value := IS_LONG 2;
               events := [EvExecuteCommand GeoAdd 7 palermo_catania_vector] |}.
Proof.
  split; [reflexivity|].
  apply (@geoadd_palermo_catania example_runtime standalone_client this_object IS_NULL
           1 (fun _ => eq_refl) eq_refl eq_refl eq_refl).
Defined.

Lemma variadic_members_arity_witness :
  args_of (prepare_geo_members_args (RT := example_runtime) geo_members_sample)
  = arg_of "pts" :: map (geo_string_form (RT := example_runtime)) two_names
  /\ args_of (prepare_s_key_members_args (RT := example_runtime) set_members_sample)
     = arg_of "pts" :: map (set_string_form (RT := example_runtime)) two_names.
Proof.
  assert (Hne : two_names <> []) by discriminate.
  assert (Hfit : Z.of_nat (List.length two_names) < INT_MAX) by reflexivity.
  destruct (@variadic_members_arity example_runtime geo_members_sample
              set_members_sample 1 "pts" two_names Hne Hfit) as (Hgeo & Hset).
  split.
  - apply (Hgeo eq_refl eq_refl eq_refl eq_refl).
  - apply (Hset eq_refl eq_refl eq_refl); [discriminate|reflexivity|reflexivity].
Defined.


Lemma geodist_arity_witness :
  p_arg_count (prepare_geo_dist_args (geodist_sample (Some "Palermo"))) = 4
  /\ execute_geo_generic_command (RT := example_runtime) standalone_client GeoDist
       (geodist_sample None) PtrNull process_geo_double_result_async_fn IS_NULL
     = Some {| ret := 0; return_value := IS_NULL; events := [] |}.
Proof.
  split.
  - apply (proj1 (@geodist_arity example_runtime standalone_client
                    (geodist_sample (Some "Palermo")) PtrNull
                    process_geo_double_result_async_fn IS_NULL)
             "pts" "Palermo" "Catania" eq_refl eq_refl eq_refl).
  - apply (proj2 (@geodist_arity example_runtime standalone_client
                    (geodist_sample None) PtrNull
                    process_geo_double_result_async_fn IS_NULL)).
    right. left. reflexivity.
Defined.

(** SCAN and SSCAN with a NULL iterator send their request from the
    cursor "0"; with the iterator 5 they fail without a call. *)
Lemma scan_iterator_null_or_string_witness :
  (exists r,
      execute_scan_command (RT := example_runtime) standalone_client this_object
        false 1 (IterZval IS_NULL) None 10 None IS_NULL = Some r
      /\ engine_calls (events (fst r))
         = [EvExecuteCommand Scan 3 [arg_of "0"; arg_of "COUNT"; arg_of "10"]]
      /\ engine_calls
           (events (fst (execute_scan_command_generic (RT := example_runtime)
                           standalone_client this_object 1 SScan "pts" IS_NULL None 10
                           IS_NULL)))
         = [EvExecuteCommand SScan 4
              [arg_of "pts"; arg_of "0"; arg_of "COUNT"; arg_of "10"]])
  /\ (exists r,
         execute_scan_command (RT := example_runtime) standalone_client this_object
           false 1 (IterZval (IS_LONG 5)) None 10 None IS_NULL = Some r
         /\ ret (fst r) = 0
         /\ engine_calls (events (fst r)) = []).
Proof.
  assert (Hnull : IS_LONG 5 <> IS_NULL) by discriminate.
  assert (Hstr : forall s, IS_LONG 5 <> IS_STRING s) by (intros s; discriminate).
  destruct (@scan_iterator_null_or_string example_runtime standalone_client
              this_object 1 SScan "pts" None 10 None IS_NULL)
    as (_ & _ & Haccept & Hreject).
  split.
  - destruct (Haccept 1 eq_refl) as (r & Hrun & Hscan & Hkeyed).
    exists r. split; [exact Hrun|]. split; [exact Hscan|exact Hkeyed].
  - destruct (Hreject (IS_LONG 5) Hnull Hstr) as (r & Hrun & (Hret & _ & Hcalls & _) & _).
    exists r. split; [exact Hrun|]. split; [exact Hret|exact Hcalls].
Defined.

(* ===================================================================== *)
(** ** Further properties of the encoders, decoders and entry points *)
(* ===================================================================== *)

Lemma blen_empty (s : string) : (blen s =? 0) = String.eqb s "".
Proof. destruct s; reflexivity. Qed.

Lemma values_of_length (ht : HashTable) :
  List.length (values_of ht) = List.length ht.
Proof. apply length_map. Qed.

Lemma firstn_count_length {A : Type} (l : list A) (count : Z) :
  0 <= count <= Z.of_nat (List.length l) ->
  Z.of_nat (List.length (firstn (Z.to_nat count) l)) = count.
Proof.
  intros H. rewrite length_firstn. lia.
Qed.

Lemma dense_length (k : Z) (l : list zval) : List.length (dense k l) = List.length l.
Proof.
  revert k. induction l as [|x r IH]; intros k; simpl; [reflexivity|].
  rewrite IH. reflexivity.
Qed.

Lemma dense_app (k : Z) (a b : list zval) :
  dense k (a ++ b) = dense k a ++ dense (k + Z.of_nat (List.length a)) b.
Proof.
  revert k. induction a as [|x r IH]; intros k.
  - simpl. rewrite Z.add_0_r. reflexivity.
  - simpl app. simpl dense. rewrite IH. do 3 f_equal.
    cbn [List.length]. lia.
Qed.

Lemma dense_next_free (k n : Z) (l : list zval) :
  k <= n ->
  fold_left (fun n kv => match fst kv with KIdx i => Z.max n (i + 1) | KStr _ => n end)
    (dense k l) n
  = Z.max n (k + Z.of_nat (List.length l)).
Proof.
  revert k n. induction l as [|x r IH]; intros k n H.
  - simpl. lia.
  - simpl dense. simpl fold_left. rewrite IH by lia.
    cbn [List.length]. lia.
Qed.

Lemma indexed_is_dense (l : list zval) : indexed l = dense 0 l.
Proof.
  unfold indexed.
  assert (H : forall a, fold_left zend_hash_next_index_insert l (dense 0 a)
                        = dense 0 (a ++ l)).
  { induction l as [|x r IH]; intros a.
    - rewrite app_nil_r. reflexivity.
    - simpl fold_left. unfold zend_hash_next_index_insert at 2.
      unfold nNextFreeElement. rewrite dense_next_free by lia.
      replace (dense 0 a ++ [(KIdx (Z.max 0 (0 + Z.of_nat (List.length a))), x)])
        with (dense 0 (a ++ [x])).
      + rewrite IH, <- app_assoc. reflexivity.
      + rewrite dense_app. cbn [dense]. repeat f_equal. lia. }
  apply (H []).
Qed.

Lemma dense_lookup (k : Z) (l : list zval) (i : nat) :
  zend_hash_index_find (dense k l) (k + Z.of_nat i) = nth_error l i.
Proof.
  unfold zend_hash_index_find. revert k i.
  induction l as [|x r IH]; intros k i.
  - destruct i; reflexivity.
  - simpl dense. simpl zend_hash_find. destruct i as [|i].
    + rewrite Z.add_0_r, Z.eqb_refl. reflexivity.
    + replace (k + Z.of_nat (S i) =? k) with false
        by (symmetry; apply Z.eqb_neq; lia).
      replace (k + Z.of_nat (S i)) with (k + 1 + Z.of_nat i) by lia.
      apply IH.
Qed.

Lemma indexed_lookup (l : list zval) (i : nat) :
  zend_hash_index_find (indexed l) (Z.of_nat i) = nth_error l i.
Proof.
  rewrite indexed_is_dense. apply (dense_lookup 0).
Qed.

Lemma indexed_length (l : list zval) : List.length (indexed l) = List.length l.
Proof.
  rewrite indexed_is_dense. apply dense_length.
Qed.

Lemma fold_left_flat_map {A : Type} (f : HashTable -> A -> HashTable)
    (g : A -> list zval) (l : list A) (acc : HashTable) :
  (forall ht x, f ht x = fold_left zend_hash_next_index_insert (g x) ht) ->
  fold_left f l acc = fold_left zend_hash_next_index_insert (flat_map g l) acc.
Proof.
  intros H. revert acc. induction l as [|x r IH]; intros acc; [reflexivity|].
  simpl. rewrite fold_left_app, <- H. apply IH.
Qed.

Lemma warnings_are_quiet (evs : list event) :
  (forall x, In x evs -> exists msg, x = EvWarning msg) ->
  engine_calls evs = [] /\ enqueued evs = [].
Proof.
  intros H. induction evs as [|e r IH]; [split; reflexivity|].
  destruct (H e (or_introl eq_refl)) as (msg & ->).
  destruct IH as (IH1 & IH2); [intros x Hx; apply H; right; exact Hx|].
  split; cbn; assumption.
Qed.

(** Case analysis on every scrutinee of the goal, innermost first. *)
Ltac each_case :=
  repeat match goal with
         | |- context [match ?x with _ => _ end] =>
             lazymatch x with
             | context [match _ with _ => _ end] => fail
             | _ => destruct x
             end
         end.

(* --------------------------------------------------------------------- *)
(** *** Set and scan encoders *)

Section SetEncoderProperties.

Context {RT : Runtime}.

Lemma convert_zval_loop_tracked (input : list zval) :
  snd (convert_zval_loop input)
  = map convert_to_string (filter (fun z => negb (is_string z)) input).
Proof.
  induction input as [|z r IH]; [reflexivity|].
  simpl. destruct (convert_zval_loop r) as [out allocated]. simpl in IH.
  destruct z; simpl; rewrite ?IH; reflexivity.
Qed.

Lemma convert_zval_loop_length (input : list zval) :
  List.length (fst (convert_zval_loop input)) = List.length input.
Proof.
  rewrite convert_zval_loop_slots. apply length_map.
Qed.

Lemma convert_zval_loop_no_null (input : list zval) :
  forall a, In a (fst (convert_zval_loop input)) ->
            exists s, arg_ptr a = Some s /\ arg_len a = blen s.
Proof.
  rewrite convert_zval_loop_slots. intros a Ha.
  apply in_map_iff in Ha. destruct Ha as (z & <- & _).
  destruct z; simpl; eexists; split; reflexivity.
Qed.

(** X1.  [convert_zval_to_string_args], for a count within the input: one
    slot per element, each pointing at a string with that string's byte
    length; the strings tracked for release are exactly the copies made
    for the elements that are not strings, in input order, so that a
    string argument, which is passed by reference, is never tracked. *)
Theorem convert_zval_to_string_args_tracks_copies :
  forall (input : list zval) (count : Z),
    0 <= count <= Z.of_nat (List.length input) ->
    let r := convert_zval_to_string_args input count in
    let taken := firstn (Z.to_nat count) input in
    Z.of_nat (List.length (fst r)) = count
    /\ (forall a, In a (fst r) -> exists s, arg_ptr a = Some s /\ arg_len a = blen s)
    /\ snd r = map convert_to_string (filter (fun z => negb (is_string z)) taken)
    /\ (forallb is_string taken = true -> snd r = []).
Proof.
  intros input count H r taken. subst r taken. unfold convert_zval_to_string_args.
  split; [|split; [|split]].
  - rewrite convert_zval_loop_length. apply firstn_count_length, H.
  - apply convert_zval_loop_no_null.
  - apply convert_zval_loop_tracked.
  - intros Hall. rewrite convert_zval_loop_tracked.
    induction (firstn (Z.to_nat count) input) as [|z r IH]; [reflexivity|].
    simpl in *. apply andb_prop in Hall. destruct Hall as [Hz Hr].
    rewrite Hz. simpl. apply IH, Hr.
Qed.

Lemma convert_args_exact (input : list zval) (count : Z) :
  0 < count <= Z.of_nat (List.length input) ->
  Z.of_nat (List.length (fst (convert_zval_to_string_args input count))) = count
  /\ forall a, In a (fst (convert_zval_to_string_args input count)) -> arg_ptr a <> None.
Proof.
  intros H. unfold convert_zval_to_string_args. split.
  - rewrite convert_zval_loop_length. apply firstn_count_length. lia.
  - intros a Ha. destruct (convert_zval_loop_no_null _ _ Ha) as (s & Hs & _).
    congruence.
Qed.

Ltac slot_cases Ha :=
  repeat first
    [ solve [auto]
    | contradiction
    | apply in_app_or in Ha; destruct Ha as [Ha|Ha]; [solve [auto]|]
    | destruct Ha as [Ha|Ha]; [subst; discriminate|] ].

(** X2.  The nine encoders of the set/scan framework, for member and key
    counts that lie within the lists they describe and fit an [int]:
    an encoder that allocates no vector returns 0 and tracks no string;
    one that allocates a vector returns a positive count, has written
    exactly that many slots, and none of them holds a NULL pointer. *)
Theorem s_encoders_count_their_slots :
  forall (category : s_command_category_t) (args : s_command_args_t) (p : prepared),
    counts_fit args ->
    prepare_s_args category args = Some p ->
    (p_args p = None -> p_arg_count p = 0 /\ p_allocated p = [])
    /\ (forall v, p_args p = Some v ->
                  0 < p_arg_count p
                  /\ p_arg_count p = Z.of_nat (List.length v)
                  /\ forall a, In a v -> arg_ptr a <> None).
Proof.
  intros category args p (Hm & Hk & Hmi & Hki) Hp.
  destruct category; simpl in Hp; try discriminate; injection Hp as <-.
  - (* key + members *)
    unfold prepare_s_key_members_args.
    destruct (sa_glide_client args); [|split; [split; reflexivity|discriminate]].
    destruct (sa_key args) as [key|]; [|split; [split; reflexivity|discriminate]].
    destruct (sa_members args) as [members|] eqn:Em;
      [|split; [split; reflexivity|discriminate]].
    destruct ((sa_key_len args =? 0) || (sa_members_count args <=? 0)) eqn:E;
      [split; [split; reflexivity|discriminate]|].
    apply orb_false_elim in E. destruct E as [_ E]. apply Z.leb_gt in E.
    specialize (Hm _ eq_refl).
    destruct (@convert_args_exact members (sa_members_count args)) as (Hl & Hn); [lia|].
    destruct (convert_zval_to_string_args members (sa_members_count args)) as [out al].
    cbn [p_arg_count p_args p_allocated fst snd] in *. split; [discriminate|]. intros v Hv. injection Hv as <-.
    rewrite to_int_small by (unfold INT_MAX in *; lia).
    simpl List.length. rewrite Nat2Z.inj_succ, Hl.
    split; [lia|split; [lia|]]. intros a [<-|Ha]; [discriminate|auto].
  - unfold prepare_s_key_only_args.
    destruct (sa_glide_client args), (sa_key args), (sa_key_len args =? 0); simpl;
      (split; [try (split; reflexivity); discriminate|]);
      intros v Hv; try discriminate; injection Hv as <-;
      (split; [lia|split; [reflexivity|]]); intros a Ha; slot_cases Ha.
  - unfold prepare_s_key_member_args.
    destruct (sa_glide_client args), (sa_key args), (sa_member args),
      ((sa_key_len args =? 0) || (sa_member_len args =? 0)); simpl;
      (split; [try (split; reflexivity); discriminate|]);
      intros v Hv; try discriminate; injection Hv as <-;
      (split; [lia|split; [reflexivity|]]); intros a Ha; slot_cases Ha.
  - unfold prepare_s_key_count_args, alloc_long_string.
    destruct (sa_glide_client args), (sa_key args), (sa_key_len args =? 0),
      (sa_has_count args); simpl;
      (split; [try (split; reflexivity); discriminate|]);
      intros v Hv; try discriminate; injection Hv as <-;
      (split; [lia|split; [reflexivity|]]); intros a Ha; slot_cases Ha.
  - unfold prepare_s_multi_key_args.
    destruct (sa_glide_client args); [|split; [split; reflexivity|discriminate]].
    destruct (sa_keys args) as [keys|] eqn:Ek;
      [|split; [split; reflexivity|discriminate]].
    destruct (sa_keys_count args <=? 0) eqn:E;
      [split; [split; reflexivity|discriminate]|].
    apply Z.leb_gt in E. specialize (Hk _ eq_refl).
    destruct (@convert_args_exact keys (sa_keys_count args)) as (Hl & Hn); [lia|].
    destruct (convert_zval_to_string_args keys (sa_keys_count args)) as [out al].
    cbn [p_arg_count p_args p_allocated fst snd] in *. split; [discriminate|]. intros v Hv. injection Hv as <-.
    split; [lia|split; [lia|auto]].
  - unfold prepare_s_multi_key_limit_args, alloc_long_string.
    destruct (sa_glide_client args); [|split; [split; reflexivity|discriminate]].
    destruct (sa_keys args) as [keys|] eqn:Ek;
      [|split; [split; reflexivity|discriminate]].
    destruct (sa_keys_count args <=? 0) eqn:E;
      [split; [split; reflexivity|discriminate]|].
    apply Z.leb_gt in E. specialize (Hk _ eq_refl).
    destruct (@convert_args_exact keys (sa_keys_count args)) as (Hl & Hn); [lia|].
    destruct (convert_zval_to_string_args keys (sa_keys_count args)) as [out al].
    cbn [p_arg_count p_args p_allocated fst snd] in *.
    destruct (sa_has_limit args); cbn [p_arg_count p_args p_allocated];
      (split; [discriminate|]);
      intros v Hv; injection Hv as <-;
      rewrite to_int_small by (unfold INT_MAX in *; lia);
      simpl List.length; rewrite ?length_app; simpl List.length;
      (split; [lia|split; [lia|]]); intros a Ha; slot_cases Ha.
  - unfold prepare_s_dst_multi_key_args.
    destruct (sa_glide_client args); [|split; [split; reflexivity|discriminate]].
    destruct (sa_dst_key args) as [dst|]; [|split; [split; reflexivity|discriminate]].
    destruct (sa_keys args) as [keys|] eqn:Ek;
      [|split; [split; reflexivity|discriminate]].
    destruct ((sa_dst_key_len args =? 0) || (sa_keys_count args <=? 0)) eqn:E;
      [split; [split; reflexivity|discriminate]|].
    apply orb_false_elim in E. destruct E as [_ E]. apply Z.leb_gt in E.
    specialize (Hk _ eq_refl).
    destruct (@convert_args_exact keys (sa_keys_count args)) as (Hl & Hn); [lia|].
    destruct (convert_zval_to_string_args keys (sa_keys_count args)) as [out al].
    cbn [p_arg_count p_args p_allocated fst snd] in *. split; [discriminate|]. intros v Hv. injection Hv as <-.
    rewrite to_int_small by (unfold INT_MAX in *; lia).
    simpl List.length. rewrite Nat2Z.inj_succ, Hl.
    split; [lia|split; [lia|]]. intros a [<-|Ha]; [discriminate|auto].
  - unfold prepare_s_two_key_member_args.
    destruct (sa_glide_client args), (sa_src_key args), (sa_dst_key args),
      (sa_member args),
      ((sa_src_key_len args =? 0) || (sa_dst_key_len args =? 0)
       || (sa_member_len args =? 0)); simpl;
      (split; [try (split; reflexivity); discriminate|]);
      intros v Hv; try discriminate; injection Hv as <-;
      (split; [lia|split; [reflexivity|]]); intros a Ha; slot_cases Ha.
  - unfold prepare_s_scan_args, alloc_long_string.
    destruct (sa_glide_client args); [|split; [split; reflexivity|discriminate]].
    destruct (sa_cursor args) as [c|]; [|split; [split; reflexivity|discriminate]].
    split; [discriminate|]. intros v Hv. injection Hv as <-.
    destruct (sa_pattern args), (0 <? sa_pattern_len args), (sa_has_count args),
      (sa_key args), (0 <? sa_key_len args), (sa_has_type args), (sa_type args),
      (0 <? sa_type_len args); simpl;
      (split; [lia|split; [reflexivity|]]); intros a Ha; slot_cases Ha.
Qed.

End SetEncoderProperties.

(* --------------------------------------------------------------------- *)
(** *** Set entry points *)

Section SetEntryProperties.

Context {RT : Runtime}.

Lemma not_prepared_leaves (valkey_glide : valkey_glide_object) (cmd : RequestType)
    (category : s_command_category_t) (response_type : s_response_type_t)
    (args : s_command_args_t) (rv : zval) :
  (forall p, prepare_s_args category args = Some p -> p = not_prepared) ->
  execute_s_generic_command valkey_glide cmd category response_type args rv
  = {| s_status := 0; s_return_value := rv; s_iter := None; s_events := [] |}.
Proof.
  intros H. unfold execute_s_generic_command.
  destruct (glide_client valkey_glide); [|reflexivity].
  destruct (prepare_s_args category args) as [p|]; [|reflexivity].
  rewrite (H p eq_refl). reflexivity.
Qed.

Ltac rejected :=
  repeat match goal with
         | |- context [match ?x with _ :: _ => _ | [] => _ end] =>
             destruct x; [repeat split; reflexivity|]
         end;
  unfold execute_dst_multi_key;
  match goal with
  | |- context [glide_client ?v] => destruct (glide_client v)
  end; [|repeat split; reflexivity];
  rewrite not_prepared_leaves;
  [ repeat split; try reflexivity;
    let Hb := fresh "Hb" in intros Hb; cbn; rewrite Hb; reflexivity
  | let p := fresh "p" in
    let Hp := fresh "Hp" in
    intros p Hp; cbn [prepare_s_args] in Hp; injection Hp as <-;
    unfold prepare_s_key_members_args, prepare_s_key_only_args,
      prepare_s_key_member_args, prepare_s_key_count_args,
      prepare_s_dst_multi_key_args, prepare_s_two_key_member_args;
    cbn [sa_glide_client sa_key sa_key_len sa_member sa_member_len sa_members
         sa_src_key sa_src_key_len sa_dst_key sa_dst_key_len sa_keys];
    rewrite ?blen_empty;
    repeat match goal with H : _ = true |- _ => rewrite H end;
    reflexivity ].

(** X3.  A set command given an empty key (or, for SISMEMBER and SMOVE, an
    empty member or an empty source or destination; for the store
    commands an empty destination) fails before anything leaves the
    binding: it returns 0 and makes no call at all, in batch mode as
    outside it, and outside batch mode the output value is untouched. *)
Theorem empty_key_is_rejected :
  forall (valkey_glide : valkey_glide_object) (object : zval) (c : call) (rv : zval),
    has_empty_key c = true ->
    exists o,
      invoke valkey_glide object c rv = Some o
      /\ ret o = 0
      /\ events o = []
      /\ (is_in_batch_mode valkey_glide = false -> return_value o = rv).
Proof.
  intros valkey_glide object c rv H.
  destruct c; simpl in H; try discriminate;
    try (destruct params; try discriminate);
    eexists; (split; [reflexivity|]);
    try (apply String.eqb_eq in H; subst);
    unfold execute_sadd_command, execute_srem_command, execute_smismember_command,
      execute_key_members, execute_scard_command, execute_smembers_command,
      execute_key_only, execute_srandmember_command, execute_spop_command,
      execute_key_count, execute_sismember_command, execute_smove_command,
      execute_sinterstore_command, execute_sunionstore_command,
      execute_sdiffstore_command, execute_dst_variadic_keys;
    rejected.
Qed.

(** X4.  SINTER and SINTERSTORE accept their keys as one array or as
    separate arguments.  For an array of two or more values the two forms
    are the same call: SINTER of the array is SINTER of its values, and
    SINTERSTORE of an array whose first value is the string [dst] is
    SINTERSTORE of [dst] and the remaining values.  (A call with a single
    argument is read as the array form whenever that argument is an
    array, so the comparison is made where the separate arguments are two
    or more.)  An empty array fails without any call, and so does, for
    SINTERSTORE, an array that holds its destination alone or whose first
    value is not a string. *)
Theorem array_form_is_the_variadic_form :
  forall (valkey_glide : valkey_glide_object) (object : zval) (ht : HashTable)
         (rv : zval),
    ((2 <= List.length ht)%nat ->
     execute_sinter_command valkey_glide object (KeysArray ht) rv
     = execute_sinter_command valkey_glide object (KeysVariadic (values_of ht)) rv)
    /\ (forall dst keys,
          (2 <= List.length ht)%nat ->
          values_of ht = IS_STRING dst :: keys ->
          execute_sinterstore_command valkey_glide object (StoreArray ht) rv
          = execute_sinterstore_command valkey_glide object (StoreVariadic dst keys) rv)
    /\ (ht = [] ->
        execute_sinter_command valkey_glide object (KeysArray ht) rv = failed rv []
        /\ execute_sinterstore_command valkey_glide object (StoreArray ht) rv
           = failed rv [])
    /\ (List.length ht = 1%nat \/ (forall dst keys, values_of ht <> IS_STRING dst :: keys) ->
        execute_sinterstore_command valkey_glide object (StoreArray ht) rv
        = failed rv []).
Proof.
  intros valkey_glide object ht rv.
  split; [|split; [|split]].
  - intros Hlen. unfold execute_sinter_command, zend_hash_num_elements.
    rewrite <- (values_of_length ht) in *.
    destruct (values_of ht) as [|z r]; reflexivity.
  - intros dst keys Hlen Hvalues.
    unfold execute_sinterstore_command, zend_hash_num_elements.
    rewrite <- (values_of_length ht) in *. rewrite Hvalues in *.
    destruct keys as [|k r]; [simpl in Hlen; lia|].
    replace (Z.of_nat (List.length (IS_STRING dst :: k :: r)) =? 1) with false
      by (symmetry; apply Z.eqb_neq; simpl List.length; lia).
    replace (Z.of_nat (List.length (IS_STRING dst :: k :: r)) - 1)
      with (Z.of_nat (List.length (k :: r))) by (simpl List.length; lia).
    reflexivity.
  - intros ->. split; reflexivity.
  - intros Hcase. unfold execute_sinterstore_command, zend_hash_num_elements.
    rewrite <- (values_of_length ht) in *.
    destruct (values_of ht) as [|z r]; [reflexivity|].
    destruct z; try reflexivity.
    destruct Hcase as [Hone|Hnot].
    + rewrite Hone. reflexivity.
    + exfalso. apply (Hnot str r). reflexivity.
Qed.

(** X5.  SINTERCARD on a client outside batch mode, given a non-empty
    array of keys: a negative limit is refused without any call;
    otherwise the engine receives one SInterCard command whose vector is
    the number of keys in decimal, the keys in the array's order and,
    when a limit was passed, the word LIMIT and the limit in decimal. *)
Theorem sintercard_request :
  forall (valkey_glide : valkey_glide_object) (object : zval) (client : Z)
         (ht_keys : HashTable) (limit : option Z) (rv : zval),
    glide_client valkey_glide = Some client ->
    is_in_batch_mode valkey_glide = false ->
    ht_keys <> [] ->
    Z.of_nat (List.length ht_keys) < INT_MAX - 2 ->
    let n := Z.of_nat (List.length ht_keys) in
    let keys := map set_string_form (values_of ht_keys) in
    let o := execute_sintercard_command valkey_glide object ht_keys limit rv in
    match limit with
    | None =>
        engine_calls (events o)
        = [EvExecuteCommand SInterCard (1 + n) (decimal_slot n :: keys)]
    | Some l =>
        if l <? 0 then o = failed rv []
        else
          engine_calls (events o)
          = [EvExecuteCommand SInterCard (3 + n)
               (decimal_slot n :: keys ++ [arg_of "LIMIT"; decimal_slot l])]
    end.
Proof.
  intros valkey_glide object client ht_keys limit rv Hc Hb Hne Hfit n keys o.
  subst o. unfold execute_sintercard_command.
  assert (Hn : 0 < n) by (subst n; destruct ht_keys; [congruence|simpl List.length; lia]).
  assert (Hz : (zend_hash_num_elements ht_keys =? 0) = false)
    by (apply Z.eqb_neq; unfold zend_hash_num_elements; fold n; lia).
  assert (Hconv : convert_zval_to_string_args (values_of ht_keys) n
                  = (keys, snd (convert_zval_loop (values_of ht_keys)))).
  { unfold convert_zval_to_string_args. subst n.
    rewrite <- (values_of_length ht_keys), firstn_of_length.
    rewrite (surjective_pairing (convert_zval_loop (values_of ht_keys))).
    cbn [snd]. f_equal. apply convert_zval_loop_slots. }
  destruct limit as [l|].
  - cbn [is_some andb]. destruct (l <? 0) eqn:El; [reflexivity|].
    rewrite Hz, Hc.
    match goal with
    | |- context [execute_s_generic_command _ _ _ _ ?a _] => set (args := a)
    end.
    assert (Hp : prepare_s_args S_CMD_MULTI_KEY_LIMIT args
                 = Some {| p_arg_count := 3 + n;
                           p_args := Some (decimal_slot n :: keys
                                           ++ [arg_of "LIMIT"; decimal_slot l]);
                           p_allocated :=
                             snprintf_ld n
                             :: snd (convert_zval_loop (values_of ht_keys))
                                ++ [snprintf_ld l] |}).
    { cbn [prepare_s_args]. unfold prepare_s_multi_key_limit_args, alloc_long_string.
      subst args. cbn [sa_glide_client sa_keys sa_keys_count sa_has_limit sa_limit].
      unfold zend_hash_num_elements. fold n.
      replace (n <=? 0) with false by (symmetry; apply Z.leb_gt; exact Hn).
      rewrite Hconv. rewrite to_int_small by (unfold INT_MAX in *; lia).
      f_equal. f_equal. lia. }
    cbn [return_result events].
    apply (@direct_engine_calls RT valkey_glide client SInterCard S_CMD_MULTI_KEY_LIMIT
             S_RESPONSE_INT args rv _ _ Hc Hb Hp eq_refl).
    cbn [p_arg_count]. lia.
  - cbn [is_some andb]. rewrite Hz, Hc.
    match goal with
    | |- context [execute_s_generic_command _ _ _ _ ?a _] => set (args := a)
    end.
    assert (Hp : prepare_s_args S_CMD_MULTI_KEY_LIMIT args
                 = Some {| p_arg_count := 1 + n;
                           p_args := Some (decimal_slot n :: keys);
                           p_allocated :=
                             snprintf_ld n
                             :: snd (convert_zval_loop (values_of ht_keys)) |}).
    { cbn [prepare_s_args]. unfold prepare_s_multi_key_limit_args, alloc_long_string.
      subst args. cbn [sa_glide_client sa_keys sa_keys_count sa_has_limit sa_limit].
      unfold zend_hash_num_elements. fold n.
      replace (n <=? 0) with false by (symmetry; apply Z.leb_gt; exact Hn).
      rewrite Hconv. rewrite to_int_small by (unfold INT_MAX in *; lia).
      f_equal. f_equal. lia. }
    cbn [return_result events].
    apply (@direct_engine_calls RT valkey_glide client SInterCard S_CMD_MULTI_KEY_LIMIT
             S_RESPONSE_INT args rv _ _ Hc Hb Hp eq_refl).
    cbn [p_arg_count]. lia.
Qed.

(** X6.  SPOP and SRANDMEMBER on a client outside batch mode, with a key
    that is not empty: without a count the engine receives the key alone;
    with a count it receives the key and the count in decimal, whatever
    the count is (zero and negative counts are sent as they are). *)
Theorem pop_and_random_member_request :
  forall (valkey_glide : valkey_glide_object) (object : zval) (client : Z)
         (cmd : RequestType) (key : string) (count : option Z) (rv : zval),
    glide_client valkey_glide = Some client ->
    is_in_batch_mode valkey_glide = false ->
    key <> "" ->
    engine_calls (events (execute_key_count cmd valkey_glide object key count rv))
    = [match count with
       | Some n => EvExecuteCommand cmd 2 [arg_of key; decimal_slot n]
       | None => EvExecuteCommand cmd 1 [arg_of key]
       end].
Proof.
  intros valkey_glide object client cmd key count rv Hc Hb Hk.
  unfold execute_key_count. rewrite Hc.
  match goal with
  | |- context [execute_s_generic_command _ _ _ _ ?a _] => set (args := a)
  end.
  assert (Hkey : (blen key =? 0) = false).
  { rewrite blen_empty. apply String.eqb_neq. exact Hk. }
  unfold return_one_if_nonzero.
  destruct count as [n|].
  - assert (Hp : prepare_s_args S_CMD_KEY_COUNT args
                 = Some {| p_arg_count := 2;
                           p_args := Some [arg_of key; decimal_slot n];
                           p_allocated := [snprintf_ld n] |}).
    { cbn [prepare_s_args]. unfold prepare_s_key_count_args, alloc_long_string.
      subst args. cbn [sa_glide_client sa_key sa_key_len sa_has_count sa_count is_some].
      rewrite Hkey. reflexivity. }
    match goal with
    | |- engine_calls (events (if ?b then _ else _)) = _ => destruct b
    end; cbn [events];
      apply (@direct_engine_calls RT valkey_glide client cmd S_CMD_KEY_COUNT
               S_RESPONSE_MIXED args rv _ _ Hc Hb Hp eq_refl); reflexivity.
  - assert (Hp : prepare_s_args S_CMD_KEY_COUNT args
                 = Some {| p_arg_count := 1;
                           p_args := Some [arg_of key];
                           p_allocated := [] |}).
    { cbn [prepare_s_args]. unfold prepare_s_key_count_args, alloc_long_string.
      subst args. cbn [sa_glide_client sa_key sa_key_len sa_has_count sa_count is_some].
      rewrite Hkey. reflexivity. }
    match goal with
    | |- engine_calls (events (if ?b then _ else _)) = _ => destruct b
    end; cbn [events];
      apply (@direct_engine_calls RT valkey_glide client cmd S_CMD_KEY_COUNT
               S_RESPONSE_MIXED args rv _ _ Hc Hb Hp eq_refl); reflexivity.
Qed.

End SetEntryProperties.

(* --------------------------------------------------------------------- *)
(** *** The scan family *)

Section ScanProperties.

Context {RT : Runtime}.

(** X7.  The scan decoder always leaves the next cursor in exactly one
    place, whatever the response: with an iterator, in the iterator, as a
    string, the context being released; without one, in the context. *)
Theorem scan_decoder_leaves_one_cursor :
  forall (response : option CommandResponse) (args : scan_data_t) (rv : zval),
    let pr := process_s_scan_result_async response args rv in
    if sd_scan_iter args
    then pr_cursor pr = None /\ exists s, pr_iter pr = Some (IS_STRING s)
    else pr_iter pr = None /\ exists s, pr_cursor pr = Some s.
Proof.
  intros response args rv pr. subst pr.
  unfold process_s_scan_result_async, scan_reset, scan_elements, ZVAL_STRING.
  each_case;
    cbn [pr_cursor pr_iter]; split; try reflexivity; try congruence; eexists; reflexivity.
Qed.

(** X8.  A reply that is not a page (no response, not an array, fewer than
    two elements, a cursor that is no string, or elements that are no
    array) ends the iteration: the decoder reports failure, returns an
    empty array and leaves the caller with the cursor "0". *)
Theorem scan_decoder_resets_on_malformed_reply :
  forall (response : option CommandResponse) (args : scan_data_t) (rv : zval),
    is_scan_page response = false ->
    let pr := process_s_scan_result_async response args rv in
    pr_status pr = 0
    /\ pr_return_value pr = IS_ARRAY []
    /\ caller_cursor pr = Some "0".
Proof.
  intros response args rv H pr. subst pr.
  unfold process_s_scan_result_async.
  assert (Hreset : forall st evs,
             st = 0 ->
             pr_status (scan_reset args st evs) = 0
             /\ pr_return_value (scan_reset args st evs) = IS_ARRAY []
             /\ caller_cursor (scan_reset args st evs) = Some "0").
  { intros st evs ->. unfold scan_reset, caller_cursor.
    destruct (sd_scan_iter args); repeat split. }
  destruct response as [r|]; [|apply Hreset; reflexivity].
  destruct r; try (apply Hreset; reflexivity).
  destruct array_value as [|c l]; [apply Hreset; reflexivity|].
  destruct l as [|e l]; [apply Hreset; reflexivity|].
  destruct c; try (apply Hreset; reflexivity).
  destruct e; try (apply Hreset; reflexivity).
  discriminate.
Qed.

(** X9.  SCAN on a standalone client outside batch mode, with an iterator
    that is NULL or a string: the engine receives exactly one Scan
    command, whose vector is the cursor, MATCH with the pattern when two
    or more arguments were passed and the pattern is not empty, COUNT
    with the page size when that size is positive (the count argument
    when three or more arguments were passed, 10 otherwise), and TYPE
    with the type name when four arguments were passed and the name is
    not empty. *)
Theorem scan_request :
  forall (valkey_glide : valkey_glide_object) (object : zval) (client : Z) (argc : Z)
         (z_iter : zval) (cursor : string) (pattern : option string) (count : Z)
         (type : option string) (rv : zval),
    glide_client valkey_glide = Some client ->
    is_in_batch_mode valkey_glide = false ->
    scan_cursor_value z_iter = Some cursor ->
    let vector :=
      [cursor_slot cursor]
      ++ (if 2 <=? argc then match_clause pattern else [])
      ++ count_clause (if 3 <=? argc then count else 10)
      ++ (if 4 <=? argc then type_clause type else []) in
    option_map (fun r => engine_calls (events (fst r)))
      (execute_scan_command valkey_glide object false argc (IterZval z_iter)
         pattern count type rv)
    = Some [EvExecuteCommand Scan (Z.of_nat (List.length vector)) vector].
Proof.
  intros valkey_glide object client argc z_iter cursor pattern count type rv
         Hc Hb Hcur vector.
  destruct (@standalone_scan_through_framework RT valkey_glide object client argc z_iter
              cursor pattern count type rv Hc Hcur)
    as (args & Hrun & Hv & Hn & Hpos & Hctx).
  rewrite Hrun. cbn [option_map fst]. f_equal.
  pose proof (@scan_through_framework RT valkey_glide object client Scan args rv _ _
                Hc Hv Hn Hpos Hctx) as H.
  cbv zeta in H. rewrite Hb in H. exact H.
Qed.

(** X10.  SSCAN, HSCAN and ZSCAN on a client outside batch mode, with an
    iterator that is NULL or a string: the engine receives exactly one
    command, whose vector is the key, the cursor, MATCH with the pattern
    when a non-empty pattern was given, and COUNT with the page size when
    that size is positive, the size being the count argument when four
    or more arguments were passed and 10 otherwise.  An empty key is left
    out of the vector, which then starts with the cursor. *)
Theorem keyed_scan_request :
  forall (valkey_glide : valkey_glide_object) (object : zval) (client : Z) (argc : Z)
         (cmd : RequestType) (key : string) (z_iter : zval) (cursor : string)
         (pattern : option string) (count : Z) (rv : zval),
    glide_client valkey_glide = Some client ->
    is_in_batch_mode valkey_glide = false ->
    scan_cursor_value z_iter = Some cursor ->
    let vector :=
      (if String.eqb key "" then [] else [arg_of key])
      ++ [cursor_slot cursor]
      ++ match_clause pattern
      ++ count_clause (if 3 <? argc then count else 10) in
    engine_calls
      (events (fst (execute_scan_command_generic valkey_glide object argc cmd key
                      z_iter pattern count rv)))
    = [EvExecuteCommand cmd (Z.of_nat (List.length vector)) vector].
Proof.
  intros valkey_glide object client argc cmd key z_iter cursor pattern count rv
         Hc Hb Hcur vector.
  unfold execute_scan_command_generic. rewrite Hc, Hcur. cbn [fst].
  unfold execute_gen_scan_command_internal.
  match goal with
  | |- context [execute_s_generic_command _ _ _ _ ?a _] => set (args := a)
  end.
  assert (Hp : p_arg_count (prepare_s_scan_args args) = Z.of_nat (List.length vector)
               /\ p_args (prepare_s_scan_args args) = Some vector).
  { unfold prepare_s_scan_args, alloc_long_string.
    subst args vector.
    cbn [sa_glide_client sa_cursor sa_pattern sa_pattern_len sa_has_count sa_key
         sa_key_len sa_has_type sa_type sa_type_len sa_count].
    rewrite Hc. unfold match_clause, count_clause, cursor_slot, decimal_slot.
    destruct pattern as [[|pc pr]|], key as [|kc kr];
      destruct (0 <? (if 3 <? argc then count else 10)) eqn:E;
      cbn; rewrite ?E; split; reflexivity. }
  destruct Hp as (Hn & Hv).
  assert (Hpos : 0 < Z.of_nat (List.length vector)).
  { subst vector. rewrite !length_app. simpl List.length. lia. }
  unfold return_one_if_nonzero.
  match goal with
  | |- engine_calls (events (if ?b then _ else _)) = _ => destruct b
  end; cbn [events]; rewrite <- Hn in *;
    apply (@direct_engine_calls RT valkey_glide client cmd S_CMD_SCAN S_RESPONSE_SCAN
             args rv _ _ Hc Hb eq_refl Hv Hpos).
Qed.

(** X11.  The argument vector of a cluster scan holds options only (never
    the cursor, which travels apart): at most 6 slots, none of them NULL,
    as many as the count handed to the core; and no vector at all when
    there is no option to send. *)
Theorem cluster_scan_arguments_shape :
  forall (pattern : option string) (pattern_len : Z) (count : Z) (has_count : bool)
         (type : option string) (type_len : Z) (has_type : bool),
    let r :=
      cluster_scan_arguments pattern pattern_len count has_count type type_len has_type in
    0 <= fst r <= 6
    /\ (fst r = 0 <-> snd r = None)
    /\ (forall v, snd r = Some v ->
                  fst r = Z.of_nat (List.length v)
                  /\ forall a, In a v -> arg_ptr a <> None).
Proof.
  intros pattern pattern_len count has_count type type_len has_type r. subst r.
  unfold cluster_scan_arguments, alloc_long_string.
  destruct pattern, (0 <? pattern_len), has_count, has_type, type, (0 <? type_len);
    cbn; (split; [lia|]); (split; [split; intros; (discriminate || lia || reflexivity)|]);
    intros v Hv; try discriminate; injection Hv as <-;
    (split; [reflexivity|]); intros a Ha; cbn in Ha;
    repeat (destruct Ha as [Ha|Ha]; [subst a; discriminate|]); contradiction.
Qed.

(** Without an iterator the scan decoder leaves the address of a literal
    in its context exactly after the replies of [leaves_literal], and that
    literal is "0". *)
Lemma scan_decoder_leaves_literal (response : option CommandResponse)
    (cursor : option string) (rv : zval) :
  let pr :=
    process_s_scan_result_async response
      {| sd_cmd_type := Scan; sd_cursor := cursor; sd_scan_iter := false |} rv in
  pr_cursor_literal pr = leaves_literal response
  /\ (pr_cursor_literal pr = true -> pr_cursor pr = Some "0").
Proof.
  intros pr. subst pr.
  unfold process_s_scan_result_async, leaves_literal, scan_reset, scan_elements.
  cbn [sd_scan_iter sd_cmd_type].
  destruct response as [[ | | | | |[|[] [|[ | | | | |[|el els]| | | | ] rest]]| | | | ]|];
    cbn [pr_cursor_literal pr_cursor]; try (split; reflexivity);
    destruct (String.eqb _ "0");
    try destruct (command_response_to_zval _ _ _ _);
    cbn [pr_cursor_literal pr_cursor andb]; split; (reflexivity || discriminate).
Qed.

(** [execute_cluster_scan_command] hands back the address of a literal
    exactly when the core answered with such a reply. *)
Lemma cluster_scan_leaves_literal (client : Z) (cursor : string)
    (pattern : option string) (pattern_len : Z) (count : Z) (has_count : bool)
    (type : option string) (type_len : Z) (has_type : bool) (rv : zval) :
  let request :=
    cluster_scan_arguments pattern pattern_len count has_count type type_len
      has_type in
  cs_cursor_literal
    (execute_cluster_scan_command (Some client) cursor pattern pattern_len count
       has_count type type_len has_type rv)
  = match request_cluster_scan cursor (fst request) (snd request) with
    | Some result => leaves_literal (response result)
    | None => false
    end.
Proof.
  intros request. subst request. unfold execute_cluster_scan_command.
  destruct (cluster_scan_arguments _ _ _ _ _ _ _) as [arg_count args].
  cbn [fst snd].
  destruct (request_cluster_scan cursor arg_count args) as [result|];
    [|reflexivity].
  destruct (@scan_decoder_leaves_literal (response result) (Some cursor) rv)
    as (Hlit & Hzero).
  cbv zeta in Hlit, Hzero.
  destruct (pr_cursor _) as [c|] eqn:Ec.
  - destruct (strcmp_eq c "finished") eqn:Ecmp; cbn [cs_cursor_literal];
      [|exact Hlit].
    rewrite <- Hlit.
    destruct (pr_cursor_literal _) eqn:El; [|reflexivity].
    specialize (Hzero eq_refl). injection Hzero as ->. discriminate.
  - cbn [cs_cursor_literal].
    rewrite <- Hlit.
    destruct (pr_cursor_literal _) eqn:El; [|reflexivity].
    specialize (Hzero eq_refl). discriminate.
Qed.

(** X12.  SCAN on a cluster client.  A run that is defined reports 1 or 0
    and updates the cursor object exactly when it reports 1.  When the
    object's [getCursor] fails or does not answer a string the core is not
    called at all, and when the core gives no result the call fails with
    the output value untouched and releases no cursor.  But when the core
    answers the cursor with a reply that is no page, or with the page of
    cursor "0" without elements, the decoder has left the address of the
    string literal "0" in the cursor pointer and the call frees it: the
    run is undefined.  It is defined when the core answers with pages
    that carry elements or a cursor other than "0". *)
Theorem cluster_scan_updates_cursor_on_success_only :
  forall (valkey_glide : valkey_glide_object) (object : zval) (argc : Z)
         (cursor_obj : cluster_scan_cursor_object) (pattern : option string) (count : Z)
         (type : option string) (rv : zval),
    let run :=
      execute_scan_command valkey_glide object true argc (IterClusterCursor cursor_obj)
        pattern count type rv in
    (forall o it,
        run = Some (o, it) ->
        (ret o = 1 /\ exists id, it = NextCursorIdSet id)
        \/ (ret o = 0 /\ it = IterUntouched))
    /\ ((forall s, getCursor cursor_obj <> Some (IS_STRING s)) ->
        run = Some (failed rv [], IterUntouched))
    /\ ((forall c n a, request_cluster_scan c n a = None) ->
        exists o,
          run = Some (o, IterUntouched)
          /\ ret o = 0 /\ return_value o = rv /\ released_cursors (events o) = [])
    /\ (forall client s,
          glide_client valkey_glide = Some client ->
          getCursor cursor_obj = Some (IS_STRING s) ->
          ((forall n a,
               exists result,
                 request_cluster_scan (estrdup s) n a = Some result
                 /\ leaves_literal (response result) = true) ->
           run = None)
          /\ ((forall n a result,
                  request_cluster_scan (estrdup s) n a = Some result ->
                  leaves_literal (response result) = false) ->
              exists r, run = Some r)).
Proof.
  intros valkey_glide object argc cursor_obj pattern count type rv run. subst run.
  unfold execute_scan_command.
  destruct (glide_client valkey_glide) as [client|].
  2:{ repeat split; try discriminate.
      - intros o it H. injection H as <- <-. right. split; reflexivity.
      - intros _. eexists. repeat split. }
  destruct (getCursor cursor_obj) as [z|] eqn:Eg.
  2:{ repeat split; try discriminate.
      - intros o it H. injection H as <- <-. right. split; reflexivity.
      - intros _. eexists. repeat split. }
  destruct z;
    try (repeat split; try discriminate;
         [intros o it H; injection H as <- <-; right; split; reflexivity
         |intros _; eexists; repeat split]).
  match goal with
  | |- context [execute_cluster_scan_command ?a ?b ?c ?d ?e ?f ?g ?h ?i ?j] =>
      set (o := execute_cluster_scan_command a b c d e f g h i j)
  end.
  pose proof (@cluster_scan_leaves_literal client (estrdup str)) as Hliteral.
  cbv zeta in Hliteral.
  assert (Ho : cs_cursor_literal o = cs_cursor_literal o) by reflexivity.
  unfold o at 2 in Ho. rewrite Hliteral in Ho. clear Hliteral.
  rename Ho into Hliteral.
  split; [|split; [|split]].
  - intros out it H.
    destruct (cs_cursor_literal o); [discriminate|].
    destruct (nonzero (cs_success o)); injection H as <- <-; [left|right];
      split; try reflexivity.
    eexists; reflexivity.
  - intros H. exfalso. apply (H str). reflexivity.
  - intros H. rewrite Hliteral, H.
    subst o. unfold execute_cluster_scan_command.
    destruct (cluster_scan_arguments _ _ _ _ _ _ _) as [arg_count args].
    rewrite H. cbn. eexists. repeat split.
  - intros client0 s _ Hs. injection Hs as <-. rewrite Hliteral. split.
    + intros H.
      match goal with
      | |- context [request_cluster_scan ?c ?n ?a] =>
          destruct (H n a) as (result & Hres & Hlit)
      end.
      rewrite Hres, Hlit. reflexivity.
    + intros H.
      match goal with
      | |- context [request_cluster_scan ?c ?n ?a] =>
          destruct (request_cluster_scan c n a) as [result|] eqn:Hres
      end.
      * rewrite (H _ _ _ Hres). destruct (nonzero _); eexists; reflexivity.
      * destruct (nonzero _); eexists; reflexivity.
Qed.

End ScanProperties.

(* --------------------------------------------------------------------- *)
(** *** The frameworks and their modes *)

(** X13.  The set/scan framework never reads the error of a result: with
    two engines whose answers carry the same responses and differ at most
    in their error, it behaves the same, decoding the response even when
    the engine flagged an error. *)
Theorem set_framework_ignores_the_error_of_a_result :
  forall (RT : Runtime)
         (engine1 engine2 : RequestType -> Z -> list arg -> option CommandResult)
         (valkey_glide : valkey_glide_object) (cmd : RequestType)
         (category : s_command_category_t) (response_type : s_response_type_t)
         (args : s_command_args_t) (rv : zval),
    (forall c n a, option_map response (engine1 c n a) = option_map response (engine2 c n a)) ->
    execute_s_generic_command (RT := with_engine RT engine1) valkey_glide cmd category
      response_type args rv
    = execute_s_generic_command (RT := with_engine RT engine2) valkey_glide cmd category
        response_type args rv.
Proof.
  intros RT engine1 engine2 valkey_glide cmd category response_type args rv H.
  unfold execute_s_generic_command.
  destruct (glide_client valkey_glide); [|reflexivity].
  change (@prepare_s_args (with_engine RT engine2) category args)
    with (@prepare_s_args (with_engine RT engine1) category args).
  destruct (@prepare_s_args (with_engine RT engine1) category args) as [p|];
    [|reflexivity].
  destruct (p_args p) as [cmd_args|]; [|reflexivity].
  destruct (p_arg_count p <=? 0); [reflexivity|].
  destruct (is_in_batch_mode valkey_glide); [reflexivity|].
  cbn [execute_command with_engine].
  specialize (H cmd (p_arg_count p) cmd_args).
  destruct (engine1 cmd (p_arg_count p) cmd_args) as [r1|],
           (engine2 cmd (p_arg_count p) cmd_args) as [r2|];
    try discriminate; [|reflexivity].
  injection H as H. rewrite H. reflexivity.
Qed.

Section Modes.

Context {RT : Runtime}.

Lemma scan_decoder_enqueues_nothing (response : option CommandResponse)
    (args : scan_data_t) (rv : zval) :
  enqueued (pr_events (process_s_scan_result_async response args rv)) = [].
Proof.
  unfold process_s_scan_result_async, scan_reset, scan_elements.
  each_case; reflexivity.
Qed.

Lemma s_decoders_enqueue_nothing (cmd : RequestType)
    (response_type : s_response_type_t) (args : s_command_args_t)
    (response : option CommandResponse) (rv : zval) :
  enqueued (pr_events (s_call_process_result cmd response_type args response rv)) = [].
Proof.
  unfold s_call_process_result.
  destruct response_type;
    try (match goal with
         | |- context [let '(_, _) := ?x in _] => destruct x
         end; reflexivity).
  apply scan_decoder_enqueues_nothing.
Qed.

Lemma direct_trace_nil : direct_trace [].
Proof. split; simpl; [reflexivity|lia]. Qed.

Lemma direct_trace_warnings (evs : list event) :
  (forall x, In x evs -> exists msg, x = EvWarning msg) -> direct_trace evs.
Proof.
  intros H. destruct (@warnings_are_quiet evs H) as (H1 & H2).
  split; [exact H2|rewrite H1; simpl; lia].
Qed.

Lemma s_framework_direct_trace (valkey_glide : valkey_glide_object) (cmd : RequestType)
    (category : s_command_category_t) (response_type : s_response_type_t)
    (args : s_command_args_t) (rv : zval) :
  is_in_batch_mode valkey_glide = false ->
  direct_trace
    (s_events (execute_s_generic_command valkey_glide cmd category response_type args rv)).
Proof.
  intros Hb. unfold execute_s_generic_command.
  destruct (glide_client valkey_glide); [|apply direct_trace_nil].
  destruct (prepare_s_args category args) as [p|]; [|apply direct_trace_nil].
  destruct (p_args p) as [cmd_args|]; [|apply direct_trace_nil].
  destruct (p_arg_count p <=? 0); [apply direct_trace_nil|].
  rewrite Hb.
  destruct (execute_command cmd (p_arg_count p) cmd_args) as [result|];
    [|split; simpl; [reflexivity|lia]].
  cbn [s_events]. split.
  - cbn [enqueued flat_map app]. apply s_decoders_enqueue_nothing.
  - unfold engine_calls. cbn [filter is_engine_call].
    fold (engine_calls
            (pr_events (s_call_process_result cmd response_type args (response result) rv))).
    rewrite s_decoders_make_no_engine_call. simpl. lia.
Qed.

Lemma geo_framework_direct_trace (valkey_glide : valkey_glide_object) (object : zval)
    (cmd : RequestType) (args : geo_command_args_t) (result_ptr : result_ptr_t)
    (process_result : z_result_processor_t) (rv : zval) (o : outcome) :
  is_in_batch_mode valkey_glide = false ->
  return_handle_in_batch valkey_glide object
    (execute_geo_generic_command valkey_glide cmd args result_ptr process_result rv)
  = Some o ->
  direct_trace (events o).
Proof.
  intros Hb. unfold execute_geo_generic_command, return_handle_in_batch. rewrite Hb.
  each_case;
    intros H; try discriminate; injection H as <-; split; simpl; (reflexivity || lia).
Qed.

Lemma geosearch_direct_trace (valkey_glide : valkey_glide_object) (object : zval)
    (c : geosearch_call) (is_store_variant : bool) (rv : zval) (o : outcome) :
  is_in_batch_mode valkey_glide = false ->
  execute_geosearch_unified valkey_glide object c is_store_variant rv = Some o ->
  direct_trace (events o).
Proof.
  intros Hb. unfold execute_geosearch_unified.
  pose proof (@parse_geosearch_warns_only RT c is_store_variant) as Hw.
  destruct (parse_geosearch_parameters c is_store_variant) as [[params|] warnings].
  - rewrite Hb.
    each_case;
      intros H; try discriminate; injection H as <-; split; simpl; (reflexivity || lia).
  - intros H. injection H as <-. apply direct_trace_warnings, Hw.
Qed.

Lemma cluster_scan_direct_trace (glide_client : option Z) (cursor : string)
    (pattern : option string) (pattern_len : Z) (count : Z) (has_count : bool)
    (type : option string) (type_len : Z) (has_type : bool) (rv : zval) :
  direct_trace
    (cs_events (execute_cluster_scan_command glide_client cursor pattern pattern_len
                  count has_count type type_len has_type rv)).
Proof.
  unfold execute_cluster_scan_command.
  destruct glide_client; [|apply direct_trace_nil].
  destruct (cluster_scan_arguments _ _ _ _ _ _ _) as [arg_count args].
  destruct (request_cluster_scan cursor arg_count args) as [result|];
    [|split; simpl; [reflexivity|lia]].
  assert (Hq : forall tail,
             enqueued tail = [] -> engine_calls tail = [] ->
             direct_trace
               ([EvRequestClusterScan cursor arg_count args]
                ++ pr_events (process_s_scan_result_async (response result)
                                {| sd_cmd_type := Scan; sd_cursor := Some cursor;
                                   sd_scan_iter := false |} rv)
                ++ tail)).
  { intros tail H1 H2. split.
    - unfold enqueued. rewrite !flat_map_app. fold (enqueued tail).
      rewrite H1, app_nil_r. cbn [flat_map app].
      apply scan_decoder_enqueues_nothing.
    - unfold engine_calls. rewrite !filter_app. fold (engine_calls tail).
      rewrite H2, app_nil_r. cbn [filter is_engine_call app].
      fold (engine_calls
              (pr_events (process_s_scan_result_async (response result)
                            {| sd_cmd_type := Scan; sd_cursor := Some cursor;
                               sd_scan_iter := false |} rv))).
      rewrite scan_decoder_prints_only. simpl. lia. }
  destruct (pr_cursor _) as [c|].
  - destruct (strcmp_eq c "finished"); cbn [cs_events].
    + apply Hq; reflexivity.
    + specialize (Hq [] eq_refl eq_refl). rewrite app_nil_r in Hq. exact Hq.
  - cbn [cs_events]. specialize (Hq [] eq_refl eq_refl).
    rewrite app_nil_r in Hq. exact Hq.
Qed.

Ltac set_direct Hb :=
  each_case;
  first [ apply direct_trace_nil
        | unfold return_one_if_nonzero;
          match goal with
          | |- direct_trace (events (if ?b then _ else _)) => destruct b
          end; cbn [events]; apply s_framework_direct_trace, Hb
        | unfold return_result; cbn [events]; apply s_framework_direct_trace, Hb ].

(** X14.  Outside batch mode no entry point touches the batch buffer, and
    each makes at most one call to the engine (or, for SCAN on a cluster
    client, to the cluster scan of the core). *)
Theorem direct_mode_never_buffers :
  forall (valkey_glide : valkey_glide_object) (object : zval) (c : call) (rv : zval)
         (o : outcome),
    is_in_batch_mode valkey_glide = false ->
    invoke valkey_glide object c rv = Some o ->
    enqueued (events o) = []
    /\ (List.length (engine_calls (events o)) <= 1)%nat.
Proof.
  intros valkey_glide object c rv o Hb H.
  change (direct_trace (events o)).
  destruct c; cbn [invoke] in H;
    try (injection H as <-;
         unfold execute_sadd_command, execute_srem_command, execute_smismember_command,
           execute_key_members, execute_scard_command, execute_smembers_command,
           execute_key_only, execute_srandmember_command, execute_spop_command,
           execute_key_count, execute_sismember_command, execute_smove_command,
           execute_sinter_command, execute_sunion_command, execute_sdiff_command,
           execute_variadic_keys, execute_multi_key, execute_sintercard_command,
           execute_sinterstore_command, execute_sunionstore_command,
           execute_sdiffstore_command, execute_dst_variadic_keys, execute_dst_multi_key;
         set_direct Hb; fail).
  - (* SCAN *)
    unfold execute_scan_command in H.
    destruct (glide_client valkey_glide);
      [|injection H as <-; apply direct_trace_nil].
    cbv zeta in H.
    destruct is_cluster.
    + destruct z_iter as [iter|cursor_obj];
        [injection H as <-; apply direct_trace_nil|].
      destruct (getCursor cursor_obj) as [answer|];
        [|injection H as <-; apply direct_trace_nil].
      destruct answer; try (injection H as <-; apply direct_trace_nil).
      match type of H with
      | context [execute_cluster_scan_command ?a ?b ?c ?d ?e ?f ?g ?h ?i ?j] =>
          set (run := execute_cluster_scan_command a b c d e f g h i j) in H
      end.
      destruct (cs_cursor_literal run); [discriminate|].
      destruct (nonzero (cs_success run)); injection H as <-; cbn [events];
        apply cluster_scan_direct_trace.
    + destruct (scan_cursor_value _); cbn [option_map fst] in H; injection H as <-;
        [|cbn [failed events]; split; simpl; [reflexivity|lia]].
      unfold return_one_if_nonzero.
      match goal with
      | |- direct_trace (events (if ?b then _ else _)) => destruct b
      end; cbn [events]; apply s_framework_direct_trace, Hb.
  - (* SSCAN, HSCAN, ZSCAN *)
    injection H as <-. unfold execute_scan_command_generic.
    destruct (glide_client valkey_glide); [|apply direct_trace_nil].
    destruct (scan_cursor_value z_iter);
      [|cbn [fst failed events]; split; simpl; [reflexivity|lia]].
    cbn [fst]. unfold return_one_if_nonzero, execute_gen_scan_command_internal.
    match goal with
    | |- direct_trace (events (if ?b then _ else _)) => destruct b
    end; cbn [events]; apply s_framework_direct_trace, Hb.
  - unfold execute_geoadd_command in H.
    destruct ((Z.of_nat (List.length z_args) <? 3)
              || negb (Z.rem (Z.of_nat (List.length z_args)) 3 =? 0));
      [injection H as <-; split; simpl; [reflexivity|lia]|].
    destruct (glide_client valkey_glide); [|injection H as <-; apply direct_trace_nil].
    eapply geo_framework_direct_trace; [exact Hb|exact H].
  - unfold execute_geodist_command in H.
    destruct (glide_client valkey_glide); [|injection H as <-; apply direct_trace_nil].
    eapply geo_framework_direct_trace; [exact Hb|exact H].
  - unfold execute_geohash_command, execute_geo_members in H.
    destruct (Z.of_nat (List.length members) <? 1);
      [injection H as <-; split; simpl; [reflexivity|lia]|].
    destruct (glide_client valkey_glide); [|injection H as <-; apply direct_trace_nil].
    eapply geo_framework_direct_trace; [exact Hb|exact H].
  - unfold execute_geopos_command, execute_geo_members in H.
    destruct (Z.of_nat (List.length members) <? 1);
      [injection H as <-; split; simpl; [reflexivity|lia]|].
    destruct (glide_client valkey_glide); [|injection H as <-; apply direct_trace_nil].
    eapply geo_framework_direct_trace; [exact Hb|exact H].
  - eapply geosearch_direct_trace; [exact Hb|exact H].
  - eapply geosearch_direct_trace; [exact Hb|exact H].
Qed.

(** X15.  Without a client behind the object every entry point fails
    before anything leaves the binding: it returns 0, leaves the output
    value untouched, makes no engine call and enqueues nothing, in batch
    mode as outside it. *)
Theorem no_client_no_effect :
  forall (valkey_glide : valkey_glide_object) (object : zval) (c : call) (rv : zval),
    glide_client valkey_glide = None ->
    exists o,
      invoke valkey_glide object c rv = Some o
      /\ ret o = 0
      /\ return_value o = rv
      /\ engine_calls (events o) = []
      /\ enqueued (events o) = [].
Proof.
  intros valkey_glide object c rv Hc.
  destruct c; cbn [invoke];
    unfold execute_sadd_command, execute_srem_command, execute_smismember_command,
      execute_key_members, execute_scard_command, execute_smembers_command,
      execute_key_only, execute_srandmember_command, execute_spop_command,
      execute_key_count, execute_sismember_command, execute_smove_command,
      execute_sinter_command, execute_sunion_command, execute_sdiff_command,
      execute_variadic_keys, execute_multi_key, execute_sintercard_command,
      execute_sinterstore_command, execute_sunionstore_command,
      execute_sdiffstore_command, execute_dst_variadic_keys, execute_dst_multi_key,
      execute_scan_command, execute_scan_command_generic,
      execute_geoadd_command, execute_geodist_command, execute_geohash_command,
      execute_geopos_command, execute_geo_members,
      execute_geosearch_command, execute_geosearchstore_command,
      execute_geosearch_unified;
    rewrite ?Hc;
    try (eexists; split; [reflexivity|repeat split]; fail).
  all: repeat match goal with
              | |- context [match ?x with _ => _ end] =>
                  lazymatch x with
                  | context [match _ with _ => _ end] => fail
                  | glide_client _ => rewrite Hc
                  | parse_geosearch_parameters _ _ => fail
                  | _ => destruct x
                  end
              end;
    rewrite ?Hc;
    try (eexists; split; [reflexivity|repeat split]; fail).
  - pose proof (@parse_geosearch_warns_only RT c false) as Hw.
    destruct (parse_geosearch_parameters c false) as [[params|] warnings].
    + eexists; split; [reflexivity|repeat split].
    + eexists; split; [reflexivity|]. cbn [failed ret return_value events].
      destruct (@warnings_are_quiet warnings Hw) as (H1 & H2). repeat split; assumption.
  - pose proof (@parse_geosearch_warns_only RT c true) as Hw.
    destruct (parse_geosearch_parameters c true) as [[params|] warnings].
    + eexists; split; [reflexivity|repeat split].
    + eexists; split; [reflexivity|]. cbn [failed ret return_value events].
      destruct (@warnings_are_quiet warnings Hw) as (H1 & H2). repeat split; assumption.
Qed.

End Modes.

(* --------------------------------------------------------------------- *)
(** *** Geo encoders *)

Section GeoEncoderProperties.

Context {RT : Runtime}.

Lemma alloc_of_length (o : option string) : (List.length (alloc_of o) <= 1)%nat.
Proof. destruct o; simpl; lia. Qed.

Lemma geo_from_part_bound (check_lon : bool) (from : zval) (l : list arg)
    (a : list string) :
  geo_from_part check_lon from = Some (l, a) ->
  (List.length l <= 3 /\ List.length a <= 2)%nat.
Proof.
  unfold geo_from_part. intros H.
  destruct from; try (injection H as <- <-; simpl; lia).
  destruct (zend_hash_index_find arr 0), (zend_hash_index_find arr 1);
    try (injection H as <- <-; simpl; lia).
  destruct (double_to_string (zval_get_double z)) as [lon_str lon_len].
  destruct (check_lon && negb (is_some lon_str)); [discriminate|].
  destruct (double_to_string (zval_get_double z0)) as [lat_str lat_len].
  destruct lat_str; [|discriminate].
  injection H as <- <-. rewrite length_app.
  pose proof (alloc_of_length lon_str). simpl. lia.
Qed.

Lemma geo_count_part_bound (opts : geo_radius_options_t) (l : list arg)
    (a : list string) :
  geo_count_part opts = Some (l, a) ->
  (List.length l <= 3 /\ List.length a <= 1)%nat.
Proof.
  unfold geo_count_part. intros H.
  destruct (0 <? ro_count opts); [|injection H as <- <-; simpl; lia].
  destruct (long_to_string (ro_count opts)) as [count_str count_len].
  destruct count_str; [|discriminate].
  injection H as <- <-. destruct (ro_any opts); simpl; lia.
Qed.

Lemma geo_sort_part_bound (opts : geo_radius_options_t) :
  (List.length (geo_sort_part opts) <= 1)%nat.
Proof.
  unfold geo_sort_part.
  destruct (is_some (ro_sort opts) && (0 <? ro_sort_len opts)); simpl; lia.
Qed.

Lemma geo_with_part_bound (w : geo_with_options_t) :
  (List.length (geo_with_part w) <= 3)%nat.
Proof.
  unfold geo_with_part.
  destruct (wo_withcoord w), (wo_withdist w), (wo_withhash w); simpl; lia.
Qed.

Lemma two_doubles_bound (x y : float) (l : list arg) (a : list string) :
  two_doubles x y = Some (l, a) -> List.length l = 2%nat /\ List.length a = 2%nat.
Proof.
  unfold two_doubles. intros H.
  destruct (double_to_string x) as [xs xl], (double_to_string y) as [ys yl].
  destruct xs, ys; try discriminate. injection H as <- <-. split; reflexivity.
Qed.

Lemma to_int_of_short_length {A : Type} (l : list A) :
  (List.length l <= 16)%nat -> to_int (Z.of_nat (List.length l)) = Z.of_nat (List.length l).
Proof.
  intros H. apply to_int_small. unfold INT_MAX. lia.
Qed.

Lemma unified_encoder_counts_slots (params : geo_search_params_t)
    (is_store_variant : bool) :
  let unified := prepare_geo_search_unified_args params is_store_variant in
  Z.of_nat (List.length (args_of unified)) <= (if is_store_variant then 14 else 15)
  /\ p_arg_count unified = Z.of_nat (List.length (args_of unified)).
Proof.
  cbv zeta.
  unfold prepare_geo_search_unified_args.
  set (from_part :=
         if gp_is_from_member params
         then Some ([arg_of "FROMMEMBER";
                     {| arg_ptr := gp_member params; arg_len := gp_member_len params |}],
                    [])
         else match two_doubles (gp_longitude params) (gp_latitude params) with
              | Some (l, a) => Some (arg_of "FROMLONLAT" :: l, a)
              | None => None
              end).
  assert (Hfrom : forall l a, from_part = Some (l, a) -> (List.length l <= 3)%nat).
  { subst from_part. intros l a H. destruct (gp_is_from_member params).
    - injection H as <- <-. simpl. lia.
    - destruct (two_doubles (gp_longitude params) (gp_latitude params))
        as [[l' a']|] eqn:E; [|discriminate].
      injection H as <- <-. apply two_doubles_bound in E. simpl. lia. }
  destruct from_part as [[from_args from_alloc]|];
    [|simpl; split; [destruct is_store_variant; lia|reflexivity]].
  specialize (Hfrom _ _ eq_refl).
  set (by_part :=
         if gp_is_by_radius params
         then
           let '(radius_str, radius_str_len) := double_to_string (gp_radius params) in
           match radius_str with
           | None => None
           | Some s =>
               Some ([arg_of "BYRADIUS";
                      {| arg_ptr := radius_str; arg_len := radius_str_len |}], [s])
           end
         else match two_doubles (gp_width params) (gp_height params) with
              | Some (l, a) => Some (arg_of "BYBOX" :: l, a)
              | None => None
              end).
  assert (Hby : forall l a, by_part = Some (l, a) -> (List.length l <= 3)%nat).
  { subst by_part. intros l a H. destruct (gp_is_by_radius params).
    - destruct (double_to_string (gp_radius params)) as [rs rl].
      destruct rs; [|discriminate]. injection H as <- <-. simpl. lia.
    - destruct (two_doubles (gp_width params) (gp_height params))
        as [[l' a']|] eqn:E; [|discriminate].
      injection H as <- <-. apply two_doubles_bound in E. simpl. lia. }
  destruct by_part as [[by_args by_alloc]|];
    [|simpl; split; [destruct is_store_variant; lia|reflexivity]].
  specialize (Hby _ _ eq_refl).
  destruct (geo_count_part (gp_options params)) as [[count_args count_alloc]|] eqn:Ec;
    [|simpl; split; [destruct is_store_variant; lia|reflexivity]].
  apply geo_count_part_bound in Ec.
  pose proof (geo_sort_part_bound (gp_options params)).
  pose proof (geo_with_part_bound (ro_with_opts (gp_options params))).
  unfold args_of. cbn [p_args p_arg_count].
  match goal with
  | |- Z.of_nat (List.length ?v) <= _ /\ _ =>
      assert (Hlen : (List.length v <= if is_store_variant then 14 else 15)%nat)
  end.
  { rewrite !length_app.
    destruct is_store_variant; simpl;
      destruct (ro_store_dist (gp_options params)); simpl; lia. }
  split; [destruct is_store_variant; lia|].
  apply to_int_of_short_length. destruct is_store_variant; lia.
Qed.

(** X16.  The GEOSEARCH encoder fills at most 14 of the 15 slots it
    allocates and the GEOSEARCHSTORE encoder at most 13 of its 16; the
    unified encoder fills at most 15 slots (14 for the store variant).
    Each of the three returns the number of slots it filled. *)
Theorem geo_search_vectors_stay_within_their_buffers :
  forall (args : geo_command_args_t) (params : geo_search_params_t)
         (is_store_variant : bool),
    let legacy := prepare_geo_search_args args in
    let store := prepare_geo_search_store_args args in
    let unified := prepare_geo_search_unified_args params is_store_variant in
    (Z.of_nat (List.length (args_of legacy)) <= 14
     /\ p_arg_count legacy = Z.of_nat (List.length (args_of legacy)))
    /\ (Z.of_nat (List.length (args_of store)) <= 13
        /\ p_arg_count store = Z.of_nat (List.length (args_of store)))
    /\ (Z.of_nat (List.length (args_of unified)) <= (if is_store_variant then 14 else 15)
        /\ p_arg_count unified = Z.of_nat (List.length (args_of unified))).
Proof.
  intros args params is_store_variant legacy store unified.
  subst legacy store unified. split; [|split].
  - unfold prepare_geo_search_args.
    destruct (ga_key args), (ga_from args), (ga_by_radius args), (ga_unit args);
      try (simpl; split; [lia|reflexivity]).
    destruct (geo_from_part false z) as [[from_args from_alloc]|] eqn:Ef;
      [|simpl; split; [lia|reflexivity]].
    destruct (double_to_string f) as [radius_str radius_len].
    destruct (geo_count_part (ga_radius_opts args)) as [[count_args count_alloc]|] eqn:Ec;
      [|simpl; split; [lia|reflexivity]].
    apply geo_from_part_bound in Ef. apply geo_count_part_bound in Ec.
    pose proof (geo_with_part_bound (ro_with_opts (ga_radius_opts args))).
    pose proof (geo_sort_part_bound (ga_radius_opts args)).
    unfold args_of. cbn [p_args p_arg_count].
    assert (Hlen : (List.length
                      ([{| arg_ptr := Some s; arg_len := ga_key_len args |}]
                       ++ from_args
                       ++ [arg_of "BYRADIUS";
                           {| arg_ptr := radius_str; arg_len := radius_len |};
                           {| arg_ptr := Some s0; arg_len := ga_unit_len args |}]
                       ++ geo_with_part (ro_with_opts (ga_radius_opts args))
                       ++ count_args ++ geo_sort_part (ga_radius_opts args)) <= 14)%nat).
    { rewrite !length_app. simpl. lia. }
    split; [lia|]. apply to_int_of_short_length. lia.
  - unfold prepare_geo_search_store_args.
    destruct (ga_dest args), (ga_src args), (ga_from args);
      try (simpl; split; [lia|reflexivity]).
    destruct (ga_by_radius args), (ga_unit args);
      try (simpl; split; [lia|reflexivity]).
    destruct (geo_from_part true z) as [[from_args from_alloc]|] eqn:Ef;
      [|simpl; split; [lia|reflexivity]].
    destruct (double_to_string f) as [radius_str radius_len].
    destruct radius_str as [radius|]; [|simpl; split; [lia|reflexivity]].
    destruct (geo_count_part (ga_radius_opts args)) as [[count_args count_alloc]|] eqn:Ec;
      [|simpl; split; [lia|reflexivity]].
    apply geo_from_part_bound in Ef. apply geo_count_part_bound in Ec.
    pose proof (geo_sort_part_bound (ga_radius_opts args)).
    unfold args_of. cbn [p_args p_arg_count].
    match goal with
    | |- Z.of_nat (List.length ?v) <= _ /\ _ =>
        assert (Hlen : (List.length v <= 13)%nat)
    end.
    { rewrite !length_app. simpl.
      destruct (ro_store_dist (ga_radius_opts args)); simpl; lia. }
    split; [lia|]. apply to_int_of_short_length. lia.
  - apply unified_encoder_counts_slots.
Qed.

Lemma geo_values_loop_tracked (values : list zval) :
  (List.length (snd (geo_values_loop values)) <= List.length values)%nat.
Proof.
  induction values as [|v r IH]; simpl; [lia|].
  destruct (geo_values_loop r) as [out allocated].
  destruct (zval_to_string_safe v) as [[str_val str_len] need_free].
  simpl in *. destruct need_free, str_val; simpl; lia.
Qed.

Lemma geo_values_prefix_tracked (values : list zval) (count : Z) :
  0 < count ->
  Z.of_nat (List.length (snd (geo_values_loop (firstn (Z.to_nat count) values)))) <= count.
Proof.
  intros H. pose proof (geo_values_loop_tracked (firstn (Z.to_nat count) values)) as Hl.
  rewrite length_firstn in Hl. lia.
Qed.

(** X17.  The strings a geo encoder hands back for release never outnumber
    the entries of the array the framework allocated to hold them: one
    entry per value for GEOADD and per member for GEOHASH and GEOPOS, 10
    entries for GEOSEARCH and GEOSEARCHSTORE (at most 4 are used), 15 for
    the unified entry point (at most 5 are used); GEODIST tracks none. *)
Theorem geo_encoders_track_within_capacity :
  forall (args : geo_command_args_t) (params : geo_search_params_t)
         (is_store_variant : bool),
    Z.of_nat (List.length (p_allocated (prepare_geo_add_args args)))
    <= Z.max 0 (ga_geo_args_count args)
    /\ Z.of_nat (List.length (p_allocated (prepare_geo_members_args args)))
       <= Z.max 0 (ga_member_count args)
    /\ p_allocated (prepare_geo_dist_args args) = []
    /\ Z.of_nat (List.length (p_allocated (prepare_geo_search_args args))) <= 4
    /\ Z.of_nat (List.length (p_allocated (prepare_geo_search_store_args args))) <= 4
    /\ Z.of_nat (List.length
                   (p_allocated (prepare_geo_search_unified_args params is_store_variant)))
       <= 5.
Proof.
  intros args params is_store_variant.
  repeat match goal with |- _ /\ _ => split end.
  - unfold prepare_geo_add_args.
    destruct (ga_key args), (ga_geo_args args) as [geo_args|]; try (simpl; lia).
    destruct ((ga_geo_args_count args <? 3)
              || negb (Z.rem (ga_geo_args_count args) 3 =? 0)) eqn:E; [simpl; lia|].
    apply orb_false_elim in E. destruct E as [E _]. apply Z.ltb_ge in E.
    pose proof (@geo_values_prefix_tracked geo_args (ga_geo_args_count args)) as H.
    destruct (geo_values_loop (firstn (Z.to_nat (ga_geo_args_count args)) geo_args)).
    cbn [p_allocated snd] in *. lia.
  - unfold prepare_geo_members_args.
    destruct (ga_key args), (ga_members args) as [members|]; try (simpl; lia).
    destruct (ga_member_count args <=? 0) eqn:E; [simpl; lia|].
    apply Z.leb_gt in E.
    pose proof (@geo_values_prefix_tracked members (ga_member_count args)) as H.
    destruct (geo_values_loop (firstn (Z.to_nat (ga_member_count args)) members)).
    cbn [p_allocated snd] in *. lia.
  - unfold prepare_geo_dist_args.
    destruct (ga_key args), (ga_src_member args), (ga_dst_member args); reflexivity.
  - unfold prepare_geo_search_args.
    destruct (ga_key args), (ga_from args), (ga_by_radius args), (ga_unit args);
      try (simpl; lia).
    destruct (geo_from_part false z) as [[from_args from_alloc]|] eqn:Ef; [|simpl; lia].
    destruct (double_to_string f) as [radius_str radius_len].
    destruct (geo_count_part (ga_radius_opts args)) as [[count_args count_alloc]|] eqn:Ec;
      [|simpl; lia].
    apply geo_from_part_bound in Ef. apply geo_count_part_bound in Ec.
    pose proof (alloc_of_length radius_str).
    cbn [p_allocated]. rewrite !length_app. lia.
  - unfold prepare_geo_search_store_args.
    destruct (ga_dest args), (ga_src args), (ga_from args); try (simpl; lia).
    destruct (ga_by_radius args), (ga_unit args); try (simpl; lia).
    destruct (geo_from_part true z) as [[from_args from_alloc]|] eqn:Ef; [|simpl; lia].
    destruct (double_to_string f) as [radius_str radius_len].
    destruct radius_str as [radius|]; [|simpl; lia].
    destruct (geo_count_part (ga_radius_opts args)) as [[count_args count_alloc]|] eqn:Ec;
      [|simpl; lia].
    apply geo_from_part_bound in Ef. apply geo_count_part_bound in Ec.
    cbn [p_allocated]. rewrite !length_app. simpl. lia.
  - unfold prepare_geo_search_unified_args.
    destruct (gp_is_from_member params).
    + destruct (gp_is_by_radius params).
      * destruct (double_to_string (gp_radius params)) as [rs rl].
        destruct rs; [|simpl; lia].
        destruct (geo_count_part (gp_options params)) as [[ca cl]|] eqn:Ec; [|simpl; lia].
        apply geo_count_part_bound in Ec. cbn [p_allocated]. rewrite !length_app.
        simpl. lia.
      * destruct (two_doubles (gp_width params) (gp_height params)) as [[l a]|] eqn:Eb;
          [|simpl; lia].
        apply two_doubles_bound in Eb.
        destruct (geo_count_part (gp_options params)) as [[ca cl]|] eqn:Ec; [|simpl; lia].
        apply geo_count_part_bound in Ec. cbn [p_allocated]. rewrite !length_app.
        simpl. lia.
    + destruct (two_doubles (gp_longitude params) (gp_latitude params)) as [[fl fa]|] eqn:Ef;
        [|simpl; lia].
      apply two_doubles_bound in Ef.
      destruct (gp_is_by_radius params).
      * destruct (double_to_string (gp_radius params)) as [rs rl].
        destruct rs; [|simpl; lia].
        destruct (geo_count_part (gp_options params)) as [[ca cl]|] eqn:Ec; [|simpl; lia].
        apply geo_count_part_bound in Ec. cbn [p_allocated]. rewrite !length_app.
        simpl. lia.
      * destruct (two_doubles (gp_width params) (gp_height params)) as [[l a]|] eqn:Eb;
          [|simpl; lia].
        apply two_doubles_bound in Eb.
        destruct (geo_count_part (gp_options params)) as [[ca cl]|] eqn:Ec; [|simpl; lia].
        apply geo_count_part_bound in Ec. cbn [p_allocated]. rewrite !length_app.
        simpl. lia.
Qed.

(** X18.  The unified geo-search encoder fails exactly when a number it
    has to format comes back without a string: the longitude or latitude
    of a FROMLONLAT position, the radius, the width or height of a box,
    or a positive count.  It then gives up its vector and returns 0;
    otherwise it returns a positive count. *)
Theorem unified_encoder_fails_on_unformattable_numbers_only :
  forall (params : geo_search_params_t) (is_store_variant : bool),
    let p := prepare_geo_search_unified_args params is_store_variant in
    if numbers_format params then 0 < p_arg_count p else p = released.
Proof.
  intros params is_store_variant p.
  pose proof (unified_encoder_counts_slots params is_store_variant) as (Hlen & Hcount).
  fold p in Hlen, Hcount. subst p.
  unfold numbers_format, formats.
  unfold prepare_geo_search_unified_args, two_doubles, geo_count_part in *.
  destruct (gp_is_from_member params), (gp_is_by_radius params);
    repeat match goal with
           | |- context [double_to_string ?d] =>
               destruct (double_to_string d) as [[?|] ?]
           end;
    destruct (0 <? ro_count (gp_options params));
    try destruct (long_to_string (ro_count (gp_options params))) as [[?|] ?];
    cbn [fst is_some andb orb negb]; try reflexivity;
    rewrite Hcount; unfold args_of; cbn [p_args];
    rewrite ?length_app; cbn [List.length]; destruct is_store_variant;
    cbn [List.length]; lia.
Qed.

End GeoEncoderProperties.

(* --------------------------------------------------------------------- *)
(** *** Geo decoders *)

Section GeoDecoderProperties.

Context {RT : Runtime}.

(** X19.  GEOHASH decoding keeps positions.  A reply that carries for each
    requested member its hash or a Null decodes, with success, to a list
    with one entry per member, entry [i] being the hash of member [i] or
    null.  An element of any other type is dropped, so that in general
    the list is at most as long as the reply; and anything but an array
    decodes, with failure, to the empty list. *)
Theorem geohash_decoding_keeps_positions :
  forall (members : list (option string)) (elements : list CommandResponse) (rv : zval),
    (exists ht,
        process_geo_hash_result_async (Some (Response.Array (map wire_hash members))) rv
        = (1, IS_ARRAY ht)
        /\ zend_hash_num_elements ht = Z.of_nat (List.length members)
        /\ forall i,
            zend_hash_index_find ht (Z.of_nat i)
            = option_map hash_value (nth_error members i))
    /\ (exists ht,
           process_geo_hash_result_async (Some (Response.Array elements)) rv
           = (1, IS_ARRAY ht)
           /\ zend_hash_num_elements ht <= Z.of_nat (List.length elements))
    /\ (forall r, (forall l, r <> Some (Response.Array l)) ->
                  process_geo_hash_result_async r rv = (0, IS_ARRAY [])).
Proof.
  intros members elements rv.
  set (g := fun element : CommandResponse =>
              match element with
              | Response.String s => [IS_STRING s]
              | Response.Null => [IS_NULL]
              | _ => []
              end).
  assert (Hfold : forall l,
             process_geo_hash_result_async (Some (Response.Array l)) rv
             = (1, IS_ARRAY (indexed (flat_map g l)))).
  { intros l. unfold process_geo_hash_result_async, indexed. do 2 f_equal.
    apply fold_left_flat_map. intros ht x. destruct x; reflexivity. }
  split; [|split].
  - eexists. split; [apply Hfold|].
    assert (Hg : flat_map g (map wire_hash members) = map hash_value members).
    { induction members as [|m r IH]; [reflexivity|].
      simpl. rewrite IH. destruct m; reflexivity. }
    rewrite Hg. split.
    + unfold zend_hash_num_elements. rewrite indexed_length, length_map. reflexivity.
    + intros i. rewrite indexed_lookup. apply nth_error_map.
  - eexists. split; [apply Hfold|].
    unfold zend_hash_num_elements. rewrite indexed_length.
    apply inj_le. induction elements as [|e r IH]; [simpl; lia|].
    simpl. rewrite length_app. destruct e; simpl; lia.
  - intros r H. destruct r as [r|]; [|reflexivity].
    destruct r; try reflexivity. exfalso. apply (H array_value). reflexivity.
Qed.

(** X20.  GEOPOS decoding keeps positions.  A reply that carries for each
    requested member its longitude and latitude (as doubles or as text)
    or a Null decodes, with success, to a list with one entry per member,
    entry [i] being the pair [longitude, latitude] of member [i] as
    doubles, or null.  An element that is neither a pair nor Null is
    dropped, so that in general the list is at most as long as the reply;
    and anything but an array decodes, with failure, to the empty list. *)
Theorem geopos_decoding_keeps_positions :
  forall (members : list (option (wire_number * wire_number)))
         (elements : list CommandResponse) (rv : zval),
    (exists ht,
        process_geo_pos_result_async
          (Some (Response.Array (map wire_position members))) rv
        = (1, IS_ARRAY ht)
        /\ zend_hash_num_elements ht = Z.of_nat (List.length members)
        /\ forall i,
            zend_hash_index_find ht (Z.of_nat i)
            = option_map position_value (nth_error members i))
    /\ (exists ht,
           process_geo_pos_result_async (Some (Response.Array elements)) rv
           = (1, IS_ARRAY ht)
           /\ zend_hash_num_elements ht <= Z.of_nat (List.length elements))
    /\ (forall r, (forall l, r <> Some (Response.Array l)) ->
                  process_geo_pos_result_async r rv = (0, IS_ARRAY [])).
Proof.
  intros members elements rv.
  set (g := fun element : CommandResponse =>
              match element with
              | Response.Array [lon; lat] =>
                  [IS_ARRAY (add_coordinate (add_coordinate [] lon) lat)]
              | Response.Null => [IS_NULL]
              | _ => []
              end).
  assert (Hfold : forall l,
             process_geo_pos_result_async (Some (Response.Array l)) rv
             = (1, IS_ARRAY (indexed (flat_map g l)))).
  { intros l. unfold process_geo_pos_result_async, indexed. do 2 f_equal.
    apply fold_left_flat_map. intros ht x. destruct x; try reflexivity.
    destruct array_value as [|lon [|lat [|]]]; reflexivity. }
  split; [|split].
  - eexists. split; [apply Hfold|].
    assert (Hg : flat_map g (map wire_position members) = map position_value members).
    { induction members as [|m r IH]; [reflexivity|].
      simpl. rewrite IH. destruct m as [[lon lat]|]; [|reflexivity].
      destruct lon, lat; reflexivity. }
    rewrite Hg. split.
    + unfold zend_hash_num_elements. rewrite indexed_length, length_map. reflexivity.
    + intros i. rewrite indexed_lookup. apply nth_error_map.
  - eexists. split; [apply Hfold|].
    unfold zend_hash_num_elements. rewrite indexed_length.
    apply inj_le. induction elements as [|e r IH]; [simpl; lia|].
    simpl. rewrite length_app. destruct e; simpl; try lia.
    destruct array_value as [|lon [|lat [|]]]; simpl; lia.
  - intros r H. destruct r as [r|]; [|reflexivity].
    destruct r; try reflexivity. exfalso. apply (H array_value). reflexivity.
Qed.

(** X21.  With a WITH flag requested, the geo-search decoder reads the
    second entry of every element that starts with a name, without
    looking at the element's length: decoding an array reply stays
    within the reply exactly when no element is a name alone. *)
Theorem geo_search_decoder_needs_a_field_list :
  forall (w : search_data_t) (elements : list CommandResponse) (rv : zval),
    any_flag w = true ->
    (process_geo_search_result_async (Some (Response.Array elements)) (Some w) rv
     <> None
     <-> forallb (fun e => negb (is_lone_name e)) elements = true).
Proof.
  intros w elements rv Hw. unfold process_geo_search_result_async.
  replace (negb (withcoord w) && negb (withdist w) && negb (withhash w)) with false
    by (unfold any_flag in Hw; destruct (withcoord w), (withdist w), (withhash w);
        (reflexivity || discriminate)).
  assert (Hnone : forall l, fold_left (geo_search_element w) l None = None).
  { induction l as [|e r IH]; [reflexivity|exact IH]. }
  assert (H : forall l acc,
             fold_left (geo_search_element w) l (Some acc) <> None
             <-> forallb (fun e => negb (is_lone_name e)) l = true).
  { induction l as [|e r IH]; intros acc.
    - simpl. split; [reflexivity|discriminate].
    - simpl fold_left. simpl forallb.
      destruct e; try (cbn; apply IH).
      destruct array_value as [|name rest]; [cbn; apply IH|].
      destruct name; try (cbn; destruct rest; apply IH).
      destruct rest as [|inner rest].
      + cbn. rewrite Hnone.
        split; intros Hx; [exfalso; apply Hx; reflexivity|inversion Hx].
      + cbn. apply IH. }
  specialize (H elements []). revert H. unfold HashTable.
  match goal with
  | |- context [match ?f with Some _ => _ | None => _ end] => destruct f as [ht|]
  end.
  - intros H. split; [intros _; apply H; discriminate|intros _; discriminate].
  - intros H. split; [intros Hx; exfalso; apply Hx; reflexivity|].
    intros Hall. apply H in Hall. exfalso. apply Hall. reflexivity.
Qed.

End GeoDecoderProperties.

(* --------------------------------------------------------------------- *)
(** *** Geo entry points *)

Section GeoEntryProperties.

Context {RT : Runtime}.

Lemma geo_framework_on_error (valkey_glide : valkey_glide_object) (cmd : RequestType)
    (args : geo_command_args_t) (result_ptr : result_ptr_t)
    (process_result : z_result_processor_t) (rv : zval) :
  is_in_batch_mode valkey_glide = false ->
  (forall cmd n a r, execute_command cmd n a = Some r -> command_error r <> None) ->
  exists evs,
    execute_geo_generic_command valkey_glide cmd args result_ptr process_result rv
    = Some (failed rv evs)
    /\ (List.length (engine_calls evs) <= 1)%nat.
Proof.
  intros Hb He. unfold execute_geo_generic_command.
  destruct (prepare_geo_args cmd args) as [p|];
    [|exists []; split; [reflexivity|simpl; lia]].
  destruct (p_arg_count p <=? 0); [exists []; split; [reflexivity|simpl; lia]|].
  rewrite Hb.
  destruct (execute_command cmd (p_arg_count p) (args_of p)) as [result|] eqn:E;
    [|eexists; split; [reflexivity|simpl; lia]].
  destruct (command_error result) eqn:Ee;
    [eexists; split; [reflexivity|simpl; lia]|].
  exfalso. apply (He _ _ _ _ E Ee).
Qed.

(** X22.  A geo command outside batch mode never decodes a reply the
    engine flagged as an error: whenever the engine sets the error of
    its result, GEOADD, GEODIST, GEOHASH, GEOPOS, GEOSEARCH and
    GEOSEARCHSTORE return 0 and leave the output value untouched, after
    at most one engine call. *)
Theorem geo_error_reply_is_not_decoded :
  forall (valkey_glide : valkey_glide_object) (object : zval) (c : call) (rv : zval),
    is_geo_call c = true ->
    is_in_batch_mode valkey_glide = false ->
    (forall cmd n a r, execute_command cmd n a = Some r -> command_error r <> None) ->
    exists o,
      invoke valkey_glide object c rv = Some o
      /\ ret o = 0
      /\ return_value o = rv
      /\ (List.length (engine_calls (events o)) <= 1)%nat.
Proof.
  intros valkey_glide object c rv Hg Hb He.
  destruct c; try discriminate; cbn [invoke].
  - unfold execute_geoadd_command.
    destruct ((Z.of_nat (List.length z_args) <? 3)
              || negb (Z.rem (Z.of_nat (List.length z_args)) 3 =? 0));
      [eexists; split; [reflexivity|repeat split; simpl; lia]|].
    destruct (glide_client valkey_glide);
      [|eexists; split; [reflexivity|repeat split; simpl; lia]].
    match goal with
    | |- context [execute_geo_generic_command ?v ?c ?a ?p ?f ?r] =>
        destruct (@geo_framework_on_error v c a p f r Hb He) as (evs & -> & Hl)
    end.
    unfold return_handle_in_batch. rewrite Hb.
    eexists; split; [reflexivity|repeat split; exact Hl].
  - unfold execute_geodist_command.
    destruct (glide_client valkey_glide);
      [|eexists; split; [reflexivity|repeat split; simpl; lia]].
    match goal with
    | |- context [execute_geo_generic_command ?v ?c ?a ?p ?f ?r] =>
        destruct (@geo_framework_on_error v c a p f r Hb He) as (evs & -> & Hl)
    end.
    unfold return_handle_in_batch. rewrite Hb.
    eexists; split; [reflexivity|repeat split; exact Hl].
  - unfold execute_geohash_command, execute_geo_members.
    destruct (Z.of_nat (List.length members) <? 1);
      [eexists; split; [reflexivity|repeat split; simpl; lia]|].
    destruct (glide_client valkey_glide);
      [|eexists; split; [reflexivity|repeat split; simpl; lia]].
    match goal with
    | |- context [execute_geo_generic_command ?v ?c ?a ?p ?f ?r] =>
        destruct (@geo_framework_on_error v c a p f r Hb He) as (evs & -> & Hl)
    end.
    unfold return_handle_in_batch. rewrite Hb.
    eexists; split; [reflexivity|repeat split; exact Hl].
  - unfold execute_geopos_command, execute_geo_members.
    destruct (Z.of_nat (List.length members) <? 1);
      [eexists; split; [reflexivity|repeat split; simpl; lia]|].
    destruct (glide_client valkey_glide);
      [|eexists; split; [reflexivity|repeat split; simpl; lia]].
    match goal with
    | |- context [execute_geo_generic_command ?v ?c ?a ?p ?f ?r] =>
        destruct (@geo_framework_on_error v c a p f r Hb He) as (evs & -> & Hl)
    end.
    unfold return_handle_in_batch. rewrite Hb.
    eexists; split; [reflexivity|repeat split; exact Hl].
  - unfold execute_geosearch_command, execute_geosearch_unified.
    pose proof (@parse_geosearch_warns_only RT c false) as Hw.
    destruct (parse_geosearch_parameters c false) as [[params|] warnings].
    + destruct (glide_client valkey_glide);
        [|eexists; split; [reflexivity|repeat split; simpl; lia]].
      destruct (p_arg_count _ <=? 0);
        [eexists; split; [reflexivity|repeat split; simpl; lia]|].
      rewrite Hb.
      destruct (execute_command _ _ _) as [result|] eqn:E;
        [|eexists; split; [reflexivity|repeat split; simpl; lia]].
      destruct (command_error result) eqn:Ee;
        [eexists; split; [reflexivity|repeat split; simpl; lia]|].
      exfalso. apply (He _ _ _ _ E Ee).
    + eexists; split; [reflexivity|repeat split].
      cbn [failed events]. cbn [snd] in Hw.
      replace (engine_calls warnings) with (@nil event); [simpl; lia|].
      symmetry. unfold engine_calls.
      induction warnings as [|w ws IH]; [reflexivity|].
      destruct (Hw w (or_introl eq_refl)) as (msg & ->). cbn.
      apply IH. intros x Hx. apply Hw. right. exact Hx.
  - unfold execute_geosearchstore_command, execute_geosearch_unified.
    pose proof (@parse_geosearch_warns_only RT c true) as Hw.
    destruct (parse_geosearch_parameters c true) as [[params|] warnings].
    + destruct (glide_client valkey_glide);
        [|eexists; split; [reflexivity|repeat split; simpl; lia]].
      destruct (p_arg_count _ <=? 0);
        [eexists; split; [reflexivity|repeat split; simpl; lia]|].
      rewrite Hb.
      destruct (execute_command _ _ _) as [result|] eqn:E;
        [|eexists; split; [reflexivity|repeat split; simpl; lia]].
      destruct (command_error result) eqn:Ee;
        [eexists; split; [reflexivity|repeat split; simpl; lia]|].
      exfalso. apply (He _ _ _ _ E Ee).
    + eexists; split; [reflexivity|repeat split].
      cbn [failed events]. cbn [snd] in Hw.
      replace (engine_calls warnings) with (@nil event); [simpl; lia|].
      symmetry. unfold engine_calls.
      induction warnings as [|w ws IH]; [reflexivity|].
      destruct (Hw w (or_introl eq_refl)) as (msg & ->). cbn.
      apply IH. intros x Hx. apply Hw. right. exact Hx.
Qed.

(** X23.  GEOADD, GEODIST, GEOHASH and GEOPOS on a client in batch mode,
    once their arity check has passed: the call reports success and
    returns the client object itself whatever the batch buffer answered,
    also when the buffer refused the entry; it makes no engine call and
    enqueues at most one entry. *)
Theorem geo_batch_calls_always_report_success :
  forall (valkey_glide : valkey_glide_object) (object : zval) (client : Z) (c : call)
         (rv : zval),
    glide_client valkey_glide = Some client ->
    is_in_batch_mode valkey_glide = true ->
    is_geo_handle_call c = true ->
    exists o,
      invoke valkey_glide object c rv = Some o
      /\ ret o = 1
      /\ return_value o = object
      /\ engine_calls (events o) = []
      /\ (List.length (enqueued (events o)) <= 1)%nat.
Proof.
  intros valkey_glide object client c rv Hc Hb Hok.
  assert (Hframe : forall cmd args ptr f,
             exists o,
               return_handle_in_batch valkey_glide object
                 (execute_geo_generic_command valkey_glide cmd args ptr f rv) = Some o
               /\ ret o = 1 /\ return_value o = object
               /\ engine_calls (events o) = []
               /\ (List.length (enqueued (events o)) <= 1)%nat).
  { intros cmd args ptr f. unfold execute_geo_generic_command, return_handle_in_batch.
    destruct (prepare_geo_args cmd args) as [p|];
      [|rewrite Hb; eexists; split; [reflexivity|repeat split; simpl; lia]].
    destruct (p_arg_count p <=? 0);
      rewrite Hb; eexists; (split; [reflexivity|repeat split; simpl; lia]). }
  destruct c; try discriminate; cbn [invoke]; cbn [is_geo_handle_call] in Hok.
  - unfold execute_geoadd_command.
    apply andb_prop in Hok. destruct Hok as [H3 Hr].
    replace (Z.of_nat (List.length z_args) <? 3) with false
      by (symmetry; apply Z.ltb_ge; apply Z.leb_le; exact H3).
    rewrite Hr, Hc. cbn [negb orb]. apply Hframe.
  - unfold execute_geodist_command. rewrite Hc. apply Hframe.
  - unfold execute_geohash_command, execute_geo_members.
    replace (Z.of_nat (List.length members) <? 1) with false
      by (symmetry; apply Z.ltb_ge; apply Z.leb_le; exact Hok).
    rewrite Hc. apply Hframe.
  - unfold execute_geopos_command, execute_geo_members.
    replace (Z.of_nat (List.length members) <? 1) with false
      by (symmetry; apply Z.ltb_ge; apply Z.leb_le; exact Hok).
    rewrite Hc. apply Hframe.
Qed.

(** X24.  GEOADD sends whole triplets only.  Given a client and a number
    of values after the key that fits an [int]: when that number is a
    positive multiple of 3, the call hands exactly one GeoAdd command to
    the engine (to the batch buffer in batch mode), with 1 + n arguments,
    the key first and then the string form of each value in order; in
    every other case it raises a warning and fails without any call,
    with the output value untouched, also in batch mode. *)
Theorem geoadd_sends_whole_triplets_only :
  forall (valkey_glide : valkey_glide_object) (object : zval) (client : Z)
         (key : string) (z_args : list zval) (rv : zval),
    glide_client valkey_glide = Some client ->
    Z.of_nat (List.length z_args) < INT_MAX ->
    let n := Z.of_nat (List.length z_args) in
    let vector := arg_of key :: map geo_string_form z_args in
    let r := execute_geoadd_command valkey_glide object key z_args rv in
    if (3 <=? n) && (Z.rem n 3 =? 0)
    then
      exists o,
        r = Some o
        /\ if is_in_batch_mode valkey_glide
           then events o
                = [EvBufferCommandForBatch
                     {| be_cmd_type := GeoAdd; be_args := vector;
                        be_arg_count := 1 + n; be_result_ptr := PtrNull;
                        be_process_result := process_geo_int_result_async_fn |}]
           else events o = [EvExecuteCommand GeoAdd (1 + n) vector]
    else
      r = Some (failed rv
                  [EvWarning
                     "geoadd requires at least one longitude/latitude/member triplet"]).
Proof.
  intros valkey_glide object client key z_args rv Hc Hfit n vector r. subst r.
  unfold execute_geoadd_command. fold n.
  destruct (3 <=? n) eqn:E3.
  - apply Z.leb_le in E3.
    replace (n <? 3) with false by (symmetry; apply Z.ltb_ge; exact E3).
    cbn [andb orb]. destruct (Z.rem n 3 =? 0) eqn:Er; cbn [negb]; [|reflexivity].
    rewrite Hc. unfold execute_geo_generic_command. cbn [prepare_geo_args].
    unfold prepare_geo_add_args. cbn [ga_key ga_geo_args ga_geo_args_count ga_key_len].
    replace (n <? 3) with false by (symmetry; apply Z.ltb_ge; exact E3).
    rewrite Er. cbn [negb orb]. subst n. rewrite firstn_of_length.
    pose proof (geo_values_loop_slots z_args) as Hs.
    destruct (geo_values_loop z_args) as [out allocated]. cbn [fst] in Hs. subst out.
    rewrite to_int_small by (unfold INT_MAX in *; lia).
    cbn [p_arg_count args_of p_args].
    replace (1 + Z.of_nat (List.length z_args) <=? 0) with false
      by (symmetry; apply Z.leb_gt; lia).
    unfold return_handle_in_batch.
    destruct (is_in_batch_mode valkey_glide).
    + eexists. split; reflexivity.
    + destruct (execute_command _ _ _) as [result|];
        [|eexists; split; reflexivity].
      destruct (command_error result); [eexists; split; reflexivity|].
      cbn [call_geo_result_processor].
      destruct (process_geo_int_result_async (response result) rv).
      eexists. split; reflexivity.
  - apply Z.leb_gt in E3.
    replace (n <? 3) with true by (symmetry; apply Z.ltb_lt; exact E3).
    reflexivity.
Qed.

(** X25.  GEOSEARCH and GEOSEARCHSTORE take a position that is a member
    name or a two-element array [longitude, latitude], and a shape that
    is a number or a two-element array [width, height].  With both
    accepted the parameters parse without a warning, the position giving
    FROMMEMBER or FROMLONLAT and the shape BYRADIUS or BYBOX; otherwise
    the call raises exactly one warning and fails with the output value
    untouched, making no call, in batch mode as outside it and with or
    without a client. *)
Theorem geosearch_position_and_shape :
  forall (c : geosearch_call) (is_store_variant : bool),
    let r := parse_geosearch_parameters c is_store_variant in
    (position_accepted (gs_position c) && shape_accepted (gs_shape c) = true ->
     exists params,
       r = (Some params, [])
       /\ gp_is_from_member params = is_string (gs_position c)
       /\ gp_is_by_radius params
          = match gs_shape c with IS_ARRAY _ => false | _ => true end)
    /\ (position_accepted (gs_position c) && shape_accepted (gs_shape c) = false ->
        exists msg,
          r = (None, [EvWarning msg])
          /\ forall valkey_glide object rv,
              execute_geosearch_unified valkey_glide object c is_store_variant rv
              = Some (failed rv [EvWarning msg])).
Proof.
  intros c is_store_variant r. subst r.
  unfold execute_geosearch_unified, parse_geosearch_parameters, position_accepted,
    shape_accepted, is_pair.
  destruct (gs_position c) as [| | | | |member|pos_ht|];
    try (split; [discriminate|intros _; eexists; split; [reflexivity|reflexivity]]).
  - destruct (gs_shape c) as [| | |radius|radius| |shape_ht|];
      try (split; [discriminate|intros _; eexists; split; [reflexivity|reflexivity]]);
      try (split; [intros _; eexists; repeat split|discriminate]).
    destruct (zend_hash_num_elements shape_ht =? 2);
      [|split; [discriminate|intros _; eexists; split; [reflexivity|reflexivity]]].
    destruct (zend_hash_index_find shape_ht 0), (zend_hash_index_find shape_ht 1);
      try (split; [discriminate|intros _; eexists; split; [reflexivity|reflexivity]]).
    split; [intros _; eexists; repeat split|discriminate].
  - destruct (zend_hash_num_elements pos_ht =? 2);
      [|split; [discriminate|intros _; eexists; split; [reflexivity|reflexivity]]].
    destruct (zend_hash_index_find pos_ht 0), (zend_hash_index_find pos_ht 1);
      try (split; [discriminate|intros _; eexists; split; [reflexivity|reflexivity]]).
    destruct (gs_shape c) as [| | |radius|radius| |shape_ht|];
      try (split; [discriminate|intros _; eexists; split; [reflexivity|reflexivity]]);
      try (split; [intros _; eexists; repeat split|discriminate]).
    destruct (zend_hash_num_elements shape_ht =? 2);
      [|split; [discriminate|intros _; eexists; split; [reflexivity|reflexivity]]].
    destruct (zend_hash_index_find shape_ht 0), (zend_hash_index_find shape_ht 1);
      try (split; [discriminate|intros _; eexists; split; [reflexivity|reflexivity]]).
    split; [intros _; eexists; repeat split|discriminate].
Qed.

Lemma flag_option_keeps_store_dist (o : geo_radius_options_t) (opt : zval) :
  ro_store_dist (geosearch_flag_option o opt) = ro_store_dist o.
Proof.
  unfold geosearch_flag_option. destruct opt; try reflexivity.
  repeat match goal with |- context [if ?b then _ else _] => destruct b end;
    reflexivity.
Qed.

Lemma flag_options_keep_store_dist (l : list zval) (o : geo_radius_options_t) :
  ro_store_dist (fold_left geosearch_flag_option l o) = ro_store_dist o.
Proof.
  revert o. induction l as [|x r IH]; intros o; [reflexivity|].
  simpl. rewrite IH. apply flag_option_keeps_store_dist.
Qed.

(** X26.  The options of one variant do not leak into the other: the
    WITHCOORD, WITHDIST and WITHHASH flags change nothing in a
    GEOSEARCHSTORE request, the store-distance flag changes nothing in a
    GEOSEARCH request (whose options never set it, whatever the array
    holds under "storedist"), and ANY changes nothing in either request
    unless a positive count goes with it. *)
Theorem geosearch_options_do_not_cross :
  forall (params : geo_search_params_t) (o : geo_radius_options_t),
    (forall w,
        prepare_geo_search_unified_args (set_options params (set_with_opts o w)) true
        = prepare_geo_search_unified_args (set_options params o) true)
    /\ (forall b,
           prepare_geo_search_unified_args (set_options params (set_store_dist o b)) false
           = prepare_geo_search_unified_args (set_options params o) false)
    /\ (ro_count o <= 0 ->
        forall is_store_variant,
          prepare_geo_search_unified_args (set_options params (set_any o))
            is_store_variant
          = prepare_geo_search_unified_args (set_options params o) is_store_variant)
    /\ (forall ht, ro_store_dist (parse_geosearch_options ht false) = false).
Proof.
  intros params o. split; [|split; [|split]].
  - intros w. reflexivity.
  - intros b. reflexivity.
  - intros Hc is_store_variant.
    unfold prepare_geo_search_unified_args, geo_count_part.
    cbn [gp_options set_options set_any ro_count ro_any ro_sort ro_sort_len
         ro_with_opts ro_store_dist gp_key gp_key_len gp_src_key gp_src_key_len
         gp_unit gp_unit_len gp_is_from_member gp_member gp_member_len gp_longitude
         gp_latitude gp_is_by_radius gp_radius gp_width gp_height].
    replace (0 <? ro_count o) with false by (symmetry; apply Z.ltb_ge; exact Hc).
    reflexivity.
  - intros ht. unfold parse_geosearch_options.
    each_case;
      cbn [ro_store_dist set_count set_any set_sort];
      apply flag_options_keep_store_dist.
Qed.

Lemma word_differs (s a b : string) :
  string_lower (cstr a) <> string_lower (cstr b) ->
  strcasecmp_eq s a = true -> strcasecmp_eq s b = false.
Proof.
  unfold strcasecmp_eq. intros Hne Ha. apply String.eqb_eq in Ha.
  apply String.eqb_neq. congruence.
Qed.

Lemma flag_option_with (o : geo_radius_options_t) (opt : zval) :
  let w := ro_with_opts o in
  let w' := ro_with_opts (geosearch_flag_option o opt) in
  let said word :=
    match opt with IS_STRING s => strcasecmp_eq s word | _ => false end in
  wo_withcoord w' = wo_withcoord w || said "withcoord"
  /\ wo_withdist w' = wo_withdist w || said "withdist"
  /\ wo_withhash w' = wo_withhash w || said "withhash".
Proof.
  cbv zeta. unfold geosearch_flag_option.
  destruct opt; try (rewrite !orb_false_r; repeat split; reflexivity).
  destruct (strcasecmp_eq str "withcoord") eqn:E1.
  { rewrite (@word_differs str "withcoord" "withdist") by (discriminate || exact E1).
    rewrite (@word_differs str "withcoord" "withhash") by (discriminate || exact E1).
    cbn. rewrite !orb_false_r, orb_true_r. repeat split; reflexivity. }
  destruct (strcasecmp_eq str "withdist") eqn:E2.
  { rewrite (@word_differs str "withdist" "withhash") by (discriminate || exact E2).
    cbn. rewrite !orb_false_r, orb_true_r. repeat split; reflexivity. }
  destruct (strcasecmp_eq str "withhash") eqn:E3.
  { cbn. rewrite !orb_false_r, orb_true_r. repeat split; reflexivity. }
  destruct (strcasecmp_eq str "asc"), (strcasecmp_eq str "desc");
    cbn; rewrite !orb_false_r; repeat split; reflexivity.
Qed.

Lemma flag_options_with (l : list zval) (o : geo_radius_options_t) (word : string)
    (flag : geo_with_options_t -> bool) :
  (forall o opt,
      flag (ro_with_opts (geosearch_flag_option o opt))
      = flag (ro_with_opts o)
        || match opt with IS_STRING s => strcasecmp_eq s word | _ => false end) ->
  flag (ro_with_opts (fold_left geosearch_flag_option l o)) = true
  <-> flag (ro_with_opts o) = true
      \/ exists s, In (IS_STRING s) l /\ strcasecmp_eq s word = true.
Proof.
  intros Hstep. revert o. induction l as [|x r IH]; intros o.
  - simpl. split; [auto|]. intros [H|(s & [] & _)]. exact H.
  - simpl fold_left. rewrite IH, Hstep. split.
    + intros [H|(s & Hin & Hs)].
      * apply orb_prop in H. destruct H as [H|H]; [left; exact H|].
        destruct x; try discriminate. right. exists str. split; [left; reflexivity|exact H].
      * right. exists s. split; [right; exact Hin|exact Hs].
    + intros [H|(s & [Hx|Hin] & Hs)].
      * left. rewrite H. reflexivity.
      * left. subst x. rewrite Hs. apply orb_true_r.
      * right. exists s. split; assumption.
Qed.

Lemma keyed_options_keep_with (ht : HashTable) (is_store_variant : bool) :
  ro_with_opts (parse_geosearch_options ht is_store_variant)
  = ro_with_opts (fold_left geosearch_flag_option (values_of ht) no_radius_options).
Proof.
  unfold parse_geosearch_options.
  each_case; reflexivity.
Qed.

(** X27.  The WITHCOORD, WITHDIST and WITHHASH flags of the options array
    are words among its values, read without regard to case, keys or
    order: a flag is set exactly when some value of the array is a
    string that equals the word in any case. *)
Theorem geosearch_flags_are_words_in_any_case :
  forall (ht : HashTable) (is_store_variant : bool),
    let w := ro_with_opts (parse_geosearch_options ht is_store_variant) in
    (wo_withcoord w = true <-> has_word ht "withcoord")
    /\ (wo_withdist w = true <-> has_word ht "withdist")
    /\ (wo_withhash w = true <-> has_word ht "withhash").
Proof.
  intros ht is_store_variant w. subst w. rewrite keyed_options_keep_with.
  unfold has_word.
  assert (Hoff : forall P : Prop, (false = true \/ P) <-> P)
    by (intros P; split; [intros [H|H]; [discriminate|exact H]|auto]).
  split; [|split].
  - rewrite (@flag_options_with (values_of ht) no_radius_options "withcoord" wo_withcoord).
    + apply Hoff.
    + intros o opt. apply (proj1 (flag_option_with o opt)).
  - rewrite (@flag_options_with (values_of ht) no_radius_options "withdist" wo_withdist).
    + apply Hoff.
    + intros o opt. apply (proj1 (proj2 (flag_option_with o opt))).
  - rewrite (@flag_options_with (values_of ht) no_radius_options "withhash" wo_withhash).
    + apply Hoff.
    + intros o opt. apply (proj2 (proj2 (flag_option_with o opt))).
Qed.

End GeoEntryProperties.

(* --------------------------------------------------------------------- *)
(** *** The further properties at work *)

Lemma convert_zval_to_string_args_tracks_copies_witness :
  Z.of_nat (List.length (fst (convert_zval_to_string_args (RT := example_runtime)
                                two_names 2))) = 2
  /\ snd (convert_zval_to_string_args (RT := example_runtime) two_names 2) = ["7"].
Proof.
  assert (H : 0 <= 2 <= Z.of_nat (List.length two_names)) by (simpl; lia).
  destruct (@convert_zval_to_string_args_tracks_copies example_runtime two_names 2 H)
    as (Hl & _ & Ht & _).
  split; [exact Hl|]. rewrite Ht. reflexivity.
Defined.

Lemma s_encoders_count_their_slots_witness :
  p_arg_count (prepare_s_key_members_args (RT := example_runtime) set_members_sample)
  = 3
  /\ List.length (args_of (prepare_s_key_members_args (RT := example_runtime)
                             set_members_sample)) = 3%nat.
Proof.
  assert (Hfit : counts_fit set_members_sample).
  { unfold counts_fit. simpl. repeat split; try discriminate; try reflexivity.
    intros l H. injection H as <-. simpl. lia. }
  destruct (@s_encoders_count_their_slots example_runtime S_CMD_KEY_MEMBERS
              set_members_sample _ Hfit eq_refl) as (_ & Hv).
  destruct (Hv _ eq_refl) as (_ & Hcount & _).
  split; [rewrite Hcount|]; reflexivity.
Defined.

Lemma empty_key_is_rejected_witness :
  exists o,
    invoke (RT := example_runtime) standalone_client this_object (CallSCard "") IS_NULL
    = Some o
    /\ ret o = 0 /\ events o = [].
Proof.
  destruct (@empty_key_is_rejected example_runtime standalone_client this_object
              (CallSCard "") IS_NULL eq_refl) as (o & Ho & Hret & Hevents & _).
  exists o. split; [exact Ho|split; [exact Hret|exact Hevents]].
Defined.

Lemma array_form_is_the_variadic_form_witness :
  execute_sinter_command (RT := example_runtime) standalone_client this_object
    (KeysArray two_keys) IS_NULL
  = execute_sinter_command (RT := example_runtime) standalone_client this_object
      (KeysVariadic [IS_STRING "a"; IS_STRING "b"]) IS_NULL
  /\ execute_sinterstore_command (RT := example_runtime) batching_client this_object
       (StoreArray [(KIdx 0, IS_STRING "a")]) IS_NULL
     = failed IS_NULL [].
Proof.
  destruct (@array_form_is_the_variadic_form example_runtime standalone_client
              this_object two_keys IS_NULL) as (Hsame & _).
  destruct (@array_form_is_the_variadic_form example_runtime batching_client
              this_object [(KIdx 0, IS_STRING "a")] IS_NULL) as (_ & _ & _ & Halone).
  split.
  - apply Hsame. simpl. lia.
  - apply Halone. left. reflexivity.
Defined.

Lemma sintercard_request_witness :
  engine_calls
    (events (execute_sintercard_command (RT := example_runtime) standalone_client
               this_object two_keys (Some 5) IS_NULL))
  = [EvExecuteCommand SInterCard 5
       [arg_of "2"; arg_of "a"; arg_of "b"; arg_of "LIMIT"; arg_of "5"]].
Proof.
  assert (Hne : two_keys <> []) by discriminate.
  assert (Hfit : Z.of_nat (List.length two_keys) < INT_MAX - 2) by reflexivity.
  exact (@sintercard_request example_runtime standalone_client this_object 1 two_keys
           (Some 5) IS_NULL eq_refl eq_refl Hne Hfit).
Defined.

Lemma pop_and_random_member_request_witness :
  engine_calls
    (events (execute_spop_command (RT := example_runtime) standalone_client this_object
               "pts" (Some 2) IS_NULL))
  = [EvExecuteCommand SPop 2 [arg_of "pts"; arg_of "2"]].
Proof.
  assert (Hne : "pts" <> "") by discriminate.
  exact (@pop_and_random_member_request example_runtime standalone_client this_object 1
           SPop "pts" (Some 2) IS_NULL eq_refl eq_refl Hne).
Defined.

Lemma scan_decoder_resets_on_malformed_reply_witness :
  is_scan_page (Some (Response.Int 5)) = false
  /\ caller_cursor
       (process_s_scan_result_async (RT := example_runtime) (Some (Response.Int 5))
          {| sd_cmd_type := Scan; sd_cursor := Some "3"; sd_scan_iter := true |} IS_NULL)
     = Some "0".
Proof.
  split; [reflexivity|].
  apply (@scan_decoder_resets_on_malformed_reply example_runtime
           (Some (Response.Int 5))
           {| sd_cmd_type := Scan; sd_cursor := Some "3"; sd_scan_iter := true |}
           IS_NULL eq_refl).
Defined.

Lemma scan_request_witness :
  option_map (fun r => engine_calls (events (fst r)))
    (execute_scan_command (RT := example_runtime) standalone_client
       this_object false 2 (IterZval IS_NULL) (Some "user:*") 10 None IS_NULL)
  = Some [EvExecuteCommand Scan 5
            [arg_of "0"; arg_of "MATCH"; arg_of "user:*"; arg_of "COUNT"; arg_of "10"]].
Proof.
  exact (@scan_request example_runtime standalone_client this_object 1 2 IS_NULL "0"
           (Some "user:*") 10 None IS_NULL eq_refl eq_refl eq_refl).
Defined.

Lemma keyed_scan_request_witness :
  engine_calls
    (events (fst (execute_scan_command_generic (RT := example_runtime) standalone_client
                    this_object 2 SScan "" (IS_STRING "0") None 0 IS_NULL)))
  = [EvExecuteCommand SScan 3 [arg_of "0"; arg_of "COUNT"; arg_of "10"]].
Proof.
  exact (@keyed_scan_request example_runtime standalone_client this_object 1 2 SScan ""
           (IS_STRING "0") "0" None 0 IS_NULL eq_refl eq_refl eq_refl).
Defined.

Lemma cluster_scan_arguments_shape_witness :
  fst (cluster_scan_arguments (Some "user:*") 6 10 true None 0 false) = 4.
Proof.
  destruct (@cluster_scan_arguments_shape (Some "user:*") 6 10 true None 0 false)
    as (_ & _ & Hv).
  destruct (Hv _ eq_refl) as (Hcount & _). exact Hcount.
Defined.

(** Against a core that gives no result the call fails and leaves the
    cursor object alone; against a core that answers with an error and no
    response the call is undefined; against the core that answers with
    its last page the call is defined. *)
Lemma cluster_scan_updates_cursor_on_success_only_witness :
  (exists o,
      execute_scan_command (RT := silent_runtime) standalone_client this_object
        true 1 fresh_cluster_cursor None 10 None IS_NULL = Some (o, IterUntouched)
      /\ ret o = 0)
  /\ execute_scan_command (RT := failing_core_runtime) standalone_client this_object
       true 1 fresh_cluster_cursor None 10 None IS_NULL = None
  /\ (exists r,
         execute_scan_command (RT := example_runtime) standalone_client this_object
           true 1 fresh_cluster_cursor None 10 None IS_NULL = Some r).
Proof.
  split; [|split].
  - destruct (@cluster_scan_updates_cursor_on_success_only silent_runtime
                standalone_client this_object 1
                {| getCursor := Some (IS_STRING "0"); next_cursor_id := None |}
                None 10 None IS_NULL) as (_ & _ & Hsilent & _).
    destruct (Hsilent (fun _ _ _ => eq_refl)) as (o & Hrun & Hret & _).
    exists o. split; [exact Hrun|exact Hret].
  - destruct (@cluster_scan_updates_cursor_on_success_only failing_core_runtime
                standalone_client this_object 1
                {| getCursor := Some (IS_STRING "0"); next_cursor_id := None |}
                None 10 None IS_NULL) as (_ & _ & _ & Hcore).
    apply (proj1 (Hcore 1 "0" eq_refl eq_refl)).
    intros n a. eexists. split; reflexivity.
  - destruct (@cluster_scan_updates_cursor_on_success_only example_runtime
                standalone_client this_object 1
                {| getCursor := Some (IS_STRING "0"); next_cursor_id := None |}
                None 10 None IS_NULL) as (_ & _ & _ & Hcore).
    apply (proj2 (Hcore 1 "0" eq_refl eq_refl)).
    intros n a result Hres. injection Hres as <-. reflexivity.
Defined.

Lemma set_framework_ignores_the_error_of_a_result_witness :
  execute_s_generic_command (RT := with_engine example_runtime (flagging example_engine))
    standalone_client SCard S_CMD_KEY_ONLY S_RESPONSE_INT set_members_sample IS_NULL
  = {| s_status := 1; s_return_value := IS_LONG 1; s_iter := None;
       s_events := [EvExecuteCommand SCard 1 [arg_of "pts"]] |}.
Proof.
  assert (H : forall c n a,
             option_map response (flagging example_engine c n a)
             = option_map response (example_engine c n a)).
  { intros c n a. unfold flagging. destruct (example_engine c n a); reflexivity. }
  rewrite (@set_framework_ignores_the_error_of_a_result example_runtime
             (flagging example_engine) example_engine standalone_client SCard
             S_CMD_KEY_ONLY S_RESPONSE_INT set_members_sample IS_NULL H).
  reflexivity.
Defined.

Lemma direct_mode_never_buffers_witness :
  exists o,
    invoke (RT := example_runtime) standalone_client this_object
      (CallSAdd "pts" two_names) IS_NULL = Some o
    /\ enqueued (events o) = []
    /\ (List.length (engine_calls (events o)) <= 1)%nat.
Proof.
  eexists. split; [reflexivity|].
  apply (@direct_mode_never_buffers example_runtime standalone_client this_object
           (CallSAdd "pts" two_names) IS_NULL _ eq_refl eq_refl).
Defined.

Lemma no_client_no_effect_witness :
  exists o,
    invoke (RT := example_runtime) clientless this_object (CallSAdd "pts" two_names)
      IS_NULL = Some o
    /\ ret o = 0 /\ return_value o = IS_NULL /\ events o = [].
Proof.
  destruct (@no_client_no_effect example_runtime clientless this_object
              (CallSAdd "pts" two_names) IS_NULL eq_refl) as (o & Ho & Hret & Hrv & _).
  exists o. split; [exact Ho|split; [exact Hret|split; [exact Hrv|]]].
  injection Ho as <-. reflexivity.
Defined.

Lemma geohash_decoding_keeps_positions_witness :
  (exists ht,
      process_geo_hash_result_async
        (Some (Response.Array [Response.String "sqc8b49rny0"; Response.Null])) IS_NULL
      = (1, IS_ARRAY ht)
      /\ zend_hash_index_find ht 0 = Some (IS_STRING "sqc8b49rny0")
      /\ zend_hash_index_find ht 1 = Some IS_NULL)
  /\ process_geo_hash_result_async (Some (Response.Int 5)) IS_NULL = (0, IS_ARRAY []).
Proof.
  destruct (@geohash_decoding_keeps_positions [Some "sqc8b49rny0"; None] [] IS_NULL)
    as ((ht & Hdecode & _ & Hlookup) & _ & Hother).
  split.
  - exists ht. split; [exact Hdecode|].
    split; [exact (Hlookup 0%nat)|exact (Hlookup 1%nat)].
  - apply Hother. intros l. discriminate.
Defined.

Lemma geopos_decoding_keeps_positions_witness :
  (exists ht,
      process_geo_pos_result_async (RT := example_runtime)
        (Some (Response.Array
                 [Response.Null;
                  Response.Array [Response.String "13.5"; Response.Float 38.25]]))
        IS_NULL
      = (1, IS_ARRAY ht)
      /\ zend_hash_index_find ht 0 = Some IS_NULL
      /\ zend_hash_index_find ht 1
         = Some (IS_ARRAY [(KIdx 0, IS_DOUBLE 13.5); (KIdx 1, IS_DOUBLE 38.25)]))
  /\ process_geo_pos_result_async (RT := example_runtime) (Some (Response.Int 5)) IS_NULL
     = (0, IS_ARRAY []).
Proof.
  destruct (@geopos_decoding_keeps_positions example_runtime
              [None; Some (AsText "13.5", AsFloat 38.25)] [] IS_NULL)
    as ((ht & Hdecode & _ & Hlookup) & _ & Hother).
  split.
  - exists ht. split; [exact Hdecode|].
    split; [exact (Hlookup 0%nat)|].
    refine (eq_trans (Hlookup 1%nat) _). vm_compute. reflexivity.
  - apply Hother. intros l. discriminate.
Defined.

Lemma geo_search_decoder_needs_a_field_list_witness :
  any_flag coord_and_dist = true
  /\ process_geo_search_result_async (RT := example_runtime)
       (Some (Response.Array [Response.Array [Response.String "Palermo"]]))
       (Some coord_and_dist) IS_NULL
     = None.
Proof.
  split; [reflexivity|].
  pose proof (@geo_search_decoder_needs_a_field_list example_runtime coord_and_dist
                [Response.Array [Response.String "Palermo"]] IS_NULL eq_refl) as H.
  destruct (process_geo_search_result_async _ _ _) as [r|]; [|reflexivity].
  assert (Hall : false = true) by (apply H; discriminate).
  discriminate Hall.
Defined.

Lemma geo_error_reply_is_not_decoded_witness :
  exists o,
    invoke (RT := erroring_runtime) standalone_client this_object
      (CallGeoDist "pts" "Palermo" "Catania" None) IS_NULL = Some o
    /\ ret o = 0 /\ return_value o = IS_NULL.
Proof.
  assert (He : forall cmd n a r,
             execute_command (Runtime := erroring_runtime) cmd n a = Some r ->
             command_error r <> None).
  { intros cmd n a r H. cbn [execute_command erroring_runtime reference_runtime] in H.
    unfold flagging in H. destruct (example_engine cmd n a); [|discriminate].
    injection H as <-. discriminate. }
  destruct (@geo_error_reply_is_not_decoded erroring_runtime standalone_client
              this_object (CallGeoDist "pts" "Palermo" "Catania" None) IS_NULL
              eq_refl eq_refl He) as (o & Ho & Hret & Hrv & _).
  exists o. split; [exact Ho|split; [exact Hret|exact Hrv]].
Defined.

Lemma geo_batch_calls_always_report_success_witness :
  buffer_command_for_batch (Runtime := refusing_runtime) batching_client
    {| be_cmd_type := GeoDist;
       be_args := [arg_of "pts"; arg_of "Palermo"; arg_of "Catania"];
       be_arg_count := 3; be_result_ptr := PtrNull;
       be_process_result := process_geo_double_result_async_fn |} = 0
  /\ exists o,
      invoke (RT := refusing_runtime) batching_client this_object
        (CallGeoDist "pts" "Palermo" "Catania" None) IS_NULL = Some o
      /\ ret o = 1 /\ return_value o = this_object.
Proof.
  split; [reflexivity|].
  destruct (@geo_batch_calls_always_report_success refusing_runtime batching_client
              this_object 1 (CallGeoDist "pts" "Palermo" "Catania" None) IS_NULL
              eq_refl eq_refl eq_refl) as (o & Ho & Hret & Hrv & _).
  exists o. split; [exact Ho|split; [exact Hret|exact Hrv]].
Defined.

Lemma geoadd_sends_whole_triplets_only_witness :
  execute_geoadd_command (RT := example_runtime) standalone_client this_object "pts"
    [IS_DOUBLE 13.361389; IS_DOUBLE 38.115556] IS_NULL
  = Some (failed IS_NULL
            [EvWarning "geoadd requires at least one longitude/latitude/member triplet"]).
Proof.
  assert (Hfit : Z.of_nat (List.length [IS_DOUBLE 13.361389; IS_DOUBLE 38.115556])
                 < INT_MAX) by reflexivity.
  exact (@geoadd_sends_whole_triplets_only example_runtime standalone_client
           this_object 1 "pts" [IS_DOUBLE 13.361389; IS_DOUBLE 38.115556] IS_NULL
           eq_refl Hfit).
Defined.

Lemma geosearch_position_and_shape_witness :
  exists msg,
    execute_geosearch_command (RT := example_runtime) standalone_client this_object
      (members_near (IS_LONG 5)) IS_NULL
    = Some (failed IS_NULL [EvWarning msg]).
Proof.
  destruct (@geosearch_position_and_shape example_runtime (members_near (IS_LONG 5))
              false) as (_ & Hbad).
  destruct (Hbad eq_refl) as (msg & _ & Hcall).
  exists msg. apply Hcall.
Defined.

Lemma geosearch_options_do_not_cross_witness :
  prepare_geo_search_unified_args (RT := example_runtime)
    (set_options
       {| gp_key := Some "pts"; gp_key_len := 3; gp_src_key := None; gp_src_key_len := 0;
          gp_unit := Some "km"; gp_unit_len := 2; gp_is_from_member := true;
          gp_member := Some "Palermo"; gp_member_len := 7;
          gp_longitude := zero; gp_latitude := zero; gp_is_by_radius := true;
          gp_radius := 200; gp_width := zero; gp_height := zero;
          gp_options := no_radius_options |}
       (set_any no_radius_options)) false
  = prepare_geo_search_unified_args (RT := example_runtime)
      (set_options
         {| gp_key := Some "pts"; gp_key_len := 3; gp_src_key := None;
            gp_src_key_len := 0;
            gp_unit := Some "km"; gp_unit_len := 2; gp_is_from_member := true;
            gp_member := Some "Palermo"; gp_member_len := 7;
            gp_longitude := zero; gp_latitude := zero; gp_is_by_radius := true;
            gp_radius := 200; gp_width := zero; gp_height := zero;
            gp_options := no_radius_options |}
         no_radius_options) false.
Proof.
  assert (Hc : ro_count no_radius_options <= 0) by (simpl; lia).
  apply (@geosearch_options_do_not_cross example_runtime), Hc.
Defined.
